(** * KDB+ MCP client ([aiq_aira/kdb_tools_nat.py]): a shallow embedding

    The development follows the Python module top-down:

    - [PyStr]: the [str] methods and the [re] calls the client uses,
      written out as functions on strings;
    - [Json]: the value type and decoder of [json.loads];
    - [Extract]: [KDBNATClient._extract_json] and the SQL cleanup of
      [simple_chat_query];
    - [Client]: the client object, the transport and model oracles, and the
      stateful methods ([call_tool], [discover_data_content],
      [_discover_schema], [refresh_schema], [intelligent_query],
      [simple_chat_query]) in a state-and-exception monad.

    Text is modelled as byte strings (the standard library's [string]); the
    character classes of Python ([str.strip], [\s], [str.lower],
    [re.IGNORECASE]) are the ASCII ones, a byte above 127 is an ordinary
    character without case. *)

From Stdlib Require Import String Ascii List ZArith NArith QArith Bool Lia.
From Stdlib Require Import DecimalString.
Import ListNotations.
Close Scope Q_scope.
Open Scope string_scope.
Set Warnings "-register-all".

(* ===================================================================== *)
(** ** Python string operations *)
(* ===================================================================== *)

Module PyStr.

(** [c.isspace()] restricted to ASCII: TAB..CR, FS..US and space. Both
    [str.strip()] and the regular-expression class [\s] use this set. *)
Definition is_space (c : ascii) : bool :=
  let n := nat_of_ascii c in
  ((9 <=? n)%nat && (n <=? 13)%nat) || ((28 <=? n)%nat && (n <=? 32)%nat).

Definition is_upper (c : ascii) : bool :=
  let n := nat_of_ascii c in (65 <=? n)%nat && (n <=? 90)%nat.

Definition is_lower (c : ascii) : bool :=
  let n := nat_of_ascii c in (97 <=? n)%nat && (n <=? 122)%nat.

Definition is_digit (c : ascii) : bool :=
  let n := nat_of_ascii c in (48 <=? n)%nat && (n <=? 57)%nat.

(** The class [\w]: letters, digits and the underscore. *)
Definition is_word (c : ascii) : bool :=
  is_upper c || is_lower c || is_digit c || Ascii.eqb c "_".

Definition lower_char (c : ascii) : ascii :=
  if is_upper c then ascii_of_nat (nat_of_ascii c + 32) else c.

Definition upper_char (c : ascii) : ascii :=
  if is_lower c then ascii_of_nat (nat_of_ascii c - 32) else c.

Fixpoint map_chars (f : ascii -> ascii) (s : string) : string :=
  match s with
  | EmptyString => EmptyString
  | String c r => String (f c) (map_chars f r)
  end.

(** [s.lower()] and [s.upper()]. *)
Definition lower : string -> string := map_chars lower_char.
Definition upper : string -> string := map_chars upper_char.

(** [s.startswith(p)]. *)
Fixpoint startswith (p s : string) : bool :=
  match p, s with
  | EmptyString, _ => true
  | String a p', String b s' => Ascii.eqb a b && startswith p' s'
  | String _ _, EmptyString => false
  end.

(** Matching a literal under [re.IGNORECASE]. *)
Definition startswith_ci (p s : string) : bool :=
  startswith (lower p) (lower s).

(** [s[n:]]. *)
Fixpoint drop (n : nat) (s : string) : string :=
  match n, s with
  | O, _ => s
  | S n', String _ r => drop n' r
  | S _, EmptyString => EmptyString
  end.

(** [s[:n]]. *)
Fixpoint take (n : nat) (s : string) : string :=
  match n, s with
  | O, _ => EmptyString
  | S n', String c r => String c (take n' r)
  | S _, EmptyString => EmptyString
  end.

(** First occurrence of a literal: the text before it and the text after
    it. [ci] selects case-insensitive matching. *)
Fixpoint split_first (ci : bool) (needle s : string) : option (string * string) :=
  if (if ci then startswith_ci needle s else startswith needle s)
  then Some (EmptyString, drop (String.length needle) s)
  else match s with
       | EmptyString => None
       | String c r =>
           match split_first ci needle r with
           | Some (pre, post) => Some (String c pre, post)
           | None => None
           end
       end.

(** [needle in s]. *)
Definition contains (needle s : string) : bool :=
  match split_first false needle s with Some _ => true | None => false end.

(** [s.find(needle)], with [None] for [-1]. *)
Definition find (needle s : string) : option nat :=
  match split_first false needle s with
  | Some (pre, _) => Some (String.length pre)
  | None => None
  end.

(** [s.rfind(c)] for a one-character needle. *)
Fixpoint rfind_char (c : ascii) (s : string) : option nat :=
  match s with
  | EmptyString => None
  | String d r =>
      match rfind_char c r with
      | Some i => Some (S i)
      | None => if Ascii.eqb c d then Some 0 else None
      end
  end.

(** [s.replace(old, new)] for a non-empty [old]; the fuel is the length
    of [s], one unit per character consumed. *)
Fixpoint replace_fuel (fuel : nat) (old new s : string) : string :=
  match fuel with
  | O => s
  | S fuel' =>
      match s with
      | EmptyString => EmptyString
      | String c r =>
          if startswith old s
          then new ++ replace_fuel fuel' old new (drop (String.length old) s)
          else String c (replace_fuel fuel' old new r)
      end
  end.

Definition replace (old new s : string) : string :=
  replace_fuel (String.length s) old new s.

Fixpoint lstrip_by (p : ascii -> bool) (s : string) : string :=
  match s with
  | EmptyString => EmptyString
  | String c r => if p c then lstrip_by p r else s
  end.

Fixpoint rstrip_by (p : ascii -> bool) (s : string) : string :=
  match s with
  | EmptyString => EmptyString
  | String c r =>
      match rstrip_by p r with
      | EmptyString => if p c then EmptyString else String c EmptyString
      | r' => String c r'
      end
  end.

Definition strip_by (p : ascii -> bool) (s : string) : string :=
  rstrip_by p (lstrip_by p s).

(** [s.strip()]. *)
Definition strip : string -> string := strip_by is_space.

Fixpoint mem_char (c : ascii) (chars : string) : bool :=
  match chars with
  | EmptyString => false
  | String d r => Ascii.eqb c d || mem_char c r
  end.

(** [s.strip(chars)]. *)
Definition strip_chars (chars : string) : string -> string :=
  strip_by (fun c => mem_char c chars).

(** The longest prefix of characters in a class, and what follows it. *)
Fixpoint span_by (p : ascii -> bool) (s : string) : string * string :=
  match s with
  | EmptyString => (EmptyString, EmptyString)
  | String c r =>
      if p c then let (a, b) := span_by p r in (String c a, b)
      else (EmptyString, s)
  end.

(** [str(n)] for a natural number. *)
Definition str_of_nat (n : nat) : string :=
  NilZero.string_of_uint (Nat.to_uint n).

(** [sep.join(parts)]. *)
Fixpoint join (sep : string) (parts : list string) : string :=
  match parts with
  | [] => EmptyString
  | [p] => p
  | p :: rest => p ++ sep ++ join sep rest
  end.

(** [bool(s)] for a string. *)
Definition nonempty (s : string) : bool :=
  match s with EmptyString => false | _ => true end.

(** [x in xs] for a list of strings. *)
Definition mem_str (x : string) (xs : list string) : bool :=
  existsb (String.eqb x) xs.

(** [any(k in s for k in keywords)]. *)
Definition any_keyword_in (keywords : list string) (s : string) : bool :=
  existsb (fun k => contains k s) keywords.

Definition NL : string := String (ascii_of_nat 10) EmptyString.
Definition DQ : string := String (ascii_of_nat 34) EmptyString.
Definition BSL : string := String (ascii_of_nat 92) EmptyString.

(** [s] between double quotes. *)
Definition quoted (s : string) : string := DQ ++ s ++ DQ.

End PyStr.

(* ===================================================================== *)
(** ** JSON values and [json.loads] *)
(* ===================================================================== *)

Module Json.

(** What [json.loads] builds. An integer literal becomes [JInt]; a literal
    with a fraction or an exponent is a Python float, kept here as its exact
    decimal value [m * 10^e] with [m] not divisible by ten ([JFloat 0 0] for
    zero), so that equal decimals are equal terms. An object is a Python
    [dict]: an association list in insertion order without duplicate keys. *)
Inductive json : Type :=
| JNull
| JBool (b : bool)
| JInt (z : Z)
| JFloat (m e : Z)
| JNaN
| JInf (negative : bool)
| JString (s : string)
| JArray (items : list json)
| JObject (members : list (string * json)).

(** [d[k] = v] on a [dict]: an existing key keeps its position. *)
Fixpoint dict_set {V : Type} (k : string) (v : V) (d : list (string * V))
  : list (string * V) :=
  match d with
  | [] => [(k, v)]
  | (k', v') :: rest =>
      if String.eqb k k' then (k, v) :: rest else (k', v') :: dict_set k v rest
  end.

(** [d.get(k)]. *)
Fixpoint dict_get {V : Type} (k : string) (d : list (string * V)) : option V :=
  match d with
  | [] => None
  | (k', v) :: rest => if String.eqb k k' then Some v else dict_get k rest
  end.

(** [k in d]. *)
Definition dict_has {V : Type} (k : string) (d : list (string * V)) : bool :=
  match dict_get k d with Some _ => true | None => false end.

(** [list(d.keys())]. *)
Definition dict_keys {V : Type} (d : list (string * V)) : list string :=
  map fst d.

(** The decoder's whitespace: space, TAB, LF, CR. *)
Definition is_json_ws (c : ascii) : bool :=
  let n := nat_of_ascii c in
  Nat.eqb n 32 || Nat.eqb n 9 || Nat.eqb n 10 || Nat.eqb n 13.

Definition skip_ws : string -> string := PyStr.lstrip_by is_json_ws.

Definition hexval (c : ascii) : option N :=
  let n := N_of_ascii c in
  if PyStr.is_digit c then Some (n - 48)%N
  else if ((97 <=? n) && (n <=? 102))%N then Some (n - 87)%N
  else if ((65 <=? n) && (n <=? 70))%N then Some (n - 55)%N
  else None.

(** The four hexadecimal digits of a [\uXXXX] escape. *)
Definition decode4 (s : string) : option (N * string) :=
  match s with
  | String a (String b (String c (String d r))) =>
      match hexval a, hexval b, hexval c, hexval d with
      | Some x, Some y, Some z, Some w =>
          Some ((((x * 16 + y) * 16 + z) * 16 + w)%N, r)
      | _, _, _, _ => None
      end
  | _ => None
  end.

Definition byte (n : N) : string := String (ascii_of_N n) EmptyString.

(** A code point as UTF-8 bytes (a lone surrogate takes the same three-byte
    form). *)
Definition utf8 (cp : N) : string :=
  (if cp <? 128 then byte cp
   else if cp <? 2048 then byte (192 + cp / 64) ++ byte (128 + cp mod 64)
   else if cp <? 65536 then
     byte (224 + cp / 4096) ++ byte (128 + (cp / 64) mod 64)
       ++ byte (128 + cp mod 64)
   else
     byte (240 + cp / 262144) ++ byte (128 + (cp / 4096) mod 64)
       ++ byte (128 + (cp / 64) mod 64) ++ byte (128 + cp mod 64))%N.

(** The single-character escapes of a JSON string. *)
Definition simple_escape (c : ascii) : option string :=
  match nat_of_ascii c with
  | 34 => Some (byte 34)      (* quote *)
  | 92 => Some (byte 92)      (* backslash *)
  | 47 => Some (byte 47)      (* slash *)
  | 98 => Some (byte 8)       (* b: backspace *)
  | 102 => Some (byte 12)     (* f: form feed *)
  | 110 => Some (byte 10)     (* n: line feed *)
  | 114 => Some (byte 13)     (* r: carriage return *)
  | 116 => Some (byte 9)      (* t: tab *)
  | _ => None
  end.

(** [scanstring] in strict mode, entered just after the opening quote:
    the decoded string and the text after the closing quote. *)
Fixpoint scanstring (fuel : nat) (s : string) : option (string * string) :=
  match fuel with
  | O => None
  | S fuel' =>
      match s with
      | EmptyString => None
      | String c r =>
          let n := nat_of_ascii c in
          if Nat.eqb n 34 then Some (EmptyString, r)
          else if Nat.ltb n 32 then None
          else if Nat.eqb n 92 then
            match r with
            | EmptyString => None
            | String e r1 =>
                if Nat.eqb (nat_of_ascii e) 117 then
                  match decode4 r1 with
                  | None => None
                  | Some (u, r2) =>
                      let continue (cp : N) (rest : string) :=
                        match scanstring fuel' rest with
                        | Some (t, rest') => Some (utf8 cp ++ t, rest')
                        | None => None
                        end in
                      if ((55296 <=? u) && (u <=? 56319))%N
                         && PyStr.startswith (PyStr.BSL ++ "u") r2
                      then
                        match decode4 (PyStr.drop 2 r2) with
                        | None => None
                        | Some (u2, r3) =>
                            if ((56320 <=? u2) && (u2 <=? 57343))%N
                            then continue
                                   (65536 + ((u - 55296) * 1024 + (u2 - 56320)))%N r3
                            else continue u r2
                        end
                      else continue u r2
                  end
                else
                  match simple_escape e with
                  | None => None
                  | Some t =>
                      match scanstring fuel' r1 with
                      | Some (t', rest) => Some (t ++ t', rest)
                      | None => None
                      end
                  end
            end
          else
            match scanstring fuel' r with
            | Some (t, rest) => Some (String c t, rest)
            | None => None
            end
      end
  end.

(** The longest prefix of decimal digits and what follows it. *)
Fixpoint span_digits (s : string) : string * string :=
  match s with
  | EmptyString => (EmptyString, EmptyString)
  | String c r =>
      if PyStr.is_digit c
      then let (d, rest) := span_digits r in (String c d, rest)
      else (EmptyString, s)
  end.

Fixpoint Z_of_digits_acc (acc : Z) (s : string) : Z :=
  match s with
  | EmptyString => acc
  | String c r => Z_of_digits_acc (acc * 10 + (Z.of_nat (nat_of_ascii c) - 48))%Z r
  end.

Definition Z_of_digits : string -> Z := Z_of_digits_acc 0%Z.

(** Strip the factors of ten from a mantissa. *)
Fixpoint normalize_decimal (fuel : nat) (m e : Z) : Z * Z :=
  match fuel with
  | O => (m, e)
  | S fuel' =>
      if (m =? 0)%Z then (0%Z, 0%Z)
      else if (m mod 10 =? 0)%Z then normalize_decimal fuel' (m / 10)%Z (e + 1)%Z
      else (m, e)
  end.

(** The decoder's number pattern: an optional minus sign, then a zero or a
    digit string without a leading zero; an optional fraction (a point and at
    least one digit); an optional exponent ([e] or [E], an optional sign, at
    least one digit). *)
Definition scan_number (s : string) : option (json * string) :=
  let (neg, s1) :=
    match s with
    | String "-" r => (true, r)
    | _ => (false, s)
    end in
  let int_part : option (string * string) :=
    match s1 with
    | String c r =>
        if Ascii.eqb c "0" then Some ("0", r)
        else if PyStr.is_digit c then Some (span_digits s1)
        else None
    | EmptyString => None
    end in
  match int_part with
  | None => None
  | Some (ds, s2) =>
      let (frac, s3) :=
        match s2 with
        | String "." r =>
            match span_digits r with
            | (EmptyString, _) => (None, s2)
            | (fd, rest) => (Some fd, rest)
            end
        | _ => (None, s2)
        end in
      let (expo, s4) :=
        match s3 with
        | String c r =>
            if Ascii.eqb c "e" || Ascii.eqb c "E" then
              let (eneg, r1) :=
                match r with
                | String "-" r' => (true, r')
                | String "+" r' => (false, r')
                | _ => (false, r)
                end in
              match span_digits r1 with
              | (EmptyString, _) => (None, s3)
              | (ed, rest) =>
                  (Some (if eneg then (- Z_of_digits ed)%Z else Z_of_digits ed), rest)
              end
            else (None, s3)
        | EmptyString => (None, s3)
        end in
      let sign (z : Z) := if neg then (- z)%Z else z in
      match frac, expo with
      | None, None => Some (JInt (sign (Z_of_digits ds)), s4)
      | _, _ =>
          let fd := match frac with Some d => d | None => EmptyString end in
          let ex := match expo with Some z => z | None => 0%Z end in
          let all := ds ++ fd in
          let (m, e) :=
            normalize_decimal (String.length all)
              (sign (Z_of_digits all)) (ex - Z.of_nat (String.length fd))%Z in
          Some (JFloat m e, s4)
      end
  end.

(** A literal keyword at the head of the text. *)
Definition literal (word : string) (v : json) (s : string) : option (json * string) :=
  if PyStr.startswith word s then Some (v, PyStr.drop (String.length word) s)
  else None.

(** What the scanner is reading: one value, the members of an object
    (entered just after the opening quote of a key), or the elements of an
    array (entered at the first character of an element). *)
Inductive mode : Type :=
| MValue
| MMembers (acc : list (string * json))
| MElements (acc : list json).

(** [scan_once] with [JSONObject] and [JSONArray]. The fuel bounds the
    depth of the calls, each of which consumes a character. *)
Fixpoint scan (fuel : nat) (m : mode) (s : string) : option (json * string) :=
  match fuel with
  | O => None
  | S fuel' =>
      match m with
      | MValue =>
          match s with
          | EmptyString => None
          | String c r =>
              match nat_of_ascii c with
              | 34 (* quote *) =>
                  match scanstring (String.length s) r with
                  | Some (t, rest) => Some (JString t, rest)
                  | None => None
                  end
              | 123 (* { *) =>
                  match skip_ws r with
                  | String c1 r1 =>
                      match nat_of_ascii c1 with
                      | 125 => Some (JObject [], r1)
                      | 34 => scan fuel' (MMembers []) r1
                      | _ => None
                      end
                  | EmptyString => None
                  end
              | 91 (* [ *) =>
                  match skip_ws r with
                  | String c1 r1 =>
                      match nat_of_ascii c1 with
                      | 93 => Some (JArray [], r1)
                      | _ => scan fuel' (MElements []) (String c1 r1)
                      end
                  | EmptyString => None
                  end
              | _ =>
                  match literal "null" JNull s with
                  | Some res => Some res
                  | None =>
                  match literal "true" (JBool true) s with
                  | Some res => Some res
                  | None =>
                  match literal "false" (JBool false) s with
                  | Some res => Some res
                  | None =>
                  match scan_number s with
                  | Some res => Some res
                  | None =>
                  match literal "NaN" JNaN s with
                  | Some res => Some res
                  | None =>
                  match literal "Infinity" (JInf false) s with
                  | Some res => Some res
                  | None => literal "-Infinity" (JInf true) s
                  end end end end end end
              end
          end
      | MMembers acc =>
          match scanstring (S (String.length s)) s with
          | None => None
          | Some (key, r) =>
              match skip_ws r with
              | String ":" r1 =>
                  match scan fuel' MValue (skip_ws r1) with
                  | None => None
                  | Some (v, r2) =>
                      let acc' := dict_set key v acc in
                      match skip_ws r2 with
                      | String c3 r3 =>
                          match nat_of_ascii c3 with
                          | 125 => Some (JObject acc', r3)
                          | 44 =>
                              match skip_ws r3 with
                              | String c4 r4 =>
                                  if Nat.eqb (nat_of_ascii c4) 34
                                  then scan fuel' (MMembers acc') r4
                                  else None
                              | EmptyString => None
                              end
                          | _ => None
                          end
                      | EmptyString => None
                      end
                  end
              | _ => None
              end
          end
      | MElements acc =>
          match scan fuel' MValue s with
          | None => None
          | Some (v, r) =>
              match skip_ws r with
              | String c1 r1 =>
                  match nat_of_ascii c1 with
                  | 93 => Some (JArray (acc ++ [v]), r1)
                  | 44 => scan fuel' (MElements (acc ++ [v])) (skip_ws r1)
                  | _ => None
                  end
              | EmptyString => None
              end
          end
      end
  end.

(** [json.loads(s)]: [None] stands for [JSONDecodeError]. Leading and
    trailing whitespace is allowed, anything else after the value is
    "Extra data". *)
Definition loads (s : string) : option json :=
  match scan (S (String.length s)) MValue (skip_ws s) with
  | Some (v, rest) =>
      match skip_ws rest with
      | EmptyString => Some v
      | _ => None
      end
  | None => None
  end.

End Json.

(* ===================================================================== *)
(** ** Text extraction: [_extract_json] and the SQL cleanup *)
(* ===================================================================== *)

Module Extract.

Import PyStr Json.

Definition THINK_OPEN : string := "<think>".
Definition THINK_CLOSE : string := "</think>".
Definition FENCE : string := "```".

(** [re.sub] of an opening tag, a lazy run of any characters and a closing
    tag, by the empty string, ignoring case: every opening tag that has a
    closing tag after it is removed together with the text up to the first
    such closing tag, and the search resumes after it. *)
Fixpoint strip_closed_think (fuel : nat) (text : string) : string :=
  match fuel with
  | O => text
  | S fuel' =>
      match text with
      | EmptyString => EmptyString
      | String c r =>
          if startswith_ci THINK_OPEN text then
            match split_first true THINK_CLOSE (drop (String.length THINK_OPEN) text) with
            | Some (_, post) => strip_closed_think fuel' post
            | None => String c (strip_closed_think fuel' r)
            end
          else String c (strip_closed_think fuel' r)
      end
  end.

(** [re.sub] of an opening tag followed by a greedy run of any characters
    up to the end of the string: the text is cut at the first opening tag. *)
Definition strip_open_think (text : string) : string :=
  match split_first true THINK_OPEN text with
  | Some (pre, _) => pre
  | None => text
  end.

(** The two substitutions that every consumer of model output applies. *)
Definition strip_think (text : string) : string :=
  strip_open_think (strip_closed_think (String.length text) text).

(** The last closing brace that is followed, after optional whitespace, by
    a fence: where the greedy group of the code-block pattern ends. *)
Fixpoint last_fenced_brace (s : string) : option nat :=
  match s with
  | EmptyString => None
  | String c r =>
      match last_fenced_brace r with
      | Some i => Some (S i)
      | None =>
          if Ascii.eqb c "}" && startswith FENCE (lstrip_by is_space r)
          then Some 0
          else None
      end
  end.

(** The code-block pattern anchored at the head of [s]: a fence, an
    optional [json], optional whitespace, then the group, which runs from an
    opening brace to the last closing brace that a fence follows. The value
    is the group. *)
Definition match_code_block_at (s : string) : option string :=
  if startswith FENCE s then
    let r := drop 3 s in
    let r := if startswith "json" r then drop 4 r else r in
    match lstrip_by is_space r with
    | String c body =>
        if Ascii.eqb c "{" then
          match last_fenced_brace body with
          | Some p => Some (String c (take (S p) body))
          | None => None
          end
        else None
    | EmptyString => None
    end
  else None.

(** [re.search] of the code-block pattern: the leftmost position where it
    matches. *)
Fixpoint search_code_block (s : string) : option string :=
  match match_code_block_at s with
  | Some g => Some g
  | None =>
      match s with
      | EmptyString => None
      | String _ r => search_code_block r
      end
  end.

(** [text[i:j]]. *)
Definition slice (text : string) (i j : nat) : string :=
  take (j - i) (drop i text).

(** The balanced-brace loop of [_extract_json]: [depth] may go negative,
    [start] is [None] for [-1], [i] is the index of the head of [s] in
    [text]. *)
Fixpoint balanced_scan (text : string) (depth : Z) (start : option nat)
    (i : nat) (s : string) : option string :=
  match s with
  | EmptyString => None
  | String c r =>
      if Ascii.eqb c "{" then
        balanced_scan text (depth + 1)%Z
          (if (depth =? 0)%Z then Some i else start) (S i) r
      else if Ascii.eqb c "}" then
        let depth' := (depth - 1)%Z in
        match (depth' =? 0)%Z, start with
        | true, Some st =>
            let candidate := slice text st (S i) in
            match loads candidate with
            | Some _ => Some candidate
            | None => balanced_scan text depth' None (S i) r
            end
        | _, _ => balanced_scan text depth' start (S i) r
        end
      else balanced_scan text depth start (S i) r
  end.

(** [KDBNATClient._extract_json]. *)
Definition _extract_json (text : string) : option string :=
  let text := strip_closed_think (String.length text) text in
  let text := strip_open_think text in
  let text := strip text in
  if negb (nonempty text) then None
  else
    let fenced :=
      match search_code_block text with
      | Some g =>
          let candidate := strip g in
          match loads candidate with
          | Some _ => Some candidate
          | None => None
          end
      | None => None
      end in
    match fenced with
    | Some candidate => Some candidate
    | None =>
        match find "{" text with
        | None => None
        | Some first_brace =>
            match rfind_char "}" text with
            | None => None
            | Some last_brace =>
                if (last_brace <=? first_brace)%nat then None
                else
                  let candidate := slice text first_brace (S last_brace) in
                  match loads candidate with
                  | Some _ => Some candidate
                  | None => balanced_scan text 0%Z None 0 text
                  end
            end
        end
    end.

(** [re.search] of [SELECT], whitespace and at least one more character,
    ignoring case and with the dot matching newlines: the match runs from the
    leftmost such [SELECT] to the end of the text. *)
Fixpoint search_select (s : string) : option string :=
  let here :=
    startswith_ci "SELECT" s &&
    match drop 6 s with
    | String c (String _ _) => is_space c
    | _ => false
    end in
  if here then Some s
  else match s with
       | EmptyString => None
       | String _ r => search_select r
       end.

(** The cleanup that [simple_chat_query] applies to the model's reply
    before executing it; [None] is the "Could not generate SQL" exit. *)
Definition clean_sql (content : string) : option string :=
  let sql_query := strip content in
  let sql_query := strip_closed_think (String.length sql_query) sql_query in
  let sql_query := strip_open_think sql_query in
  let sql_query := strip (replace FENCE EmptyString (replace (FENCE ++ "sql") EmptyString sql_query)) in
  let sql_query := strip_chars (DQ ++ "'") sql_query in
  let sql_query := replace (BSL ++ DQ) DQ sql_query in
  let sql_query := replace (BSL ++ "'") "'" sql_query in
  if startswith "SELECT" (upper sql_query) then Some sql_query
  else
    match search_select sql_query with
    | Some m => Some (strip m)
    | None => None
    end.

End Extract.

(* ===================================================================== *)
(** ** The client object and its environment *)
(* ===================================================================== *)

Module Client.

Import PyStr Json Extract.

(** *** Tool results *)

(** An item of [result.content] as the MCP session delivers it: an object
    with a [text] attribute; an object with [type] and [data]; an embedded
    resource; anything else, of which only [str(item)] is used. *)
Inductive mcp_item : Type :=
| McpText (text : string)
| McpBlob (type data : string)
| McpEmbedded (uri text mimeType : string)
| McpOther (repr : string).

(** An item of the [content] list that [call_tool] returns: the three
    dict shapes it builds. *)
Inductive content_item : Type :=
| CText (text : string)
| CData (type data : string)
| CResource (uri text mimeType : string).

(** [item.get("type")] and [item.get("text", "")]. *)
Definition item_type (c : content_item) : string :=
  match c with
  | CText _ => "text"
  | CData ty _ => ty
  | CResource _ _ _ => "resource"
  end.

Definition item_text (c : content_item) : string :=
  match c with
  | CText t => t
  | CData _ _ => EmptyString
  | CResource _ t _ => t
  end.

Definition is_text_item (c : content_item) : bool :=
  String.eqb (item_type c) "text".

(** What [session.call_tool] returns: an object of which [call_tool] reads
    the attributes [isError], [content] and [structuredContent] ([None] when
    the attribute is missing) and otherwise [str(result)]; or a [dict], of
    which the keys that the client reads later are kept. *)
Inductive mcp_result : Type :=
| McpObject (isError : option bool) (content : option (list mcp_item))
    (structuredContent : option json) (repr : string)
| McpDict (isError : option bool) (content : option (list content_item))
    (error : option string).

(** The dict that [call_tool] returns; an optional key is an [option]. *)
Record tool_result : Type := mk_tool_result {
  r_tool : json;
  r_arguments : json;
  r_isError : bool;
  r_content : option (list content_item);
  r_error : option string;
  r_structuredContent : option json;
  r_purpose : option string
}.

(** [bool(result.get("error"))]. *)
Definition has_error (r : tool_result) : bool :=
  match r_error r with
  | Some e => nonempty e
  | None => false
  end.

(** [result.get("content", [])]. *)
Definition get_content (r : tool_result) : list content_item :=
  match r_content r with
  | Some items => items
  | None => []
  end.

(** [not result.get("error") and not result.get("isError")]. *)
Definition succeeded (r : tool_result) : bool :=
  negb (has_error r) && negb (r_isError r).

Definition with_purpose (p : string) (r : tool_result) : tool_result :=
  mk_tool_result (r_tool r) (r_arguments r) (r_isError r) (r_content r)
    (r_error r) (r_structuredContent r) (Some p).

(** *** Tools and resources *)

(** A parameter of a tool's input schema. *)
Record param_info : Type := mk_param {
  pi_type : option string;
  pi_description : option string
}.

Record input_schema : Type := mk_schema {
  properties : list (string * param_info);
  required : list string
}.

(** A tool as [session.list_tools] describes it. *)
Record tool : Type := mk_tool {
  t_name : string;
  t_description : option string;
  t_inputSchema : option input_schema
}.

(** The annotations dict of a resource. [audience] is a list of strings or
    a single string. *)
Inductive audience_value : Type :=
| AudienceList (names : list string)
| AudienceName (name : string).

Record annotations : Type := mk_annotations {
  audience : option audience_value;
  priority : option Q
}.

(** A resource as [session.list_resources] describes it. *)
Record mcp_resource : Type := mk_mcp_resource {
  mr_uri : string;
  mr_name : string;
  mr_description : option string;
  mr_mimeType : option string;
  mr_annotations : option annotations
}.

(** An entry of [self._resources]. *)
Record resource : Type := mk_resource {
  uri : string;
  name : string;
  description : string;
  mimeType : string;
  res_annotations : option annotations
}.

(** What [session.read_resource] returns: contents, each with or without
    a [text]; or something of which only the string form is used. *)
Inductive read_result : Type :=
| ReadContents (parts : list (option string))
| ReadRaw (text : string).

(** *** Data content *)

(** The per-table dict built by [discover_data_content]. *)
Record table_info : Type := mk_table_info {
  columns : list string;
  row_count : option json;
  symbols : option (list json);
  symbol_column : option string;
  date_range : option (string * string);
  date_column : option string;
  text_columns : option (list string);
  sample_text : option (string * list json)
}.

(** *** Prompts *)

(** A prompt is identified by the values substituted into its template;
    the fixed text of the templates is not reproduced. *)
Inductive prompt : Type :=
| PlanPrompt (tools_description schema_description data_content
              sql_guidance additional_context user_query : string)
| SynthesisPrompt (user_query tool_results : string)
| SchemaAnswerPrompt (schema_info user_query : string)
| SqlPrompt (schema data_content user_query : string)
| SimpleAnswerPrompt (user_query sql_query : string) (rows : nat)
    (data_preview : json).

(** *** The client *)

Record client : Type := mk_client {
  _tools : list (string * tool);
  _tools_description : string;
  _resources : list resource;
  _schema_description : string;
  _sql_guidance : string;
  _additional_context : list (string * string);
  _initialized : bool;
  _data_content : list (string * table_info);
  _data_content_discovered : bool;
  symbol_patterns : list string;
  date_patterns : list string;
  text_patterns : list string;
  table_filter_words : list string
}.

Definition DEFAULT_SYMBOL_PATTERNS : list string :=
  ["sym"; "symbol"; "ticker"; "stock"; "instrument"; "security"].
Definition DEFAULT_DATE_PATTERNS : list string :=
  ["date"; "datetime"; "time"; "timestamp"; "dt"; "ts"].
Definition DEFAULT_TEXT_PATTERNS : list string :=
  ["title"; "summary"; "description"; "text"; "content"; "name";
   "headline"; "body"; "message"; "comment"; "note"].
Definition DEFAULT_TABLE_FILTER_WORDS : list string :=
  ["table"; "tables"; "schema"; "column"; "columns"; "type"; "description";
   "example"; "name"; "the"; "select"; "from"; "where"; "and"; "or"; "not"].

(** [x or default] for a list argument. *)
Definition or_default (x : option (list string)) (d : list string) : list string :=
  match x with
  | Some (y :: ys) => y :: ys
  | _ => d
  end.

(** [KDBNATClient.__init__]. *)
Definition __init__ (symbol_patterns date_patterns text_patterns
                     table_filter_words : option (list string)) : client :=
  {| _tools := [];
     _tools_description := EmptyString;
     _resources := [];
     _schema_description := EmptyString;
     _sql_guidance := EmptyString;
     _additional_context := [];
     _initialized := false;
     _data_content := [];
     _data_content_discovered := false;
     symbol_patterns := or_default symbol_patterns DEFAULT_SYMBOL_PATTERNS;
     date_patterns := or_default date_patterns DEFAULT_DATE_PATTERNS;
     text_patterns := or_default text_patterns DEFAULT_TEXT_PATTERNS;
     table_filter_words := or_default table_filter_words DEFAULT_TABLE_FILTER_WORDS |}.

(** *** The environment *)

(** A request that leaves the client: the four session operations and the
    model call. *)
Inductive event : Type :=
| EvListTools
| EvListResources
| EvReadResource (uri : string)
| EvCallTool (tool_name : json) (arguments : json)
| EvLLM (p : prompt).

(** The environment answers a request given the requests made before it, so
    a server or a model that changes over time is a [World] too. A session
    operation or a model call either raises, with [str(e)] on the left, or
    returns.

    Three functions of the Python runtime and of the client are carried here
    as well: [str] on a decoded JSON value; the renderer
    [get_data_content_description], whose text depends on the iteration
    order of a Python [set] and on number formatting; and the parser
    [_extract_tables_and_columns_from_schema], a cascade of regular
    expressions whose merged column lists also come out in [set] order. The
    parser receives the schema text and the filter words and returns the
    dict of tables in insertion order. *)
Record World : Type := mk_world {
  w_list_tools : list event -> string + list tool;
  w_list_resources : list event -> string + list mcp_resource;
  w_read_resource : list event -> string -> string + read_result;
  w_call_tool : list event -> json -> json -> string + mcp_result;
  w_llm : list event -> prompt -> string + string;
  py_str : json -> string;
  get_data_content_description : list (string * table_info) -> string;
  _extract_tables_and_columns_from_schema :
    string -> list string -> list (string * list string)
}.

(** *** State, exceptions and the monad *)

Record state : Type := mk_state {
  self : client;
  log : list event
}.

(** A computation ends normally or with an exception ([str(e)] is kept);
    the state reached is kept in both cases. *)
Inductive outcome (A : Type) : Type :=
| Ok (a : A) (s : state)
| Raise (e : string) (s : state).
Arguments Ok {A} a s.
Arguments Raise {A} e s.

Definition M (A : Type) : Type := state -> outcome A.

(** The state in which a computation ends. *)
Definition out_state {A : Type} (o : outcome A) : state :=
  match o with
  | Ok _ s => s
  | Raise _ s => s
  end.

(** The computation ends without an exception. *)
Definition returns {A : Type} (o : outcome A) : Prop :=
  match o with
  | Ok _ _ => True
  | Raise _ _ => False
  end.

Definition ret {A : Type} (a : A) : M A := fun s => Ok a s.

Definition bind {A B : Type} (m : M A) (f : A -> M B) : M B :=
  fun s =>
    match m s with
    | Ok a s' => f a s'
    | Raise e s' => Raise e s'
    end.

Definition raise {A : Type} (e : string) : M A := fun s => Raise e s.

(** [try: m  except Exception as e: h e]. *)
Definition try_except {A : Type} (m : M A) (h : string -> M A) : M A :=
  fun s =>
    match m s with
    | Ok a s' => Ok a s'
    | Raise e s' => h e s'
    end.

Definition get_self : M client := fun s => Ok (self s) s.

Definition modify_self (f : client -> client) : M unit :=
  fun s => Ok tt (mk_state (f (self s)) (log s)).

(** Send a request: the answer is computed from the requests so far, and
    the request is appended to them. *)
Definition request {R : Type} (ev : event) (answer : list event -> R) : M R :=
  fun s => Ok (answer (log s)) (mk_state (self s) (log s ++ [ev])).

(** A pure Python expression that may raise. *)
Definition lift {A : Type} (x : string + A) : M A :=
  match x with
  | inl e => raise e
  | inr a => ret a
  end.

Declare Scope monad_scope.
Delimit Scope monad_scope with monad.
Notation "x <- m ;; k" := (bind m (fun x => k))
  (at level 61, m at next level, right associativity) : monad_scope.
Notation "m ;; k" := (bind m (fun _ => k))
  (at level 61, right associativity) : monad_scope.
Open Scope monad_scope.

(** [for x in xs: body x]. *)
Fixpoint for_each {A : Type} (xs : list A) (body : A -> M unit) : M unit :=
  match xs with
  | [] => ret tt
  | x :: rest => body x ;; for_each rest body
  end.

(** Field updates of the client. *)
Definition set_tools (v : list (string * tool)) (c : client) : client :=
  mk_client v (_tools_description c) (_resources c) (_schema_description c)
    (_sql_guidance c) (_additional_context c) (_initialized c)
    (_data_content c) (_data_content_discovered c) (symbol_patterns c)
    (date_patterns c) (text_patterns c) (table_filter_words c).
Definition set_tools_description (v : string) (c : client) : client :=
  mk_client (_tools c) v (_resources c) (_schema_description c)
    (_sql_guidance c) (_additional_context c) (_initialized c)
    (_data_content c) (_data_content_discovered c) (symbol_patterns c)
    (date_patterns c) (text_patterns c) (table_filter_words c).
Definition set_resources (v : list resource) (c : client) : client :=
  mk_client (_tools c) (_tools_description c) v (_schema_description c)
    (_sql_guidance c) (_additional_context c) (_initialized c)
    (_data_content c) (_data_content_discovered c) (symbol_patterns c)
    (date_patterns c) (text_patterns c) (table_filter_words c).
Definition set_schema_description (v : string) (c : client) : client :=
  mk_client (_tools c) (_tools_description c) (_resources c) v
    (_sql_guidance c) (_additional_context c) (_initialized c)
    (_data_content c) (_data_content_discovered c) (symbol_patterns c)
    (date_patterns c) (text_patterns c) (table_filter_words c).
Definition set_sql_guidance (v : string) (c : client) : client :=
  mk_client (_tools c) (_tools_description c) (_resources c)
    (_schema_description c) v (_additional_context c) (_initialized c)
    (_data_content c) (_data_content_discovered c) (symbol_patterns c)
    (date_patterns c) (text_patterns c) (table_filter_words c).
Definition set_additional_context (v : list (string * string)) (c : client) : client :=
  mk_client (_tools c) (_tools_description c) (_resources c)
    (_schema_description c) (_sql_guidance c) v (_initialized c)
    (_data_content c) (_data_content_discovered c) (symbol_patterns c)
    (date_patterns c) (text_patterns c) (table_filter_words c).
Definition set_initialized (v : bool) (c : client) : client :=
  mk_client (_tools c) (_tools_description c) (_resources c)
    (_schema_description c) (_sql_guidance c) (_additional_context c) v
    (_data_content c) (_data_content_discovered c) (symbol_patterns c)
    (date_patterns c) (text_patterns c) (table_filter_words c).
Definition set_data_content (v : list (string * table_info)) (c : client) : client :=
  mk_client (_tools c) (_tools_description c) (_resources c)
    (_schema_description c) (_sql_guidance c) (_additional_context c)
    (_initialized c) v (_data_content_discovered c) (symbol_patterns c)
    (date_patterns c) (text_patterns c) (table_filter_words c).
Definition set_data_content_discovered (v : bool) (c : client) : client :=
  mk_client (_tools c) (_tools_description c) (_resources c)
    (_schema_description c) (_sql_guidance c) (_additional_context c)
    (_initialized c) (_data_content c) v (symbol_patterns c)
    (date_patterns c) (text_patterns c) (table_filter_words c).

Section Methods.

Variable w : World.

(** [str(v)]: a string is itself, anything else is left to the runtime. *)
Definition str_of (v : json) : string :=
  match v with
  | JString s => s
  | _ => py_str w v
  end.

(** *** [call_tool] *)

(** The conversion of one content item. *)
Definition convert_item (item : mcp_item) : content_item :=
  match item with
  | McpText t => CText t
  | McpBlob ty d => CData ty d
  | McpEmbedded u t m => CResource u t m
  | McpOther repr => CText repr
  end.

(** The error message taken from the content of a result flagged as an
    error: the texts of the items of type [text], joined by a space; no key
    is set when there is no such item. *)
Definition error_from_content (isError : bool) (content_list : list content_item)
  : option string :=
  match isError, content_list with
  | true, _ :: _ =>
      match map item_text (filter is_text_item content_list) with
      | [] => None
      | error_texts => Some (join " " error_texts)
      end
  | _, _ => None
  end.

(** The body of the [try] block of [call_tool] after the session has
    returned. *)
Definition build_response (tool_name : json) (arguments : json)
    (result : mcp_result) : tool_result :=
  match result with
  | McpObject is_error content structured repr =>
      let isError := match is_error with Some b => b | None => false end in
      let content1 := option_map (map convert_item) content in
      let error1 :=
        match content1 with
        | Some content_list => error_from_content isError content_list
        | None => None
        end in
      match structured with
      | Some sc =>
          mk_tool_result tool_name arguments isError content1 error1 (Some sc) None
      | None =>
          (* neither [structuredContent] nor a dict: the [else] branch
             overwrites the content with the string form of the result *)
          mk_tool_result tool_name arguments isError (Some [CText repr]) error1
            None None
      end
  | McpDict d_isError d_content d_error =>
      mk_tool_result tool_name arguments
        (match d_isError with Some b => b | None => false end)
        d_content d_error None None
  end.

(** [KDBNATClient.call_tool]. The tool name is a string wherever the
    client chooses it; a plan step may hold any value, or none ([JNull]),
    under ["tool"], and it is passed on as it is. *)
Definition call_tool (tool_name : json) (arguments : json) : M tool_result :=
  outcome <- request (EvCallTool tool_name arguments)
               (fun history => w_call_tool w history tool_name arguments) ;;
  match outcome with
  | inr result => ret (build_response tool_name arguments result)
  | inl e =>
      ret (mk_tool_result tool_name arguments true
             (Some [CText ("Tool execution error: " ++ e)]) (Some e) None None)
  end.

(** *** Schema discovery *)

(** [_extract_schema_from_result]: the texts of the text items, one per
    line. *)
Definition _extract_schema_from_result (content : list content_item) : string :=
  join NL (map item_text (filter is_text_item content)).

(** [str(x)] for an attribute that may be [None]. *)
Definition str_of_optional (x : option string) : string :=
  match x with
  | Some s => s
  | None => "None"
  end.

(** [_build_tools_description]. *)
Definition describe_param (required : list string) (p : string * param_info) : string :=
  let (param_name, info) := p in
  let param_type := match pi_type info with Some t => t | None => "any" end in
  let param_desc := match pi_description info with Some d => d | None => EmptyString end in
  let req_str := if mem_str param_name required then " (required)" else " (optional)" in
  "  - " ++ param_name ++ ": " ++ param_type ++ req_str
    ++ (if nonempty param_desc then " - " ++ param_desc else EmptyString) ++ NL.

Definition describe_tool (entry : string * tool) : string :=
  let (name, t) := entry in
  "### " ++ name ++ NL
    ++ "Description: " ++ str_of_optional (t_description t) ++ NL
    ++ match t_inputSchema t with
       | Some input_schema =>
           "Parameters:" ++ NL
             ++ String.concat EmptyString
                  (map (describe_param (required input_schema))
                     (properties input_schema))
       | None => "Parameters: None or unknown" ++ NL
       end.

Definition _build_tools_description (c : client) : string :=
  join NL (map describe_tool (_tools c)).

(** [_is_resource_for_llm]. *)
Definition LLM_AUDIENCES : list string := ["llm"; "assistant"; "ai"].

Definition _is_resource_for_llm (r : resource) : bool :=
  match res_annotations r with
  | None => true
  | Some ann =>
      match audience ann with
      | Some (AudienceList (a :: rest)) =>
          existsb (fun x => mem_str x LLM_AUDIENCES) (a :: rest)
      | Some (AudienceList []) => true
      | Some (AudienceName n) =>
          if nonempty n then mem_str n LLM_AUDIENCES else true
      | None => true
      end
  end.

(** [_get_resource_priority]. *)
Definition _get_resource_priority (r : resource) : Q :=
  match res_annotations r with
  | Some ann =>
      match priority ann with
      | Some p => p
      | None => 1 # 2
      end
  | None => 1 # 2
  end.

(** [sorted(xs, key=key, reverse=True)]: descending and stable. An element
    is put before the first element of the sorted tail whose key is not
    greater, so that equal keys keep their original order. *)
Fixpoint insert_desc {A : Type} (key : A -> Q) (x : A) (sorted : list A) : list A :=
  match sorted with
  | [] => [x]
  | y :: rest =>
      if Qle_bool (key y) (key x) then x :: y :: rest
      else y :: insert_desc key x rest
  end.

Definition sort_desc {A : Type} (key : A -> Q) (xs : list A) : list A :=
  fold_right (insert_desc key) [] xs.

Definition _sort_resources_by_priority : list resource -> list resource :=
  sort_desc _get_resource_priority.

(** [_read_resource]: the texts of the contents, one per line; the empty
    string on any failure. *)
Definition _read_resource (uri : string) : M string :=
  outcome <- request (EvReadResource uri)
               (fun history => w_read_resource w history uri) ;;
  match outcome with
  | inr (ReadContents parts) =>
      ret (join NL (flat_map (fun p => match p with Some t => [t] | None => [] end) parts))
  | inr (ReadRaw text) => ret text
  | inl _ => ret EmptyString
  end.

(** [_build_schema_description_from_contents]. *)
Definition _build_schema_description_from_contents
    (contents : list (string * string)) : string :=
  match contents with
  | [] => "No schema information available."
  | _ =>
      join NL
        ("## Available Resources from MCP Server"
           :: flat_map
                (fun nc : string * string =>
                   let (name, content) := nc in
                   [NL ++ "### " ++ name;
                    if (5000 <? String.length content)%nat
                    then take 5000 content ++ NL ++ "... (truncated)"
                    else content])
                contents)
  end.

(** [_build_schema_description]. *)
Definition _build_schema_description (c : client) : string :=
  match _resources c with
  | [] => "No schema information available."
  | resources =>
      join NL
        ("Available resources/tables:"
           :: map (fun r =>
                     "- " ++ name r
                       ++ (if nonempty (description r)
                           then ": " ++ description r else EmptyString))
                resources)
  end.

Definition SCHEMA_TOOL_KEYWORDS : list string :=
  ["schema"; "tables"; "describe"; "list"; "meta"; "columns"].

Definition SCHEMA_QUERIES : list string :=
  ["tables[]"; "meta `"; "SHOW TABLES"; "SELECT name FROM tables"].

Definition NO_SCHEMA_TEXT : string :=
  "Schema information not available at initialization." ++ NL
  ++ "IMPORTANT: Use the available tools to discover the database schema dynamically before querying data."
  ++ NL ++ "Do NOT assume any table or column names exist.".

Definition query_arguments (query : string) : json :=
  JObject [("query", JString query)].

(** The first loop of [_discover_schema_via_tools]; the value says whether
    the method has returned. Reading [description] of a tool that has none
    raises outside of any [try]. *)
Fixpoint schema_from_tools (tools : list (string * tool)) : M bool :=
  match tools with
  | [] => ret false
  | (tool_name, t) :: rest =>
      match t_description t with
      | None => raise "'NoneType' object has no attribute 'lower'"
      | Some d =>
          let tool_name_lower := lower tool_name in
          let tool_desc := lower d in
          if existsb (fun k => contains k tool_name_lower || contains k tool_desc)
               SCHEMA_TOOL_KEYWORDS
          then
            result <- call_tool (JString tool_name) (JObject []) ;;
            let schema_text := _extract_schema_from_result (get_content result) in
            if negb (has_error result) && nonempty schema_text
               && negb (contains "error" (lower schema_text))
            then modify_self (set_schema_description schema_text) ;; ret true
            else schema_from_tools rest
          else schema_from_tools rest
      end
  end.

(** The inner loop over the canonical queries for one SQL tool. *)
Fixpoint schema_from_queries (sql_tool : string) (queries : list string) : M bool :=
  match queries with
  | [] => ret false
  | query :: rest =>
      result <- call_tool (JString sql_tool) (query_arguments query) ;;
      let schema_text := _extract_schema_from_result (get_content result) in
      if negb (has_error result) && nonempty schema_text
         && negb (contains "error" (lower schema_text))
         && negb (contains "can't lookup" (lower schema_text))
      then
        modify_self (set_schema_description ("Available tables:" ++ NL ++ schema_text)) ;;
        ret true
      else schema_from_queries sql_tool rest
  end.

Fixpoint schema_from_sql_tools (sql_tools : list string) : M bool :=
  match sql_tools with
  | [] => ret false
  | sql_tool :: rest =>
      done <- schema_from_queries sql_tool SCHEMA_QUERIES ;;
      if done then ret true else schema_from_sql_tools rest
  end.

(** [_discover_schema_via_tools]. *)
Definition _discover_schema_via_tools : M unit :=
  c <- get_self ;;
  done <- schema_from_tools (_tools c) ;;
  if done then ret tt
  else
    let sql_tools :=
      filter (fun n => contains "sql" (lower n) || contains "query" (lower n))
        (dict_keys (_tools c)) in
    done <- schema_from_sql_tools sql_tools ;;
    if done then ret tt
    else modify_self (set_schema_description NO_SCHEMA_TEXT).

(** The entry of [self._resources] built from a listed resource. *)
Definition resource_of (r : mcp_resource) : resource :=
  mk_resource (mr_uri r) (mr_name r) (str_of_optional (mr_description r))
    (str_of_optional (mr_mimeType r)) (mr_annotations r).

Definition SCHEMA_RESOURCE_KEYWORDS : list string :=
  ["schema"; "tables"; "describe"; "meta"; "column"; "structure"].
Definition GUIDANCE_RESOURCE_KEYWORDS : list string :=
  ["sql"; "guidance"; "query"; "syntax"; "example"; "how to"].

(** The three buckets filled while the resources are read, and the dict of
    everything read. *)
Record buckets : Type := mk_buckets {
  all_resource_contents : list (string * string);
  schema_content_parts : list (Q * string);
  sql_guidance_parts : list (Q * string);
  other_content_parts : list (Q * (string * string))
}.

Definition heading (resource_name content : string) : string :=
  "## " ++ resource_name ++ NL ++ content.

(** One turn of the loop over the resources for the model. *)
Definition read_and_categorize (b : buckets) (r : resource) : M buckets :=
  content <- _read_resource (uri r) ;;
  if nonempty content then
    let resource_name := name r in
    let prio := _get_resource_priority r in
    let combined_text := lower (name r) ++ " " ++ lower (description r) in
    let all' := dict_set resource_name content (all_resource_contents b) in
    if any_keyword_in SCHEMA_RESOURCE_KEYWORDS combined_text then
      ret (mk_buckets all'
             (schema_content_parts b ++ [(prio, heading resource_name content)])
             (sql_guidance_parts b) (other_content_parts b))
    else if any_keyword_in GUIDANCE_RESOURCE_KEYWORDS combined_text then
      ret (mk_buckets all' (schema_content_parts b)
             (sql_guidance_parts b ++ [(prio, heading resource_name content)])
             (other_content_parts b))
    else
      ret (mk_buckets all' (schema_content_parts b) (sql_guidance_parts b)
             (other_content_parts b ++ [(prio, (resource_name, content))]))
  else ret b.

Fixpoint read_all (b : buckets) (rs : list resource) : M buckets :=
  match rs with
  | [] => ret b
  | r :: rest => b' <- read_and_categorize b r ;; read_all b' rest
  end.

(** The assignments that follow the loop: each field is assigned only when
    its bucket is not empty. *)
Definition store_buckets (b : buckets) : M unit :=
  let schema_parts := sort_desc fst (schema_content_parts b) in
  let guidance_parts := sort_desc fst (sql_guidance_parts b) in
  let other_parts := sort_desc fst (other_content_parts b) in
  (match schema_parts with
   | [] => ret tt
   | _ => modify_self (set_schema_description (join (NL ++ NL) (map snd schema_parts)))
   end) ;;
  (match guidance_parts with
   | [] => ret tt
   | _ => modify_self (set_sql_guidance (join (NL ++ NL) (map snd guidance_parts)))
   end) ;;
  (match other_parts with
   | [] => ret tt
   | _ =>
       modify_self
         (set_additional_context
            (fold_left (fun d p => dict_set (fst (snd p)) (snd (snd p)) d)
               other_parts []))
   end) ;;
  c <- get_self ;;
  (if negb (nonempty (_schema_description c))
      && negb (Nat.eqb (List.length (all_resource_contents b)) 0)
   then modify_self (set_schema_description
                       (_build_schema_description_from_contents (all_resource_contents b)))
   else ret tt) ;;
  c <- get_self ;;
  if negb (nonempty (_schema_description c))
  then modify_self (set_schema_description (_build_schema_description c))
  else ret tt.

(** [_discover_schema]. *)
Definition _discover_schema : M unit :=
  try_except
    (listed <- request EvListResources (w_list_resources w) ;;
     resources <- lift listed ;;
     match resources with
     | _ :: _ =>
         modify_self (set_resources (map resource_of resources)) ;;
         c <- get_self ;;
         let llm_resources :=
           _sort_resources_by_priority (filter _is_resource_for_llm (_resources c)) in
         b <- read_all (mk_buckets [] [] [] []) llm_resources ;;
         store_buckets b
     | [] => _discover_schema_via_tools
     end)
    (fun _ => _discover_schema_via_tools).

(** [initialize]. *)
Definition initialize (force_refresh : bool) : M unit :=
  c <- get_self ;;
  if _initialized c && negb force_refresh then ret tt
  else
    listed <- request EvListTools (w_list_tools w) ;;
    tools <- lift listed ;;
    modify_self
      (set_tools (fold_left (fun d t => dict_set (t_name t) t d) tools [])) ;;
    c <- get_self ;;
    modify_self (set_tools_description (_build_tools_description c)) ;;
    _discover_schema ;;
    modify_self (set_initialized true).

(** [refresh_schema]. *)
Definition refresh_schema : M unit :=
  modify_self (set_schema_description EmptyString) ;;
  modify_self (set_additional_context []) ;;
  modify_self (set_data_content []) ;;
  modify_self (set_data_content_discovered false) ;;
  _discover_schema.

(** *** Python's view of decoded values *)

(** [bool(v)]. *)
Definition py_truthy (v : json) : bool :=
  match v with
  | JNull => false
  | JBool b => b
  | JInt z => negb (z =? 0)%Z
  | JFloat m _ => negb (m =? 0)%Z
  | JNaN => true
  | JInf _ => true
  | JString s => nonempty s
  | JArray items => match items with [] => false | _ => true end
  | JObject members => match members with [] => false | _ => true end
  end.

(** The decimal value of a number, normalized, for comparisons across
    [bool], [int] and [float]. *)
Definition decimal_of (v : json) : option (Z * Z) :=
  match v with
  | JBool b => Some (if b then 1%Z else 0%Z, 0%Z)
  | JInt z => Some (normalize_decimal (S (Z.to_nat (Z.log2 (Z.abs z)))) z 0%Z)
  | JFloat m e => Some (m, e)
  | _ => None
  end.

(** [a == b] on decoded values. A NaN equals nothing. *)
Fixpoint py_eq (a b : json) {struct a} : bool :=
  match a, b with
  | JNull, JNull => true
  | JString s, JString t => String.eqb s t
  | JInf n, JInf n' => Bool.eqb n n'
  | JArray l, JArray l' =>
      (fix go (l l' : list json) {struct l} : bool :=
         match l, l' with
         | [], [] => true
         | x :: r, y :: r' => py_eq x y && go r r'
         | _, _ => false
         end) l l'
  | JObject d, JObject d' =>
      Nat.eqb (List.length d) (List.length d')
      && (fix go (d : list (string * json)) {struct d} : bool :=
            match d with
            | [] => true
            | (k, v) :: r =>
                match dict_get k d' with
                | Some v' => py_eq v v' && go r
                | None => false
                end
            end) d
  | _, _ =>
      match decimal_of a, decimal_of b with
      | Some (m, e), Some (m', e') => (m =? m')%Z && (e =? e')%Z
      | _, _ => false
      end
  end.

(** [v in values]. *)
Definition py_in (v : json) (values : list json) : bool :=
  existsb (py_eq v) values.

(** *** Reading query results *)

(** The head shared by the readers of a query result: for a text item
    whose text decodes to a dict, the value under ["data"] (an empty list
    when the key is missing), decoded once more when it is a string. [None]
    when the item is skipped: not a text item, not a dict, or a decoding
    error, which the readers catch. *)
Definition item_data (item : content_item) : option json :=
  if is_text_item item then
    match loads (item_text item) with
    | Some (JObject parsed) =>
        match dict_get "data" parsed with
        | None => Some (JArray [])
        | Some (JString data) => loads data
        | Some data => Some data
        end
    | _ => None
    end
  else None.

(** [str(KeyError(0))]: indexing a dict of rows with [0]. *)
Definition KEY_ERROR_0 : string := "0".

(** [_extract_columns_from_result]. A non-empty dict under ["data"] makes
    [data[0]] raise [KeyError], which the method does not catch. *)
Fixpoint columns_of_items (items : list content_item) : string + list string :=
  match items with
  | [] => inr []
  | item :: rest =>
      match item_data item with
      | Some (JArray (JObject row :: _)) => inr (dict_keys row)
      | Some (JObject (_ :: _)) => inl KEY_ERROR_0
      | _ => columns_of_items rest
      end
  end.

Definition _extract_columns_from_result (result : tool_result)
  : string + list string :=
  columns_of_items (get_content result).

(** [_extract_single_value]: [data[0].get(key)] of the first item that has
    a first row; [None] is Python's [None]. *)
Fixpoint single_value_of_items (key : string) (items : list content_item)
  : string + option json :=
  match items with
  | [] => inr None
  | item :: rest =>
      match item_data item with
      | Some (JArray (JObject row :: _)) => inr (dict_get key row)
      | Some (JObject (_ :: _)) => inl KEY_ERROR_0
      | _ => single_value_of_items key rest
      end
  end.

Definition _extract_single_value (result : tool_result) (key : string)
  : string + option json :=
  single_value_of_items key (get_content result).

(** [_extract_column_values]: the distinct truthy values of a column, in
    order of appearance. Iterating anything but a list of rows adds
    nothing. *)
Definition add_row_value (column : string) (values : list json) (row : json)
  : list json :=
  match row with
  | JObject r =>
      match dict_get column r with
      | Some val =>
          if py_truthy val && negb (py_in val values) then values ++ [val]
          else values
      | None => values
      end
  | _ => values
  end.

Definition add_item_values (column : string) (values : list json)
    (item : content_item) : list json :=
  match item_data item with
  | Some (JArray rows) => fold_left (add_row_value column) rows values
  | _ => values
  end.

Definition _extract_column_values (result : tool_result) (column : string)
  : list json :=
  fold_left (add_item_values column) (get_content result) [].

(** The dict returned by [_extract_date_range]. *)
Record date_info : Type := mk_date_info {
  di_date_range : option (string * string);
  di_row_count : option json
}.

(** The part of [_extract_date_range] that reads the first row; [None]
    when it raises [TypeError], which the method catches. *)
Definition date_info_of_row (row : json) : option date_info :=
  match row with
  | JObject r =>
      Some (mk_date_info
              (match dict_get "min_date" r, dict_get "max_date" r with
               | Some lo, Some hi => Some (str_of lo, str_of hi)
               | _, _ => None
               end)
              (dict_get "row_count" r))
  | JString s =>
      if contains "min_date" s && contains "max_date" s then None
      else if contains "row_count" s then None
      else Some (mk_date_info None None)
  | JArray l =>
      if py_in (JString "min_date") l && py_in (JString "max_date") l then None
      else if py_in (JString "row_count") l then None
      else Some (mk_date_info None None)
  | _ => None
  end.

Fixpoint date_range_of_items (items : list content_item) : string + date_info :=
  match items with
  | [] => inr (mk_date_info None None)
  | item :: rest =>
      let first_row : option (string + json) :=
        match item_data item with
        | Some (JArray (row :: _)) => Some (inr row)
        | Some (JString (String ch _)) => Some (inr (JString (String ch EmptyString)))
        | Some (JObject (_ :: _)) => Some (inl KEY_ERROR_0)
        | _ => None
        end in
      match first_row with
      | Some (inl e) => inl e
      | Some (inr row) =>
          match date_info_of_row row with
          | Some info => inr info
          | None => date_range_of_items rest
          end
      | None => date_range_of_items rest
      end
  end.

Definition _extract_date_range (result : tool_result) : string + date_info :=
  date_range_of_items (get_content result).

(** [bool(date_info)]: the dict has a key. *)
Definition date_info_nonempty (d : date_info) : bool :=
  match di_date_range d, di_row_count d with
  | None, None => false
  | _, _ => true
  end.

(** *** Data-content probing *)

Definition SQL_TOOL : string := "kdbx_run_sql_query".

Definition run_sql (query : string) : M tool_result :=
  call_tool (JString SQL_TOOL) (query_arguments query).

(** [[c for c in columns if c.lower() in patterns]]. *)
Definition matching_columns (patterns columns : list string) : list string :=
  filter (fun c => mem_str (lower c) patterns) columns.

Definition columns_query (table : string) : string :=
  "SELECT * FROM " ++ table ++ " LIMIT 1".
Definition count_query (table : string) : string :=
  "SELECT COUNT(*) as row_count FROM " ++ table.
Definition symbols_query (sym_col table : string) : string :=
  "SELECT DISTINCT " ++ sym_col ++ " FROM " ++ table ++ " LIMIT 100".
Definition date_query (date_col table : string) : string :=
  "SELECT MIN(" ++ date_col ++ ") as min_date, MAX(" ++ date_col
    ++ ") as max_date FROM " ++ table.
Definition text_query (text_col table order_clause : string) : string :=
  "SELECT DISTINCT " ++ text_col ++ " FROM " ++ table ++ " " ++ order_clause
    ++ " LIMIT 10".

(** Key assignments on the dict of a table. *)
Definition set_columns (v : list string) (t : table_info) : table_info :=
  mk_table_info v (row_count t) (symbols t) (symbol_column t) (date_range t)
    (date_column t) (text_columns t) (sample_text t).
Definition set_row_count (v : json) (t : table_info) : table_info :=
  mk_table_info (columns t) (Some v) (symbols t) (symbol_column t)
    (date_range t) (date_column t) (text_columns t) (sample_text t).
Definition set_symbols (v : list json) (col : string) (t : table_info) : table_info :=
  mk_table_info (columns t) (row_count t) (Some v) (Some col) (date_range t)
    (date_column t) (text_columns t) (sample_text t).
Definition update_date_info (d : date_info) (col : string) (t : table_info)
  : table_info :=
  mk_table_info (columns t)
    (match di_row_count d with Some v => Some v | None => row_count t end)
    (symbols t) (symbol_column t)
    (match di_date_range d with Some r => Some r | None => date_range t end)
    (Some col) (text_columns t) (sample_text t).
Definition set_text_columns (v : list string) (t : table_info) : table_info :=
  mk_table_info (columns t) (row_count t) (symbols t) (symbol_column t)
    (date_range t) (date_column t) (Some v) (sample_text t).
Definition set_sample_text (col : string) (v : list json) (t : table_info)
  : table_info :=
  mk_table_info (columns t) (row_count t) (symbols t) (symbol_column t)
    (date_range t) (date_column t) (text_columns t) (Some (col, v)).

(** The column list of a table: the one parsed from the schema, or else
    the keys of the first row of a [SELECT *] probe. The value is the local
    [columns] and the dict so far. *)
Definition probe_columns (table : string) (schema_columns : list string)
  : M (list string * table_info) :=
  let info := mk_table_info schema_columns None None None None None None None in
  match schema_columns with
  | [] =>
      result <- run_sql (columns_query table) ;;
      columns <- lift (_extract_columns_from_result result) ;;
      match columns with
      | [] => ret (columns, info)
      | _ => ret (columns, set_columns columns info)
      end
  | _ => ret (schema_columns, info)
  end.

Definition probe_row_count (table : string) (info : table_info)
  : M table_info :=
  result <- run_sql (count_query table) ;;
  if succeeded result then
    count_info <- lift (_extract_single_value result "row_count") ;;
    match count_info with
    | None | Some JNull => ret info
    | Some v => ret (set_row_count v info)
    end
  else ret info.

Definition probe_symbols (c : client) (table : string) (columns : list string)
    (info : table_info) : M table_info :=
  match matching_columns (symbol_patterns c) columns with
  | sym_col :: _ =>
      result <- run_sql (symbols_query sym_col table) ;;
      if succeeded result then
        match _extract_column_values result sym_col with
        | [] => ret info
        | symbols => ret (set_symbols symbols sym_col info)
        end
      else ret info
  | [] => ret info
  end.

Definition probe_dates (c : client) (table : string) (columns : list string)
    (info : table_info) : M table_info :=
  match matching_columns (date_patterns c) columns with
  | date_col :: _ =>
      result <- run_sql (date_query date_col table) ;;
      if succeeded result then
        found <- lift (_extract_date_range result) ;;
        if date_info_nonempty found
        then ret (update_date_info found date_col info)
        else ret info
      else ret info
  | [] => ret info
  end.

Definition probe_text (c : client) (table : string) (columns : list string)
    (info : table_info) : M table_info :=
  match matching_columns (text_patterns c) columns with
  | text_col :: more =>
      let info := set_text_columns (text_col :: more) info in
      let order_clause :=
        match matching_columns (date_patterns c) columns with
        | date_col :: _ => "ORDER BY " ++ date_col ++ " DESC"
        | [] => EmptyString
        end in
      result <- run_sql (text_query text_col table order_clause) ;;
      if succeeded result then
        match _extract_column_values result text_col with
        | [] => ret info
        | samples => ret (set_sample_text text_col (firstn 10 samples) info)
        end
      else ret info
  | [] => ret info
  end.

(** The [try] block of the loop of [discover_data_content]. *)
Definition probe_table_body (table : string) (schema_columns : list string)
  : M unit :=
  c <- get_self ;;
  p <- probe_columns table schema_columns ;;
  let (cols, info) := p in
  info <- probe_row_count table info ;;
  info <- probe_symbols c table cols info ;;
  info <- probe_dates c table cols info ;;
  info <- probe_text c table cols info ;;
  match columns info with
  | [] => ret tt
  | _ =>
      modify_self
        (fun c => set_data_content (dict_set table info (_data_content c)) c)
  end.

(** One turn of the loop: an exception leaves the table out. *)
Definition probe_table (entry : string * list string) : M unit :=
  try_except (probe_table_body (fst entry) (snd entry)) (fun _ => ret tt).

(** The names that [_discover_tables_via_sql] takes from the value under
    ["data"]: from a list, the truthy values under the usual keys of each
    row dict and the rows that are strings; iterating a dict yields its
    keys, iterating a string its characters. *)
Definition TABLE_NAME_KEYS : list string :=
  ["name"; "table_name"; "tablename"; "TABLE_NAME"].

Fixpoint chars_of (s : string) : list json :=
  match s with
  | EmptyString => []
  | String ch r => JString (String ch EmptyString) :: chars_of r
  end.

Definition table_names_of_data (data : json) : list json :=
  match data with
  | JArray rows =>
      flat_map
        (fun row =>
           match row with
           | JObject r =>
               flat_map
                 (fun col =>
                    match dict_get col r with
                    | Some v => if py_truthy v then [v] else []
                    | None => []
                    end)
                 TABLE_NAME_KEYS
           | JString s => [JString s]
           | _ => []
           end)
        rows
  | JObject d => map JString (dict_keys d)
  | JString s => chars_of s
  | _ => []
  end.

Definition TABLE_DISCOVERY_QUERIES : list string :=
  ["SHOW TABLES"; "SELECT name FROM tables";
   "SELECT table_name FROM information_schema.tables"].

Fixpoint tables_via_sql (queries : list string) (tables : list json)
  : M (list json) :=
  match queries with
  | [] => ret tables
  | query :: rest =>
      result <- run_sql query ;;
      if succeeded result then
        let tables :=
          (tables ++ flat_map
                       (fun item =>
                          match item_data item with
                          | Some data => table_names_of_data data
                          | None => []
                          end)
                       (get_content result))%list in
        match tables with
        | _ :: _ => ret tables
        | [] => tables_via_sql rest tables
        end
      else tables_via_sql rest tables
  end.

(** [_discover_tables_via_sql]. *)
Definition _discover_tables_via_sql : M (list json) :=
  tables_via_sql TABLE_DISCOVERY_QUERIES [].

(** [{t: [] for t in table_list}]: a list or a dict is not hashable. A
    name that is not a string is keyed by its string form. *)
Fixpoint empty_columns_dict (table_list : list json)
    (d : list (string * list string)) : string + list (string * list string) :=
  match table_list with
  | [] => inr d
  | JArray _ :: _ => inl "unhashable type: 'list'"
  | JObject _ :: _ => inl "unhashable type: 'dict'"
  | JString t :: rest => empty_columns_dict rest (dict_set t [] d)
  | v :: rest => empty_columns_dict rest (dict_set (str_of v) [] d)
  end.

(** [{t: d.get(t, []) for t in tables if t in d}]. *)
Definition restrict_tables (tables : list string) (d : list (string * list string))
  : list (string * list string) :=
  fold_left
    (fun acc t =>
       match dict_get t d with
       | Some cols => dict_set t cols acc
       | None => acc
       end)
    tables [].

(** [discover_data_content]. *)
Definition discover_data_content (tables : option (list string))
    (force_refresh : bool) : M (list (string * table_info)) :=
  c <- get_self ;;
  if _data_content_discovered c && negb force_refresh then ret (_data_content c)
  else
    (if negb (_initialized c) then initialize false else ret tt) ;;
    c <- get_self ;;
    let tables_with_columns :=
      _extract_tables_and_columns_from_schema w (_schema_description c)
        (table_filter_words c) in
    let tables_with_columns :=
      match tables with
      | Some ts => restrict_tables ts tables_with_columns
      | None => tables_with_columns
      end in
    tables_with_columns <-
      match tables_with_columns with
      | [] =>
          table_list <- _discover_tables_via_sql ;;
          lift (empty_columns_dict table_list [])
      | _ => ret tables_with_columns
      end ;;
    match tables_with_columns with
    | [] => c <- get_self ;; ret (_data_content c)
    | _ =>
        for_each tables_with_columns probe_table ;;
        modify_self (set_data_content_discovered true) ;;
        c <- get_self ;;
        ret (_data_content c)
    end.

(** *** Planning *)

(** A keyword of the first SQL pattern at the head of [t]: [FROM] or
    [LIMIT], whitespace, a word. The value is the length matched. *)
Definition keyword_end (t : string) : option nat :=
  let attempt (kw : string) : option nat :=
    if startswith_ci kw t then
      let (ws, r) := span_by is_space (drop (String.length kw) t) in
      let (wd, _) := span_by is_word r in
      if nonempty ws && nonempty wd
      then Some (String.length kw + String.length ws + String.length wd)
      else None
    else None in
  match attempt "FROM" with
  | Some n => Some n
  | None => attempt "LIMIT"
  end.

(** The first position at or after the head of [t] where a keyword
    matches: the offset and the length matched. *)
Fixpoint first_keyword (t : string) : option (nat * nat) :=
  match keyword_end t with
  | Some n => Some (0, n)
  | None =>
      match t with
      | EmptyString => None
      | String _ r =>
          match first_keyword r with
          | Some (j, n) => Some (S j, n)
          | None => None
          end
      end
  end.

(** The first SQL pattern anchored at the head of [s]: [SELECT], greedy
    whitespace, a lazy non-empty run, a keyword. With the whitespace taken in
    full the lazy run ends at the first keyword that starts at least one
    character later; failing that, the last whitespace character is given to
    the lazy run and the keyword must follow it directly. *)
Definition select_span_at (s : string) : option string :=
  if startswith_ci "SELECT" s then
    let (ws, after_ws) := span_by is_space (drop 6 s) in
    let k := String.length ws in
    match k, after_ws with
    | O, _ => None
    | _, EmptyString => None
    | _, String _ r =>
        match first_keyword r with
        | Some (j, n) => Some (take (6 + k + 1 + j + n) s)
        | None =>
            if (2 <=? k)%nat then
              match keyword_end after_ws with
              | Some n => Some (take (6 + k + n) s)
              | None => None
              end
            else None
        end
    end
  else None.

(** [re.search]: the leftmost position where an anchored matcher
    succeeds. *)
Fixpoint search (match_at : string -> option string) (s : string) : option string :=
  match match_at s with
  | Some g => Some g
  | None =>
      match s with
      | EmptyString => None
      | String _ r => search match_at r
      end
  end.

Definition is_dq (c : ascii) : bool := Nat.eqb (nat_of_ascii c) 34.
Definition is_quote (c : ascii) : bool :=
  Nat.eqb (nat_of_ascii c) 34 || Nat.eqb (nat_of_ascii c) 39.
Definition is_backtick (c : ascii) : bool := Nat.eqb (nat_of_ascii c) 96.

(** A non-empty run of characters outside a class, closed by a character
    of the class: the run. *)
Definition closed_run (closing : ascii -> bool) (s : string) : option string :=
  match span_by (fun c => negb (closing c)) s with
  | (String c g, String _ _) => Some (String c g)
  | _ => None
  end.

(** The second pattern: the key [query] in double quotes, a colon, a
    value in double quotes. *)
Definition query_key_at (s : string) : option string :=
  if startswith_ci (quoted "query") s then
    match lstrip_by is_space (drop 7 s) with
    | String ":" r =>
        match lstrip_by is_space r with
        | String c r' => if is_dq c then closed_run is_dq r' else None
        | EmptyString => None
        end
    | _ => None
    end
  else None.

(** The third pattern: text between two backticks that contains
    [SELECT]. *)
Definition backtick_select_at (s : string) : option string :=
  match s with
  | String c r =>
      if is_backtick c then
        match span_by (fun c => negb (is_backtick c)) r with
        | (g, String _ _) =>
            match split_first true "SELECT" g with
            | Some _ => Some g
            | None => None
            end
        | _ => None
        end
      else None
  | EmptyString => None
  end.

(** The fourth pattern: [query], an optional quote, a colon or an equals
    sign, a value between quotes of either kind. *)
Definition query_assign_at (s : string) : option string :=
  if startswith_ci "query" s then
    let r := drop 5 s in
    let r := match r with
             | String c r' => if is_quote c then r' else r
             | EmptyString => r
             end in
    match lstrip_by is_space r with
    | String c r1 =>
        if Ascii.eqb c ":" || Ascii.eqb c "=" then
          match lstrip_by is_space r1 with
          | String q r2 => if is_quote q then closed_run is_quote r2 else None
          | EmptyString => None
          end
        else None
    | EmptyString => None
    end
  else None.

(** [_extract_sql_fallback]. *)
Definition _extract_sql_fallback (text : string) : option string :=
  let text := strip_think text in
  let attempt (match_at : string -> option string) : option string :=
    match search match_at text with
    | Some g =>
        let sql := strip g in
        if (10 <? String.length sql)%nat then Some sql else None
    | None => None
    end in
  match attempt select_span_at with
  | Some sql => Some sql
  | None =>
  match attempt query_key_at with
  | Some sql => Some sql
  | None =>
  match attempt backtick_select_at with
  | Some sql => Some sql
  | None => attempt query_assign_at
  end end end.

(** [_format_additional_context]. *)
Definition _format_additional_context (c : client) : string :=
  match _additional_context c with
  | [] => "No additional context available."
  | entries =>
      join (NL ++ NL)
        (map (fun nc : string * string =>
                let (name, content) := nc in
                let content :=
                  if (2000 <? String.length content)%nat
                  then take 2000 content ++ NL ++ "... (truncated)"
                  else content in
                "### " ++ name ++ NL ++ content)
           entries)
  end.

Definition DEFAULT_SQL_GUIDANCE : string :=
  "No specific SQL syntax guidance available. Use standard SQL syntax.".

(** The schema section of the planning prompt. *)
Definition schema_section (c : client) (additional_schema : string) : string :=
  if nonempty additional_schema
  then _schema_description c ++ NL ++ NL ++ "## Dynamically Discovered Schema:"
         ++ NL ++ additional_schema
  else _schema_description c.

Definition plan_prompt (c : client) (user_query additional_schema : string) : prompt :=
  PlanPrompt (_tools_description c)
    (schema_section c additional_schema)
    (get_data_content_description w (_data_content c))
    (if nonempty (_sql_guidance c) then _sql_guidance c else DEFAULT_SQL_GUIDANCE)
    (_format_additional_context c)
    user_query.

(** A plan is the dict decoded from the model's reply, or one of the
    dicts that [_plan_tool_usage] builds itself. *)
Definition plan : Type := list (string * json).

(** A plan without steps that carries a message. *)
Definition message_plan (reasoning : string) : plan :=
  [("reasoning", JString reasoning); ("steps", JArray [])].

(** [len(plan.get('steps', []))], evaluated for a log line inside the
    [try] block: [None] when it raises [TypeError]. *)
Definition steps_len_error (p : plan) : option string :=
  match dict_get "steps" p with
  | Some JNull => Some "object of type 'NoneType' has no len()"
  | Some (JBool _) => Some "object of type 'bool' has no len()"
  | Some (JInt _) => Some "object of type 'int' has no len()"
  | Some (JFloat _ _) | Some JNaN | Some (JInf _) =>
      Some "object of type 'float' has no len()"
  | _ => None
  end.

(** What [_plan_tool_usage] makes of the model's reply. A candidate that
    [_extract_json] returns starts with a brace and decodes, so that the two
    last cases of the inner match are never taken; they stand for the two
    [except] clauses. *)
Definition plan_of_reply (reply : string) : plan :=
  let content := strip reply in
  match _extract_json content with
  | Some json_match =>
      match loads json_match with
      | Some (JObject p) =>
          match steps_len_error p with
          | Some e => message_plan ("Error: " ++ e)
          | None => p
          end
      | Some _ => message_plan "Error: object has no attribute 'get'"
      | None => message_plan "JSON parse error"
      end
  | None =>
      match _extract_sql_fallback content with
      | Some sql_query =>
          [("reasoning", JString "Extracted SQL from response (JSON parsing failed)");
           ("steps",
            JArray [JObject [("tool", JString SQL_TOOL);
                             ("arguments", query_arguments sql_query);
                             ("purpose", JString "Execute user query")]])]
      | None =>
          let preview :=
            if nonempty content then replace NL " " (take 200 content) else "empty" in
          message_plan ("Failed to parse LLM response. Preview: " ++ preview ++ "...")
      end
  end.

(** [_plan_tool_usage]. *)
Definition _plan_tool_usage (user_query additional_schema : string) : M plan :=
  c <- get_self ;;
  let p := plan_prompt c user_query additional_schema in
  reply <- request (EvLLM p) (fun history => w_llm w history p) ;;
  match reply with
  | inr content => ret (plan_of_reply content)
  | inl e => ret (message_plan ("Error: " ++ e))
  end.

(** *** Synthesis *)

(** The lines that [_synthesize_results] writes for the result number [i]. *)
Definition result_lines (i : nat) (result : tool_result) : list string :=
  let header : string := "### Step " ++ str_of_nat i ++ ": " ++ str_of (r_tool result) in
  let purpose_lines : list string :=
    match r_purpose result with
    | Some p => if nonempty p then ["Purpose: " ++ p] else []
    | None => []
    end in
  let body_lines : list string :=
    if has_error result
    then ["Error: " ++ match r_error result with Some e => e | None => EmptyString end]
    else map item_text (filter is_text_item (get_content result)) in
  (header :: purpose_lines ++ body_lines ++ [EmptyString])%list.

Fixpoint results_text_from (i : nat) (tool_results : list tool_result) : list string :=
  match tool_results with
  | [] => []
  | r :: rest => (result_lines i r ++ results_text_from (S i) rest)%list
  end.

(** [_synthesize_results]. *)
Definition _synthesize_results (user_query : string)
    (tool_results : list tool_result) : M string :=
  let results_text := join NL (results_text_from 1 tool_results) in
  let p := SynthesisPrompt user_query results_text in
  reply <- request (EvLLM p) (fun history => w_llm w history p) ;;
  match reply with
  | inr content => ret (strip content)
  | inl e =>
      ret ("Error synthesizing results: " ++ e ++ NL ++ NL ++ "Raw results:" ++ NL
             ++ results_text)
  end.

(** *** [intelligent_query] *)

Definition SCHEMA_PURPOSE_KEYWORDS : list string :=
  ["schema"; "discover"; "list tables"; "describe"; "metadata"].

Definition UNABLE : string := "Unable to answer with available tools.".

(** [plan.get("data_available") is False]. *)
Definition data_unavailable (p : plan) : bool :=
  match dict_get "data_available" p with
  | Some (JBool false) => true
  | _ => false
  end.

(** [plan.get(key, default)] with a string default. *)
Definition get_or (key default : string) (d : list (string * json)) : json :=
  match dict_get key d with
  | Some v => v
  | None => JString default
  end.

(** The answer of a plan that declares the data unavailable. The answer
    is sliced for a log line, which raises unless it is a string or a list. *)
Definition unavailable_answer (p : plan) : string + json :=
  let limitations := get_or "limitations" EmptyString p in
  let reasoning := get_or "reasoning" EmptyString p in
  if py_truthy limitations
  then inr (JString (str_of reasoning ++ NL ++ NL ++ str_of limitations))
  else
    match reasoning with
    | JString _ | JArray _ => inr reasoning
    | _ => inl "object is not subscriptable"
    end.

(** The steps of a plan as the [for] loop receives them; iterating
    anything but a list of dicts raises at the first step. *)
Definition steps_of (p : plan) : list json :=
  match dict_get "steps" p with
  | Some (JArray steps) => steps
  | Some (JString s) => chars_of s
  | Some (JObject d) => map JString (dict_keys d)
  | Some v => [v]
  | None => []
  end.

(** What the loop has accumulated. *)
Record progress : Type := mk_progress {
  all_tool_results : list tool_result;
  discovered_schema : string;
  schema_discovery_done : bool
}.

(** One step of a plan. *)
Definition execute_step (acc : progress) (step : json) : M progress :=
  match step with
  | JObject fields =>
      let tool_name := match dict_get "tool" fields with Some v => v | None => JNull end in
      let arguments := match dict_get "arguments" fields with
                       | Some v => v
                       | None => JObject []
                       end in
      match get_or "purpose" EmptyString fields with
      | JString step_purpose =>
          let purpose := lower step_purpose in
          result <- call_tool tool_name arguments ;;
          let result := with_purpose step_purpose result in
          let results := (all_tool_results acc ++ [result])%list in
          if any_keyword_in SCHEMA_PURPOSE_KEYWORDS purpose then
            let schema_text := _extract_schema_from_result (get_content result) in
            if negb (has_error result) && nonempty schema_text
            then ret (mk_progress results
                        (discovered_schema acc ++ NL ++ NL ++ "Discovered from "
                           ++ str_of tool_name ++ ":" ++ NL ++ schema_text)
                        true)
            else ret (mk_progress results (discovered_schema acc) true)
          else ret (mk_progress results (discovered_schema acc)
                      (schema_discovery_done acc))
      | _ => raise "object has no attribute 'lower'"
      end
  | _ => raise "object has no attribute 'get'"
  end.

Fixpoint execute_steps (acc : progress) (steps : list json) : M progress :=
  match steps with
  | [] => ret acc
  | step :: rest => acc' <- execute_step acc step ;; execute_steps acc' rest
  end.

(** How the planning loop ends: with a [return] inside the loop, or by
    leaving the loop for the synthesis. *)
Inductive loop_exit : Type :=
| Returned (answer : json) (tool_results : list tool_result)
| Synthesize (tool_results : list tool_result).

(** The [for iteration in range(max_iterations)] loop: [remaining] turns
    are left, [iteration] is the index of the next one. *)
Fixpoint plan_loop (user_query : string) (max_iterations remaining iteration : nat)
    (all_results : list tool_result) (discovered : string) : M loop_exit :=
  match remaining with
  | O => ret (Synthesize all_results)
  | S remaining' =>
      p <- _plan_tool_usage user_query discovered ;;
      if data_unavailable p then
        answer <- lift (unavailable_answer p) ;;
        ret (Returned answer [])
      else if negb (py_truthy (get_or "steps" EmptyString p)) then
        if Nat.eqb iteration 0
        then ret (Returned (get_or "reasoning" UNABLE p) [])
        else ret (Synthesize all_results)
      else
        acc <- execute_steps (mk_progress all_results discovered false)
                 (steps_of p) ;;
        if schema_discovery_done acc && (iteration <? max_iterations - 1)%nat
        then plan_loop user_query max_iterations remaining' (S iteration)
               (all_tool_results acc) (discovered_schema acc)
        else ret (Synthesize (all_tool_results acc))
  end.

(** [intelligent_query]. The model is the one passed by the caller or the
    default one; both are the [w_llm] of the environment. A
    [max_iterations] below zero behaves as zero. *)
Definition intelligent_query (user_query : string) (max_iterations : nat)
  : M (json * list tool_result) :=
  c <- get_self ;;
  (if negb (_initialized c) then initialize false else ret tt) ;;
  c <- get_self ;;
  (if negb (_data_content_discovered c)
   then discover_data_content None false ;; ret tt
   else ret tt) ;;
  exit <- plan_loop user_query max_iterations max_iterations 0 [] EmptyString ;;
  match exit with
  | Returned answer tool_results => ret (answer, tool_results)
  | Synthesize [] => ret (JString UNABLE, [])
  | Synthesize tool_results =>
      answer <- _synthesize_results user_query tool_results ;;
      ret (JString answer, tool_results)
  end.

(** *** [simple_chat_query] *)

Definition SCHEMA_RESOURCE_NAMES : list string :=
  ["kdbx_describe_tables"; "kdbx_sql_query_guidance"].

Fixpoint read_schema_resources (resources : list resource) (schema_info : string)
  : M string :=
  match resources with
  | [] => ret schema_info
  | r :: rest =>
      if mem_str (name r) SCHEMA_RESOURCE_NAMES then
        content <- _read_resource (uri r) ;;
        read_schema_resources rest
          (if nonempty content
           then schema_info ++ NL ++ "## " ++ name r ++ NL ++ content ++ NL
           else schema_info)
      else read_schema_resources rest schema_info
  end.

(** [_answer_from_schema]. *)
Definition _answer_from_schema (user_query : string) : M (option string) :=
  c <- get_self ;;
  schema_info <- read_schema_resources (_resources c) EmptyString ;;
  let schema_info :=
    if negb (nonempty schema_info) && nonempty (_schema_description c)
    then _schema_description c else schema_info in
  if negb (nonempty schema_info) then ret None
  else
    let p := SchemaAnswerPrompt schema_info user_query in
    reply <- request (EvLLM p) (fun history => w_llm w history p) ;;
    match reply with
    | inr content => ret (Some (strip content))
    | inl _ => ret None
    end.

Definition SCHEMA_QUESTION_KEYWORDS : list string :=
  ["what table"; "which table"; "list table"; "show table"; "available table";
   "what schema"; "describe schema"; "database schema"; "what column"].

(** The rows taken from the content of a successful query: the last text
    item whose text decodes to a dict with a ["data"] or a ["rows"] key
    decides. A string under ["data"] is decoded once more; when that fails
    the exception is caught with the string already assigned. *)
Definition rows_of_item (data : json) (item : content_item) : json :=
  if is_text_item item then
    match loads (item_text item) with
    | Some (JObject parsed) =>
        match dict_get "data" parsed with
        | Some (JString d) =>
            match loads d with
            | Some v => v
            | None => JString d
            end
        | Some v => v
        | None =>
            match dict_get "rows" parsed with
            | Some v => v
            | None =>
                match dict_get "status" parsed with
                | Some (JString "success") => JArray []
                | _ => data
                end
            end
        end
    | _ => data
    end
  else data.

(** [len(data)] and [data[:10] if len(data) > 10 else data]; a number has
    no length and a long dict cannot be sliced. *)
Definition data_preview (data : json) : string + (nat * json) :=
  match data with
  | JArray rows =>
      inr (List.length rows,
           if (10 <? List.length rows)%nat then JArray (firstn 10 rows) else data)
  | JString s =>
      inr (String.length s,
           if (10 <? String.length s)%nat then JString (take 10 s) else data)
  | JObject d =>
      if (10 <? List.length d)%nat then inl "unhashable type: 'slice'"
      else inr (List.length d, data)
  | _ => inl "object has no len()"
  end.

(** [_generate_simple_answer]. *)
Definition _generate_simple_answer (user_query sql_query : string) (data : json)
  : M string :=
  preview <- lift (data_preview data) ;;
  let p := SimpleAnswerPrompt user_query sql_query (fst preview) (snd preview) in
  reply <- request (EvLLM p) (fun history => w_llm w history p) ;;
  match reply with
  | inr content => ret (strip content)
  | inl _ => ret ("Found " ++ str_of_nat (fst preview) ++ " rows of data.")
  end.

(** The [try] block of [simple_chat_query]. *)
Definition generate_and_run (user_query : string) (p : prompt)
  : M (string * option string * json) :=
  reply <- request (EvLLM p) (fun history => w_llm w history p) ;;
  content <- lift reply ;;
  match clean_sql content with
  | None => ret ("Could not generate SQL for: " ++ user_query, None, JArray [])
  | Some sql_query =>
      result <- run_sql sql_query ;;
      if has_error result || r_isError result then
        let error_msg := match r_error result with
                         | Some e => e
                         | None => "Query execution failed"
                         end in
        ret ("Query failed: " ++ error_msg, Some sql_query, JArray [])
      else
        let data := fold_left rows_of_item (get_content result) (JArray []) in
        if py_truthy data then
          answer <- _generate_simple_answer user_query sql_query data ;;
          ret (answer, Some sql_query, data)
        else ret ("Query executed but returned no data.", Some sql_query, data)
  end.

(** [simple_chat_query]. *)
Definition simple_chat_query (user_query : string)
  : M (string * option string * json) :=
  c <- get_self ;;
  (if negb (_initialized c) then initialize false else ret tt) ;;
  c <- get_self ;;
  (if negb (_data_content_discovered c)
   then discover_data_content None false ;; ret tt
   else ret tt) ;;
  schema_answer <-
    (if any_keyword_in SCHEMA_QUESTION_KEYWORDS (lower user_query)
     then _answer_from_schema user_query
     else ret None) ;;
  match schema_answer with
  | Some (String ch rest) => ret (String ch rest, None, JArray [])
  | _ =>
      c <- get_self ;;
      let p := SqlPrompt (take 2000 (_schema_description c))
                 (take 2000 (get_data_content_description w (_data_content c)))
                 user_query in
      try_except (generate_and_run user_query p)
        (fun e => ret ("Error: " ++ e, None, JArray []))
  end.

End Methods.

End Client.

(* ===================================================================== *)
(** ** Concrete inputs *)
(* ===================================================================== *)

Import PyStr Json Extract Client.

(** The object [{"a":1}] as text, and the value it decodes to. *)
Definition text_a1 : string := "{" ++ quoted "a" ++ ":1}".
Definition obj_a1 : json := JObject [("a", JInt 1)].

(** The object [{"a": {"b": 1}}] as text, and the value it decodes to. *)
Definition text_ab1 : string :=
  "{" ++ quoted "a" ++ ": {" ++ quoted "b" ++ ": 1}}".
Definition obj_ab1 : json := JObject [("a", JObject [("b", JInt 1)])].

(** The four inputs of the extraction test: a fenced block, an object
    inside other text, a nested object with trailing text, and an opening
    think tag that is never closed, followed by an object. *)
Definition input_fenced : string := "```json" ++ NL ++ text_a1 ++ NL ++ "```".
Definition input_embedded : string := "blah " ++ text_a1 ++ " blah".
Definition input_trailing : string := text_ab1 ++ " trailing junk".
Definition input_open_think : string :=
  "<think>I should answer with JSON. " ++ text_a1.
Definition input_closed_think : string :=
  "<think>I should answer with JSON.</think>" ++ text_a1.

(** The reply of the SQL cleanup test: a fenced block between double
    quotes, with a newline after the opening fence and before the closing
    one, and a backslash before each inner quote. *)
Definition escaped_quote : string := BSL ++ DQ.
Definition fenced_sql : string :=
  "```sql" ++ NL ++ "SELECT " ++ escaped_quote ++ "sym" ++ escaped_quote
    ++ " FROM daily" ++ NL ++ "```".
Definition raw_response : string := DQ ++ fenced_sql ++ DQ.
Definition cleaned_query : string := "SELECT " ++ quoted "sym" ++ " FROM daily".

(** A rendering of decoded values for the concrete environments. *)
Definition str_basic (v : json) : string :=
  match v with
  | JNull => "None"
  | JBool true => "True"
  | JBool false => "False"
  | JInt z => NilZero.string_of_int (Z.to_int z)
  | JString s => s
  | _ => "<value>"
  end.

(** An environment from its tool server and its model: no tools or
    resources are listed, no schema is parsed. *)
Definition world_of
    (call : list event -> json -> json -> string + mcp_result)
    (llm : list event -> prompt -> string + string) : World :=
  mk_world (fun _ => inr []) (fun _ => inr []) (fun _ _ => inl "no resource")
    call llm str_basic (fun _ => EmptyString) (fun _ _ => []).

(** A server that cannot be reached. *)
Definition unreachable : list event -> json -> json -> string + mcp_result :=
  fun _ _ _ => inl "connection refused".

(** A model that cannot be reached. *)
Definition silent : list event -> prompt -> string + string :=
  fun _ _ => inl "model offline".

(** A client that has been initialized and has probed its data. *)
Definition ready_client : client :=
  set_data_content_discovered true
    (set_initialized true (__init__ None None None None)).

Definition ready : state := mk_state ready_client [].

(** The environment of the SQL cleanup test: the model gives the quoted,
    fenced reply. *)
Definition world_sql_reply : World :=
  world_of unreachable (fun _ _ => inr raw_response).

(** A server whose tool fails without saying why: the result is flagged as
    an error and its only content item is an empty text. *)
Definition world_mute_error : World :=
  world_of
    (fun _ _ _ =>
       inr (McpObject (Some true) (Some [McpText EmptyString]) (Some JNull)
              "CallToolResult"))
    silent.

(** A session that fails with an exception without a message, such as a
    bare timeout. *)
Definition world_mute_exception : World :=
  world_of (fun _ _ _ => inl EmptyString) silent.

(** A server whose tool fails and says why. *)
Definition world_loud_error : World :=
  world_of
    (fun _ _ _ =>
       inr (McpObject (Some true) (Some [McpText "no such table"; McpText "daily"])
              (Some JNull) "CallToolResult"))
    silent.

(** The column that the specification's wording selects for the
    distinct-values probe: the first column whose name contains one of the
    patterns, ignoring case. *)
Definition spec_symbol_column (patterns columns : list string) : option string :=
  List.find (fun c => existsb (fun p => contains (lower p) (lower c)) patterns)
    columns.

(** An environment whose schema names one table, [trades], with the given
    columns, and whose server cannot be reached. *)
Definition world_trades (cols : list string) : World :=
  mk_world (fun _ => inr []) (fun _ => inr []) (fun _ _ => inl "no resource")
    unreachable silent str_basic (fun _ => EmptyString)
    (fun _ _ => [("trades", cols)]).

(** A client that has been initialized but has not probed its data. *)
Definition fresh_client : client :=
  set_initialized true (__init__ None None None None).

Definition fresh : state := mk_state fresh_client [].

Definition sql_call (query : string) : event :=
  EvCallTool (JString SQL_TOOL) (query_arguments query).

(** A server that offers a schema resource and, only the first time its
    resources are listed, a resource with SQL guidance. *)
Definition res_tables : mcp_resource :=
  mk_mcp_resource "kdbx://tables" "kdbx_describe_tables"
    (Some "Tables and their columns") (Some "text/plain") None.
Definition res_guidance : mcp_resource :=
  mk_mcp_resource "kdbx://guidance" "kdbx_sql_query_guidance"
    (Some "SQL syntax guidance") (Some "text/plain") None.

Definition is_list_resources (ev : event) : bool :=
  match ev with
  | EvListResources => true
  | _ => false
  end.

Definition sql_tool_descr : tool :=
  mk_tool SQL_TOOL (Some "Run a SQL query")
    (Some (mk_schema [("query", mk_param (Some "string") (Some "SQL text"))]
             ["query"])).

Definition world_guidance_withdrawn : World :=
  mk_world
    (fun _ => inr [sql_tool_descr])
    (fun history =>
       if existsb is_list_resources history
       then inr [res_tables]
       else inr [res_tables; res_guidance])
    (fun _ uri =>
       if String.eqb uri "kdbx://tables"
       then inr (ReadContents [Some "TABLE ANALYSIS: daily"])
       else inr (ReadContents [Some "Quote every column name."]))
    unreachable silent str_basic (fun _ => EmptyString) (fun _ _ => []).

Definition new_client : client := __init__ None None None None.

(** The first discovery cycle, and the forced refresh that follows it. *)
Definition after_initialize : state :=
  out_state (initialize world_guidance_withdrawn false (mk_state new_client [])).
Definition after_refresh : state :=
  out_state (refresh_schema world_guidance_withdrawn after_initialize).

(** A new client that runs its first discovery at the time of the refresh. *)
Definition initialized_late : state :=
  out_state (initialize world_guidance_withdrawn false
               (mk_state new_client (log after_initialize))).

Definition old_guidance : string :=
  "## kdbx_sql_query_guidance" ++ NL ++ "Quote every column name.".

(** *** Notions used in the statements *)

(** The extractor returns a string that decodes to [expected]. *)
Definition extracts_to (text : string) (expected : json) : Prop :=
  exists candidate,
    _extract_json text = Some candidate /\ loads candidate = Some expected.

(** The prompt with which [simple_chat_query] asks for SQL. *)
Definition sql_prompt (w : World) (c : client) (user_query : string) : prompt :=
  SqlPrompt (take 2000 (_schema_description c))
    (take 2000 (get_data_content_description w (_data_content c))) user_query.

(** What [refresh_schema] clears before it runs the discovery: the schema
    text, the additional context, the data content and its flag. The SQL
    guidance is not among them. *)
Definition cleared (c : client) : client :=
  set_data_content_discovered false
    (set_data_content []
       (set_additional_context [] (set_schema_description EmptyString c))).

(** A computation that leaves the client object as it found it, whether
    it returns or raises. *)
Definition keeps_self {A : Type} (m : M A) : Prop :=
  forall s, self (out_state (m s)) = self s.

(** A computation that preserves a property of the client object, whether
    it returns or raises. *)
Definition preserves {A : Type} (P : client -> Prop) (m : M A) : Prop :=
  forall s, P (self s) -> P (self (out_state (m s))).

(** Every entry of the data-content cache has a non-empty column list. *)
Definition columns_known (c : client) : Prop :=
  Forall (fun entry : string * table_info => columns (snd entry) <> [])
    (_data_content c).

(** The states that a client can be in: it is constructed, and then its
    public methods are called in any order, each ending normally or with an
    exception. *)
Inductive reachable (w : World) : state -> Prop :=
| reach_new (sp dp tp fw : option (list string)) :
    reachable w (mk_state (__init__ sp dp tp fw) [])
| reach_initialize (s : state) (force_refresh : bool) :
    reachable w s -> reachable w (out_state (initialize w force_refresh s))
| reach_refresh_schema (s : state) :
    reachable w s -> reachable w (out_state (refresh_schema w s))
| reach_discover_data_content (s : state) (tables : option (list string))
    (force_refresh : bool) :
    reachable w s ->
    reachable w (out_state (discover_data_content w tables force_refresh s))
| reach_call_tool (s : state) (tool_name arguments : json) :
    reachable w s -> reachable w (out_state (call_tool w tool_name arguments s))
| reach_intelligent_query (s : state) (user_query : string) (max_iterations : nat) :
    reachable w s ->
    reachable w (out_state (intelligent_query w user_query max_iterations s))
| reach_simple_chat_query (s : state) (user_query : string) :
    reachable w s -> reachable w (out_state (simple_chat_query w user_query s)).

(** What a computation guarantees about its value when it returns. *)
Definition ensures {A : Type} (m : M A) (Q : A -> Prop) : Prop :=
  forall s, match m s with
            | Ok a _ => Q a
            | Raise _ _ => True
            end.

(** Text content as a server returns it for a query: a dict whose
    ["data"] is the given JSON text. *)
Definition rows_reply (data : string) : string + mcp_result :=
  inr (McpObject (Some false)
         (Some [McpText ("{" ++ quoted "data" ++ ": " ++ data ++ "}")])
         (Some JNull) "CallToolResult").

Definition field (k v : string) : string := quoted k ++ ": " ++ quoted v.

(** The query of a call to the SQL tool. *)
Definition query_of (arguments : json) : string :=
  match arguments with
  | JObject [("query", JString q)] => q
  | _ => EmptyString
  end.

(** An environment for the prober. The schema names two tables: [ghost]
    without columns, whose [SELECT *] probe fails, and [daily] with the
    columns [date], [sym] and [title]. Every row-count query fails; the other
    queries on [daily] return rows. *)
Definition daily_server (extra_date_field : string)
  : list event -> json -> json -> string + mcp_result :=
  fun _ _ arguments =>
    let q := query_of arguments in
    if String.eqb q (symbols_query "sym" "daily") then
      rows_reply ("[{" ++ field "sym" "AAPL" ++ "}, {" ++ field "sym" "MSFT"
                    ++ "}, {" ++ field "sym" "AAPL" ++ "}]")
    else if String.eqb q (date_query "date" "daily") then
      rows_reply ("[{" ++ field "min_date" "2020-01-02" ++ ", "
                    ++ field "max_date" "2024-12-31" ++ extra_date_field ++ "}]")
    else if String.eqb q (text_query "title" "daily" "ORDER BY date DESC") then
      rows_reply ("[{" ++ field "title" "Earnings call" ++ "}]")
    else inl "query timed out".

Definition world_daily_with (extra_date_field : string) : World :=
  mk_world (fun _ => inr []) (fun _ => inr []) (fun _ _ => inl "no resource")
    (daily_server extra_date_field) silent str_basic (fun _ => EmptyString)
    (fun _ _ => [("ghost", []); ("daily", ["date"; "sym"; "title"])]).

Definition world_daily : World := world_daily_with EmptyString.

(** The same, except that the date-range row also carries a count. *)
Definition world_daily_counted : World :=
  world_daily_with (", " ++ quoted "row_count" ++ ": 7").

(** The same, except that the date-range query returns a dict where the
    rows should be. *)
Definition world_daily_misshapen : World :=
  mk_world (fun _ => inr []) (fun _ => inr []) (fun _ _ => inl "no resource")
    (fun history tool_name arguments =>
       if String.eqb (query_of arguments) (date_query "date" "daily")
       then rows_reply ("{" ++ field "min_date" "2020-01-02" ++ "}")
       else daily_server EmptyString history tool_name arguments)
    silent str_basic (fun _ => EmptyString)
    (fun _ _ => [("ghost", []); ("daily", ["date"; "sym"; "title"])]).

Definition daily_entry (count : option json) : table_info :=
  mk_table_info ["date"; "sym"; "title"] count
    (Some [JString "AAPL"; JString "MSFT"]) (Some "sym")
    (Some ("2020-01-02", "2024-12-31")) (Some "date")
    (Some ["title"]) (Some ("title", [JString "Earnings call"])).

(** The state after further requests. *)
Definition after (s : state) (events : list event) : state :=
  mk_state (self s) (log s ++ events).

(** The dict of a table before any probe. *)
Definition new_table_info (cols : list string) : table_info :=
  mk_table_info cols None None None None None None None.

(** The date-range and sample-text probes, in sequence. *)
Definition probe_dates_then_text (w : World) (c : client) (table : string)
    (cols : list string) (info : table_info) : M table_info :=
  bind (probe_dates w c table cols info)
    (fun info' => probe_text w c table cols info').

(** The state in which the dict of a table has been stored. *)
Definition stored (table : string) (info : table_info) (s : state) : state :=
  mk_state (set_data_content (dict_set table info (_data_content (self s))) (self s))
    (log s).

(** The plan that [_plan_tool_usage] returns for an answer of the
    model. *)
Definition plan_of_llm (answer : string + string) : plan :=
  match answer with
  | inr content => plan_of_reply content
  | inl e => message_plan ("Error: " ++ e)
  end.

(** The beginning of [intelligent_query] and of [simple_chat_query]:
    initialize if needed, then probe the data if needed. *)
Definition prepare (w : World) : M unit :=
  bind get_self (fun c =>
  bind (if negb (_initialized c) then initialize w false else ret tt) (fun _ =>
  bind get_self (fun c =>
  if negb (_data_content_discovered c)
  then bind (discover_data_content w None false) (fun _ => ret tt)
  else ret tt))).

(** What [intelligent_query] does with the way the loop ended. *)
Definition conclude (w : World) (user_query : string) (exit : loop_exit)
  : M (json * list tool_result) :=
  match exit with
  | Returned answer tool_results => ret (answer, tool_results)
  | Synthesize [] => ret (JString UNABLE, [])
  | Synthesize tool_results =>
      bind (_synthesize_results w user_query tool_results)
        (fun answer => ret (JString answer, tool_results))
  end.

(** The planner's refusal of the specification, as the model writes it. *)
Definition refusal_text : string :=
  "{" ++ quoted "data_available" ++ ": false, " ++ field "reasoning" "R" ++ ", "
    ++ field "limitations" "L" ++ ", " ++ quoted "steps" ++ ": []}".

Definition refusal_plan : plan :=
  [("data_available", JBool false); ("reasoning", JString "R");
   ("limitations", JString "L"); ("steps", JArray [])].

(** A model that always refuses, with a server that cannot be reached. *)
Definition world_refusal : World :=
  world_of unreachable (fun _ _ => inr refusal_text).

(** The tool calls among some events. *)
Definition is_tool_call (ev : event) : bool :=
  match ev with
  | EvCallTool _ _ => true
  | _ => false
  end.

(** The parts of a plan step as [execute_step] reads them. *)
Definition step_purpose (step : json) : option string :=
  match step with
  | JObject fields =>
      match get_or "purpose" EmptyString fields with
      | JString p => Some p
      | _ => None
      end
  | _ => None
  end.

Definition step_tool (step : json) : json :=
  match step with
  | JObject fields =>
      match dict_get "tool" fields with Some v => v | None => JNull end
  | _ => JNull
  end.

Definition step_arguments (step : json) : json :=
  match step with
  | JObject fields =>
      match dict_get "arguments" fields with Some v => v | None => JObject [] end
  | _ => JObject []
  end.

(** A step is a schema-discovery step when its purpose contains one of
    the keywords, ignoring case. *)
Definition is_discovery_step (step : json) : bool :=
  match step_purpose step with
  | Some p => any_keyword_in SCHEMA_PURPOSE_KEYWORDS (lower p)
  | None => false
  end.

(** A step that can be executed: a dict whose purpose, if any, is a
    string. *)
Definition is_executable_step (step : json) : bool :=
  match step_purpose step with
  | Some _ => true
  | None => false
  end.

(** A plan that is executed and that contains a schema-discovery step:
    it does not declare the data unavailable, and its steps are a list of
    executable steps, one of which is a schema-discovery step. *)
Definition discovery_plan (p : plan) : Prop :=
  data_unavailable p = false
  /\ exists steps,
       dict_get "steps" p = Some (JArray steps)
       /\ forallb is_executable_step steps = true
       /\ existsb is_discovery_step steps = true.

(** The schema sections of the planning prompts among some events, in
    order; their number is the number of planning calls. *)
Definition planning_schemas (events : list event) : list string :=
  flat_map
    (fun ev =>
       match ev with
       | EvLLM (PlanPrompt _ schema_description _ _ _ _) => [schema_description]
       | _ => []
       end)
    events.

Definition plan_calls (events : list event) : nat :=
  List.length (planning_schemas events).

(** The tool calls among some events, in order. *)
Definition tool_calls (events : list event) : list (json * json) :=
  flat_map
    (fun ev =>
       match ev with
       | EvCallTool tool_name arguments => [(tool_name, arguments)]
       | _ => []
       end)
    events.

(** The call that a result answers. *)
Definition call_of (r : tool_result) : json * json := (r_tool r, r_arguments r).

(** What a successful schema-discovery step adds to the discovered
    schema. *)
Definition discovery_note (tool_name : json) (schema_text : string) (w : World)
  : string :=
  NL ++ NL ++ "Discovered from " ++ str_of w tool_name ++ ":" ++ NL ++ schema_text.

(** Plans as the model writes them: a schema-discovery step, a query
    step, and a refusal that still lists a schema-discovery step. *)
Definition discovery_step_text : string :=
  "{" ++ field "tool" "list_tables" ++ ", " ++ quoted "arguments" ++ ": {}, "
    ++ field "purpose" "discover schema" ++ "}".

Definition discover_plan_text : string :=
  "{" ++ field "reasoning" "I need the tables first" ++ ", "
    ++ quoted "data_available" ++ ": true, "
    ++ quoted "steps" ++ ": [" ++ discovery_step_text ++ "]}".

Definition query_plan_text : string :=
  "{" ++ field "reasoning" "Table x has the rows" ++ ", "
    ++ quoted "steps" ++ ": [{" ++ field "tool" "kdbx_run_sql_query" ++ ", "
    ++ quoted "arguments" ++ ": {" ++ field "query" "SELECT * FROM x LIMIT 10"
    ++ "}, " ++ field "purpose" "fetch the rows" ++ "}]}".

Definition refusing_discovery_text : string :=
  "{" ++ quoted "data_available" ++ ": false, " ++ field "reasoning" "R" ++ ", "
    ++ quoted "steps" ++ ": [" ++ discovery_step_text ++ "]}".

Definition is_llm (ev : event) : bool :=
  match ev with
  | EvLLM _ => true
  | _ => false
  end.

(** A server with a tool that lists the tables and a SQL tool. *)
Definition tables_server : list event -> json -> json -> string + mcp_result :=
  fun _ tool_name _ =>
    match tool_name with
    | JString "list_tables" =>
        inr (McpObject (Some false) (Some [McpText "TABLE x"]) (Some JNull)
               "CallToolResult")
    | JString "kdbx_run_sql_query" => rows_reply ("[{" ++ field "a" "1" ++ "}]")
    | _ => inl "unknown tool"
    end.

(** A model that always plans a schema discovery. *)
Definition world_always_discovers : World :=
  world_of tables_server (fun _ _ => inr discover_plan_text).

(** A model that always refuses while listing a schema-discovery step. *)
Definition world_refusing_discovery : World :=
  world_of tables_server (fun _ _ => inr refusing_discovery_text).

(** A model that first plans a schema discovery, then a query, and then
    writes the answer. *)
Definition world_discover_then_query : World :=
  world_of tables_server
    (fun history _ =>
       match List.length (filter is_llm history) with
       | 0 => inr discover_plan_text
       | 1 => inr query_plan_text
       | _ => inr "Table x has one row."
       end).

(** A model that first plans a schema discovery and then refuses. *)
Definition world_discover_then_refuse : World :=
  world_of tables_server
    (fun history _ =>
       match List.length (filter is_llm history) with
       | 0 => inr discover_plan_text
       | _ => inr refusal_text
       end).

(* ===================================================================== *)
(** ** The module-level functions and their callers *)
(* ===================================================================== *)

From Stdlib Require Import Permutation Sorted.

(** *** Keyword routing ([kdb_tools_nat.py]) *)

Definition KDB_KEYWORDS : list string :=
  ["price"; "stock"; "trade"; "market"; "ticker"; "volume";
   "time-series"; "timeseries"; "historical"; "financial data";
   "quote"; "bid"; "ask"; "spread"; "ohlc"; "candle";
   "moving average"; "returns"; "volatility"; "correlation";
   "portfolio"; "equity"; "bond"; "forex"; "fx"; "currency";
   "derivative"; "option"; "future"; "swap"; "index";
   "nasdaq"; "nyse"; "s&p"; "dow jones"; "ftse";
   "trading"; "execution"; "order"; "position"; "pnl";
   "profit"; "loss"; "sharpe"; "drawdown"; "var"; "risk"].

(** [is_kdb_query]. *)
Definition is_kdb_query (query : string) : bool :=
  let query_lower := lower query in
  any_keyword_in KDB_KEYWORDS query_lower.

(** *** The accessors of the client *)

(** [get_tools_description] and [get_schema_description]. *)
Definition get_tools_description (w : World) : M string :=
  c <- get_self ;;
  (if negb (_initialized c) then initialize w false else ret tt) ;;
  c <- get_self ;;
  ret (_tools_description c).

Definition get_schema_description (w : World) : M string :=
  c <- get_self ;;
  (if negb (_initialized c) then initialize w false else ret tt) ;;
  c <- get_self ;;
  ret (_schema_description c).

(** [_extract_tables_from_schema]: the keys of the parsed schema. *)
Definition _extract_tables_from_schema (w : World) (c : client) : list string :=
  dict_keys (_extract_tables_and_columns_from_schema w (_schema_description c)
               (table_filter_words c)).

(** *** [search_kdb_nat] and its helpers *)

(** [_count_records_from_results]. *)
Definition _count_records_from_results (tool_results : list tool_result) : nat :=
  fold_left
    (fun total result =>
       let content := get_content result in
       match content with
       | _ :: _ =>
           if negb (has_error result) then total + List.length content else total
       | [] => total
       end)
    tool_results 0.

Section Search.

Variable w : World.

(** The settings read from the environment when the module is loaded, and
    whether the [mcp] package could be imported. *)
Variable KDB_ENABLED : bool.
Variable _mcp_available : bool.

(** [json.dumps] on a decoded value, left to the runtime. *)
Variable json_dumps : json -> string.

(** The progress callback of the caller: it returns or raises. *)
Variable writer : string -> string + unit.

(** The lines that [_format_intelligent_citations] writes for one result. *)
Definition citation_lines (result : tool_result) : list string :=
  let tool_name := str_of w (r_tool result) in
  let purpose := match r_purpose result with Some p => p | None => EmptyString end in
  let arguments := r_arguments result in
  let content := get_content result in
  let purpose_lines : list string :=
    if nonempty purpose then ["  Purpose: " ++ purpose] else [] in
  let argument_lines : list string :=
    if py_truthy arguments then ["  Arguments: " ++ json_dumps arguments] else [] in
  let preview_lines : list string :=
    match content with
    | _ :: _ =>
        if negb (has_error result) then
          "  Result preview:"
            :: flat_map
                 (fun item =>
                    if is_text_item item
                    then ["    " ++ take 200 (item_text item) ++ "..."]
                    else [])
                 (firstn 2 content)
        else []
    | [] => []
    end in
  let header : string := "- " ++ tool_name in
  (header :: purpose_lines ++ argument_lines ++ preview_lines)%list.

(** [_format_intelligent_citations]. *)
Definition _format_intelligent_citations (query : string)
    (tool_results : list tool_result) : string :=
  match tool_results with
  | [] => EmptyString
  | _ =>
      let head_lines : list string :=
        ["---";
         "**Source**: KDB+ Database (Intelligent MCP Client)";
         "**Query**: " ++ query;
         "**Tools Used**:"] in
      join NL (head_lines ++ flat_map citation_lines tool_results ++ ["---"])%list
  end.

Definition NO_ANSWER : string * string * nat := (EmptyString, EmptyString, 0).

(** [search_kdb_nat]. The module-level client is the client of the state:
    before its first use it is the new client that [__init__] builds. Without
    the [mcp] package [get_kdb_nat_client] returns [None], and the method call
    on it raises inside the [try] block. *)
Definition search_kdb_nat (query : string) : M (string * string * nat) :=
  if negb KDB_ENABLED then ret NO_ANSWER
  else
    lift (writer query) ;;
    try_except
      (if negb _mcp_available
       then raise "'NoneType' object has no attribute 'intelligent_query'"
       else
         r <- intelligent_query w query 3 ;;
         let (answer, tool_results) := r in
         if negb (py_truthy answer) then ret NO_ANSWER
         else
           match answer with
           | JString a =>
               if startswith "Unable to answer" a then ret NO_ANSWER
               else
                 let citations := _format_intelligent_citations query tool_results in
                 let record_count := _count_records_from_results tool_results in
                 ret (a, citations, record_count)
           | _ => raise "object has no attribute 'startswith'"
           end)
      (fun _ => ret NO_ANSWER).

(** [search_kdb_nat_with_fallback]: an alias. *)
Definition search_kdb_nat_with_fallback (query : string)
  : M (string * string * nat) :=
  search_kdb_nat query.

(** *** The callers in [search_utils.py] *)

(** [classify_query_type]; [use_kdb] is [True], [False] or [None]. *)
Definition classify_query_type (query : string) (use_kdb : option bool) : string :=
  match use_kdb with
  | Some true => "kdb"
  | Some false => "rag"
  | None => if KDB_ENABLED && is_kdb_query query then "kdb" else "rag"
  end.

End Search.

(** The dataclass [SourceResult]. *)
Record SourceResult : Type := mk_SourceResult {
  source : string;
  content : string;
  citation : string;
  is_relevant : bool;
  record_count : option Z;
  duration_seconds : Q
}.

Definition EMPTY_PATTERNS : list string :=
  ["no data"; "no results"; "not found"; "no relevant"; "no information";
   "unable to"; "error"].

(** [SourceResult.is_empty]. *)
Definition is_empty (r : SourceResult) : bool :=
  if negb (nonempty (content r)) then true
  else
    let content_lower := lower (content r) in
    any_keyword_in EMPTY_PATTERNS content_lower
    && (String.length (content r) <? 200)%nat.

(** [bool(result and not result.is_empty() and result.is_relevant)]. *)
Definition usable (result : option SourceResult) : bool :=
  match result with
  | Some r => negb (is_empty r) && is_relevant r
  | None => false
  end.

Definition NOTHING_FOUND : string :=
  "No relevant information found from available sources.".

(** [merge_hybrid_results]. *)
Definition merge_hybrid_results (kdb_result rag_result : option SourceResult)
    (query : string) : string * string :=
  let has_kdb := usable kdb_result in
  let has_rag := usable rag_result in
  match kdb_result, rag_result with
  | Some kdb, Some rag =>
      if has_kdb && has_rag then
        let merged_content :=
          "**Financial Data (KDB+):**" ++ NL ++ content kdb ++ NL ++ NL
            ++ "**Document Analysis (RAG):**" ++ NL ++ content rag in
        let merged_citation :=
          (if nonempty (citation kdb)
           then "[KDB+ Source]" ++ NL ++ citation kdb ++ NL else EmptyString)
            ++ (if nonempty (citation rag)
                then NL ++ "[Document Source]" ++ NL ++ citation rag
                else EmptyString) in
        (merged_content, merged_citation)
      else if has_kdb then (content kdb, citation kdb)
      else if has_rag then (content rag, citation rag)
      else if nonempty (content kdb) then (content kdb, citation kdb)
      else if nonempty (content rag) then (content rag, citation rag)
      else (NOTHING_FOUND, EmptyString)
  | Some kdb, None =>
      if has_kdb then (content kdb, citation kdb)
      else if nonempty (content kdb) then (content kdb, citation kdb)
      else (NOTHING_FOUND, EmptyString)
  | None, Some rag =>
      if has_rag then (content rag, citation rag)
      else if nonempty (content rag) then (content rag, citation rag)
      else (NOTHING_FOUND, EmptyString)
  | None, None => (NOTHING_FOUND, EmptyString)
  end.

(** *** Notions used in the statements *)

(** The priority annotation of a resource, if it has one. *)
Definition priority_of (r : resource) : option Q :=
  match res_annotations r with
  | Some ann => priority ann
  | None => None
  end.

(** A server with annotated resources: one for the user only, and three
    for the model, of priorities 0.2, one half by default, and 0.8. *)
Definition res_internal : mcp_resource :=
  mk_mcp_resource "kdbx://internal" "operator_notes" (Some "Notes")
    (Some "text/plain")
    (Some (mk_annotations (Some (AudienceList ["user"])) (Some (9 # 10)%Q))).
Definition res_low : mcp_resource :=
  mk_mcp_resource "kdbx://examples" "sql_examples" (Some "Example queries")
    (Some "text/plain")
    (Some (mk_annotations (Some (AudienceList ["llm"])) (Some (2 # 10)%Q))).
Definition res_high : mcp_resource :=
  mk_mcp_resource "kdbx://meta" "table_meta" (Some "Column structure")
    (Some "text/plain")
    (Some (mk_annotations None (Some (8 # 10)%Q))).

Definition world_annotated : World :=
  mk_world
    (fun _ => inr [sql_tool_descr])
    (fun _ => inr [res_internal; res_low; res_tables; res_high])
    (fun _ uri => inr (ReadContents [Some ("content of " ++ uri)]))
    unreachable silent str_basic (fun _ => EmptyString) (fun _ _ => []).

(** A server whose tool listing fails. *)
Definition world_no_tools : World :=
  mk_world (fun _ => inl "connection refused") (fun _ => inr [])
    (fun _ _ => inl "no resource") unreachable silent str_basic
    (fun _ => EmptyString) (fun _ _ => []).

(** A plan that the loop of [intelligent_query] processes without an
    exception: when it declares the data unavailable its answer can be built,
    and otherwise its steps, if it has any, are dicts whose purpose is a
    string. *)
Definition plan_runs (w : World) (p : plan) : Prop :=
  (data_unavailable p = true -> exists a, unavailable_answer w p = inr a)
  /\ (data_unavailable p = false ->
      py_truthy (get_or "steps" EmptyString p) = true ->
      forallb is_executable_step (steps_of p) = true).

(** The preview of a reply that could not be parsed. *)
Definition reply_preview (content : string) : string :=
  if nonempty content then replace NL " " (take 200 content) else "empty".

(** A model that answers with a query in plain text, and then with the
    final answer. *)
Definition world_plain_sql : World :=
  world_of tables_server
    (fun history _ =>
       match List.length (filter is_llm history) with
       | 0 => inr "Use SELECT * FROM x LIMIT 10 for this."
       | _ => inr "Table x has one row."
       end).

(** A model that cannot be reached, with the server of the tables. *)
Definition world_silent : World := world_of tables_server silent.

(** A model that answers without any query. *)
Definition world_chatty : World :=
  world_of tables_server (fun _ _ => inr "I do not know.").

(** [result.get("error", "Query execution failed")]. *)
Definition error_message (r : tool_result) : string :=
  match r_error r with
  | Some e => e
  | None => "Query execution failed"
  end.

(** The rows that [simple_chat_query] takes from a result. *)
Definition rows_of (r : tool_result) : json :=
  fold_left rows_of_item (get_content r) (JArray []).

(** The [except] clause of [simple_chat_query]. *)
Definition chat_error (e : string) : M (string * option string * json) :=
  ret ("Error: " ++ e, None, JArray []).

(** The SQL prompt of [simple_chat_query]. *)
Definition chat_prompt (w : World) (c : client) (user_query : string) : prompt :=
  SqlPrompt (take 2000 (_schema_description c))
    (take 2000 (get_data_content_description w (_data_content c)))
    user_query.

(** [simple_chat_query] after its preparation. *)
Definition chat_after_prepare (w : World) (user_query : string)
  : M (string * option string * json) :=
  schema_answer <-
    (if any_keyword_in SCHEMA_QUESTION_KEYWORDS (lower user_query)
     then _answer_from_schema w user_query
     else ret None) ;;
  match schema_answer with
  | Some (String ch rest) => ret (String ch rest, None, JArray [])
  | _ =>
      c <- get_self ;;
      try_except (generate_and_run w user_query (chat_prompt w c user_query))
        chat_error
  end.

(** A query is a [SELECT] when it begins with that word, in any case. *)
Definition is_select (sql_query : string) : bool :=
  startswith "SELECT" (upper sql_query).

(** A model that answers every prompt with a statement that is not a
    query. *)
Definition world_drop : World :=
  world_of tables_server (fun _ _ => inr "DROP TABLE x").

(** A model that answers every prompt with a query, and a server that
    answers with rows. *)
Definition world_select : World :=
  world_of tables_server (fun _ _ => inr "select a from x").

(** A server whose resources carry nothing named after the schema, a cached
    schema description, and a model that answers. *)
Definition described_client : client :=
  set_schema_description "TABLE ANALYSIS: daily" ready_client.
Definition described : state := mk_state described_client [].
Definition world_answers : World :=
  world_of tables_server (fun _ _ => inr " Table daily. ").

(** No value of the list equals, in Python's sense, a value before it. *)
Definition distinct_values (values : list json) : Prop :=
  ForallOrdPairs (fun earlier later => py_eq later earlier = false) values.

(** The value [v] is the value of [column] in a row of a text item of the
    result. *)
Definition column_value_of (result : tool_result) (column : string) (v : json)
  : Prop :=
  exists item rows fields,
    In item (get_content result)
    /\ item_data item = Some (JArray rows)
    /\ In (JObject fields) rows
    /\ dict_get column fields = Some v.

(** The tables that [discover_data_content] takes from the schema: those
    of the parsed schema, restricted to the requested ones. *)
Definition tables_from_schema (w : World) (c : client)
    (tables : option (list string)) : list (string * list string) :=
  let parsed :=
    _extract_tables_and_columns_from_schema w (_schema_description c)
      (table_filter_words c) in
  match tables with
  | Some ts => restrict_tables ts parsed
  | None => parsed
  end.

(** A server that answers the table listing with a row whose name is a
    list. *)
Definition world_nested_name : World :=
  world_of
    (fun _ _ _ => rows_reply ("[{" ++ quoted "name" ++ ": [1]}]"))
    silent.

(** A server whose queries return no rows. *)
Definition world_no_rows : World :=
  world_of (fun _ _ _ => rows_reply "[]") silent.

(** What the probes of a table with the columns [cols] may have recorded
    in its dict, on a client [c]: the symbol keys come together, for the first
    column that matches a symbol pattern, with values that are truthy and
    distinct; the date column is the first column that matches a date pattern;
    the text columns are all the columns that match a text pattern; the sample
    has at most ten values, of the first text column. *)
Definition symbols_ok (c : client) (cols : list string) (info : table_info) : Prop :=
  match symbols info, symbol_column info with
  | Some vs, Some col =>
      vs <> []
      /\ hd_error (matching_columns (symbol_patterns c) cols) = Some col
      /\ Forall (fun v => py_truthy v = true) vs
      /\ distinct_values vs
  | None, None => True
  | _, _ => False
  end.

Definition dates_ok (c : client) (cols : list string) (info : table_info) : Prop :=
  match date_column info with
  | Some col => hd_error (matching_columns (date_patterns c) cols) = Some col
  | None => date_range info = None
  end.

Definition text_ok (c : client) (cols : list string) (info : table_info) : Prop :=
  match text_columns info with
  | Some tc => tc <> [] /\ tc = matching_columns (text_patterns c) cols
  | None => matching_columns (text_patterns c) cols = [] /\ sample_text info = None
  end.

Definition sample_ok (c : client) (cols : list string) (info : table_info) : Prop :=
  match sample_text info with
  | Some (col, vs) =>
      vs <> [] /\ List.length vs <= 10
      /\ hd_error (matching_columns (text_patterns c) cols) = Some col
  | None => True
  end.

Definition entry_ok (c : client) (cols : list string) (info : table_info) : Prop :=
  symbols_ok c cols info /\ dates_ok c cols info /\ text_ok c cols info
  /\ sample_ok c cols info.

(** What a result adds to the record count. *)
Definition counted (r : tool_result) : nat :=
  if has_error r then 0 else List.length (get_content r).

(** A model that refuses with the words of the fallback answer. *)
Definition world_unable : World :=
  world_of tables_server
    (fun _ _ =>
       inr ("{" ++ field "reasoning" "Unable to answer from this schema" ++ ", "
              ++ quoted "steps" ++ ": []}")).

(** A rendering of arguments for the concrete runs. *)
Definition dumps_basic (v : json) : string :=
  match v with
  | JObject [] => "{}"
  | _ => "<json>"
  end.

(** The plan that [_plan_tool_usage] builds around a statement found in a
    reply without JSON. *)
Definition fallback_plan (sql_query : string) : plan :=
  [("reasoning", JString "Extracted SQL from response (JSON parsing failed)");
   ("steps",
    JArray [JObject [("tool", JString SQL_TOOL);
                     ("arguments", query_arguments sql_query);
                     ("purpose", JString "Execute user query")]])].

(** A server that lists one tool, without a description, and no resource. *)
Definition bare_tool : tool := mk_tool "kdbx_run_sql_query" None None.
Definition world_undescribed : World :=
  mk_world (fun _ => inr [bare_tool]) (fun _ => inr [])
    (fun _ _ => inl "no resource") unreachable silent str_basic
    (fun _ => EmptyString) (fun _ _ => []).

Definition NONE_HAS_NO_LOWER : string :=
  "'NoneType' object has no attribute 'lower'".

(* ===================================================================== *)
(** ** Properties *)
(* ===================================================================== *)

(** *** The JSON decoder on the test objects *)

Example loads_flat : loads text_a1 = Some obj_a1.
Proof. reflexivity. Qed.

Example loads_nested : loads text_ab1 = Some obj_ab1.
Proof. vm_compute. reflexivity. Qed.

Example loads_mixed :
  loads ("[1.50, true, null, " ++ quoted "xA" ++ ", -0, 2e3]")
  = Some (JArray [JFloat 15 (-1); JBool true; JNull; JString "xA"; JInt 0;
                  JFloat 2 3]).
Proof. vm_compute. reflexivity. Qed.

Example loads_extra_data : loads (text_a1 ++ " trailing") = None.
Proof. reflexivity. Qed.

(** *** [_extract_json] *)

Example extract_fenced : _extract_json input_fenced = Some text_a1.
Proof. vm_compute. reflexivity. Qed.

Example extract_embedded : _extract_json input_embedded = Some text_a1.
Proof. vm_compute. reflexivity. Qed.

Example extract_trailing : _extract_json input_trailing = Some text_ab1.
Proof. vm_compute. reflexivity. Qed.

Example extract_open_think : _extract_json input_open_think = None.
Proof. vm_compute. reflexivity. Qed.

Example extract_closed_think : _extract_json input_closed_think = Some text_a1.
Proof. vm_compute. reflexivity. Qed.

(** One turn of [strip_closed_think]. *)
Lemma strip_closed_think_eq (fuel : nat) (c : ascii) (r : string) :
  strip_closed_think (S fuel) (String c r)
  = if startswith_ci THINK_OPEN (String c r) then
      match split_first true THINK_CLOSE (drop 7 (String c r)) with
      | Some (_, post) => strip_closed_think fuel post
      | None => String c (strip_closed_think fuel r)
      end
    else String c (strip_closed_think fuel r).
Proof. reflexivity. Qed.

(** Characters that cannot start an opening tag are copied. *)
Lemma strip_closed_think_skip (fuel : nat) (c : ascii) (r : string) :
  Ascii.eqb "<" (lower_char c) = false ->
  strip_closed_think (S fuel) (String c r) = String c (strip_closed_think fuel r).
Proof.
  intros H. rewrite strip_closed_think_eq.
  replace (startswith_ci THINK_OPEN (String c r)) with false; [reflexivity|].
  unfold startswith_ci, THINK_OPEN, lower. cbn [map_chars startswith].
  change (lower_char "<") with "<"%char. rewrite H. reflexivity.
Qed.

(** An opening tag without a closing tag stays, whatever follows it. *)
Lemma strip_closed_think_open (body : string) :
  split_first true THINK_CLOSE body = None ->
  strip_closed_think (String.length (THINK_OPEN ++ body)) (THINK_OPEN ++ body)
  = THINK_OPEN ++ strip_closed_think (String.length body) body.
Proof.
  intros Hclose.
  change (THINK_OPEN ++ body) with (String "<" ("think>" ++ body)) at 1 2.
  change (String.length (String "<" ("think>" ++ body)))
    with (S (S (S (S (S (S (S (String.length body)))))))).
  rewrite strip_closed_think_eq.
  change (startswith_ci THINK_OPEN (String "<" ("think>" ++ body))) with true.
  change (drop 7 (String "<" ("think>" ++ body))) with body.
  cbv iota. rewrite Hclose.
  change ("think>" ++ body)
    with (String "t" (String "h" (String "i" (String "n" (String "k"
            (String ">" body)))))).
  do 6 (rewrite strip_closed_think_skip by reflexivity).
  reflexivity.
Qed.

(** A text that starts with an unclosed opening tag is stripped whole. *)
Lemma extract_json_unclosed (body : string) :
  split_first true THINK_CLOSE body = None ->
  _extract_json (THINK_OPEN ++ body) = None.
Proof.
  intros Hclose. unfold _extract_json.
  rewrite (strip_closed_think_open body Hclose).
  set (rest := strip_closed_think (String.length body) body).
  replace (strip_open_think (THINK_OPEN ++ rest)) with EmptyString; [reflexivity|].
  unfold strip_open_think.
  change (THINK_OPEN ++ rest) with (String "<" ("think>" ++ rest)).
  reflexivity.
Qed.

(** C1, as stated, fails on its fourth input: the text from an unclosed
    opening think tag to the end of the reply is removed before any JSON is
    looked for, so the object that follows the tag is lost. *)
Lemma C1_counterexample :
  _extract_json input_open_think = None
  /\ ~ extracts_to input_open_think obj_a1.
Proof.
  split; [exact extract_open_think|].
  intros [candidate [H _]].
  rewrite extract_open_think in H. discriminate H.
Qed.

(** C1, amended: on the fenced block, on the object inside other text and
    on the nested object with trailing text, [_extract_json] returns a string
    that decodes to the expected object; on a text that begins with an
    opening think tag that is never closed it returns [None], whatever
    follows the tag. *)
Theorem C1_extract_json_inputs :
  extracts_to input_fenced obj_a1
  /\ extracts_to input_embedded obj_a1
  /\ extracts_to input_trailing obj_ab1
  /\ (forall body : string,
        split_first true THINK_CLOSE body = None ->
        _extract_json (THINK_OPEN ++ body) = None).
Proof.
  repeat split.
  - exists text_a1. split; [exact extract_fenced | exact loads_flat].
  - exists text_a1. split; [exact extract_embedded | exact loads_flat].
  - exists text_ab1. split; [exact extract_trailing | exact loads_nested].
  - exact extract_json_unclosed.
Qed.

Lemma C1_extract_json_inputs_witness :
  split_first true THINK_CLOSE ("I should answer with JSON. " ++ text_a1) = None
  /\ _extract_json (THINK_OPEN ++ "I should answer with JSON. " ++ text_a1) = None.
Proof.
  split.
  - vm_compute. reflexivity.
  - apply (proj2 (proj2 (proj2 C1_extract_json_inputs))).
    vm_compute. reflexivity.
Defined.

(** *** The SQL cleanup of [simple_chat_query] *)

Example clean_sql_raw_response : clean_sql raw_response = Some cleaned_query.
Proof. vm_compute. reflexivity. Qed.

(** Without the wrapping quotes the result is the same. *)
Example clean_sql_fenced : clean_sql fenced_sql = Some cleaned_query.
Proof. vm_compute. reflexivity. Qed.

(** A request extends the log by its event. *)
Lemma request_run {R : Type} (ev : event) (answer : list event -> R) (s : state) :
  request ev answer s = Ok (answer (log s)) (mk_state (self s) (log s ++ [ev])).
Proof. reflexivity. Qed.

(** [call_tool] always returns, and logs exactly its own call. *)
Lemma call_tool_run (w : World) (tool_name arguments : json) (s : state) :
  exists r,
    call_tool w tool_name arguments s
    = Ok r (mk_state (self s) (log s ++ [EvCallTool tool_name arguments])).
Proof.
  unfold call_tool, bind. rewrite request_run.
  destruct (w_call_tool w (log s) tool_name arguments); eexists; reflexivity.
Qed.

(** Once the model has replied with a text that cleans up to [sql], the
    next request is the execution of [sql]. *)
Lemma generate_and_run_log (w : World) (user_query sql reply : string)
    (p : prompt) (s : state) :
  w_llm w (log s) p = inr reply ->
  clean_sql reply = Some sql ->
  exists rest,
    log (out_state (try_except (generate_and_run w user_query p)
                      (fun e => ret ("Error: " ++ e, None, JArray [])) s))
    = (log s ++ [EvLLM p; EvCallTool (JString SQL_TOOL) (query_arguments sql)]
         ++ rest)%list.
Proof.
  intros Hreply Hclean.
  unfold try_except, generate_and_run, bind. rewrite request_run, Hreply.
  cbn [lift ret]. rewrite Hclean.
  unfold run_sql.
  destruct (call_tool_run w (JString SQL_TOOL) (query_arguments sql)
              (mk_state (self s) (log s ++ [EvLLM p]))) as [r Hr].
  rewrite Hr. cbn [self log].
  rewrite <- app_assoc. cbn [app].
  destruct (has_error r || r_isError r).
  - exists []. reflexivity.
  - destruct (py_truthy (fold_left rows_of_item (get_content r) (JArray []))).
    + unfold _generate_simple_answer, bind.
      destruct (data_preview (fold_left rows_of_item (get_content r) (JArray [])))
        as [e | preview]; cbn [lift raise ret].
      * exists []. reflexivity.
      * rewrite request_run. cbn [self log].
        match goal with
        | |- context [w_llm w ?h ?q] => destruct (w_llm w h q)
        end;
          cbn [out_state log]; rewrite <- app_assoc; cbn [app];
          eexists [_]; reflexivity.
    + exists []. reflexivity.
Qed.

(** C8: the quoted, fenced reply with escaped inner quotes is cleaned to
    exactly [SELECT "sym" FROM daily], and when the model gives that reply to
    the SQL prompt of [simple_chat_query], the request that follows is the
    execution of exactly that query. *)
Theorem C8_sql_cleanup :
  clean_sql raw_response = Some cleaned_query
  /\ forall (w : World) (s : state) (user_query : string),
       _initialized (self s) = true ->
       _data_content_discovered (self s) = true ->
       any_keyword_in SCHEMA_QUESTION_KEYWORDS (lower user_query) = false ->
       w_llm w (log s) (sql_prompt w (self s) user_query) = inr raw_response ->
       exists rest,
         log (out_state (simple_chat_query w user_query s))
         = (log s
              ++ [EvLLM (sql_prompt w (self s) user_query);
                  EvCallTool (JString SQL_TOOL) (query_arguments cleaned_query)]
              ++ rest)%list.
Proof.
  split; [exact clean_sql_raw_response|].
  intros w s user_query Hinit Hdisc Hkw Hreply.
  unfold simple_chat_query.
  unfold bind at 1. unfold get_self at 1. rewrite Hinit. cbn [negb].
  unfold bind at 1. unfold ret at 1.
  unfold bind at 1. unfold get_self at 1. rewrite Hdisc. cbn [negb].
  unfold bind at 1. unfold ret at 1.
  rewrite Hkw.
  unfold bind at 1. unfold ret at 1.
  unfold bind at 1. unfold get_self at 1.
  apply (generate_and_run_log w user_query cleaned_query raw_response).
  - exact Hreply.
  - exact clean_sql_raw_response.
Qed.

Lemma C8_sql_cleanup_witness :
  exists rest,
    log (out_state (simple_chat_query world_sql_reply "latest sym" ready))
    = ([EvLLM (sql_prompt world_sql_reply ready_client "latest sym");
        EvCallTool (JString SQL_TOOL) (query_arguments cleaned_query)]
         ++ rest)%list.
Proof.
  apply (proj2 C8_sql_cleanup world_sql_reply ready "latest sym");
    vm_compute; reflexivity.
Defined.

(** *** [call_tool] *)

Lemma nonempty_app_l (a b : string) : nonempty a = true -> nonempty (a ++ b) = true.
Proof. destruct a; [discriminate | reflexivity]. Qed.

Lemma nonempty_app_r (a b : string) : nonempty b = true -> nonempty (a ++ b) = true.
Proof. destruct a; [trivial | reflexivity]. Qed.

Lemma nonempty_true (a : string) : a <> EmptyString -> nonempty a = true.
Proof. destruct a; [intros H; now elim H | reflexivity]. Qed.

(** A joined list with a non-empty part is not empty. *)
Lemma join_nonempty (sep : string) (parts : list string) :
  (exists t, In t parts /\ t <> EmptyString) ->
  nonempty (join sep parts) = true.
Proof.
  induction parts as [| p rest IH]; intros [t [Hin Hne]].
  - destruct Hin.
  - destruct rest as [| q rest'].
    + destruct Hin as [-> | []]. now apply nonempty_true.
    + change (join sep (p :: q :: rest')) with (p ++ sep ++ join sep (q :: rest')).
      destruct Hin as [-> | Hin].
      * apply nonempty_app_l. now apply nonempty_true.
      * apply nonempty_app_r, nonempty_app_r, IH. now exists t.
Qed.

(** C6, as stated, fails twice: a result flagged as an error whose text
    item is empty gets an empty [error], and an exception without a message
    gives an empty [error] as well. *)
Lemma C6_counterexample :
  (exists r s',
     call_tool world_mute_error (JString SQL_TOOL) (JObject []) ready = Ok r s'
     /\ r_isError r = true
     /\ filter is_text_item (get_content r) = [CText EmptyString]
     /\ r_error r = Some EmptyString)
  /\ (exists r s',
        call_tool world_mute_exception (JString SQL_TOOL) (JObject []) ready = Ok r s'
        /\ r_isError r = true
        /\ r_error r = Some EmptyString).
Proof.
  split; eexists; eexists; repeat split; reflexivity.
Qed.

(** C6, amended: [call_tool] never raises and logs its one call. A
    failure of the session, with message [e], becomes a result with
    [isError] set, [error = e] and the one content text
    ["Tool execution error: " ++ e]; the error is non-empty when [e] is. When
    the session returns an object flagged as an error whose content has items
    of type text, [error] is their texts joined by a space, non-empty when one
    of them is. *)
Theorem C6_call_tool_errors (w : World) (tool_name arguments : json) (s : state) :
  exists r,
    call_tool w tool_name arguments s
    = Ok r (mk_state (self s) (log s ++ [EvCallTool tool_name arguments]))
    /\ (forall e,
          w_call_tool w (log s) tool_name arguments = inl e ->
          r_isError r = true
          /\ r_error r = Some e
          /\ r_content r = Some [CText ("Tool execution error: " ++ e)]
          /\ (e <> EmptyString -> has_error r = true))
    /\ (forall items sc repr,
          w_call_tool w (log s) tool_name arguments
          = inr (McpObject (Some true) (Some items) sc repr) ->
          let error_texts :=
            map item_text (filter is_text_item (map convert_item items)) in
          error_texts <> [] ->
          r_isError r = true
          /\ r_error r = Some (join " " error_texts)
          /\ ((exists t, In t error_texts /\ t <> EmptyString) ->
              has_error r = true)).
Proof.
  unfold call_tool, bind. rewrite request_run.
  destruct (w_call_tool w (log s) tool_name arguments) as [e | result] eqn:Hcall.
  - eexists. split; [reflexivity|]. split.
    + intros e' He'. injection He' as <-. cbn [r_isError r_error r_content].
      repeat split. intros Hne. unfold has_error. cbn [r_error].
      now apply nonempty_true.
    + intros items sc repr Habs. discriminate Habs.
  - eexists. split; [reflexivity|]. split.
    + intros e Habs. discriminate Habs.
    + intros items sc repr Hres. cbv zeta.
      set (error_texts :=
             map item_text (filter is_text_item (map convert_item items))).
      intros Hne. injection Hres as ->.
      assert (Herr : error_from_content true (map convert_item items)
                     = Some (join " " error_texts)).
      { unfold error_from_content. fold error_texts.
        destruct (map convert_item items) as [| c rest] eqn:Hitems.
        - now elim Hne.
        - destruct error_texts; [now elim Hne | reflexivity]. }
      assert (Hr : r_isError (build_response tool_name arguments
                                (McpObject (Some true) (Some items) sc repr)) = true
                   /\ r_error (build_response tool_name arguments
                                 (McpObject (Some true) (Some items) sc repr))
                      = Some (join " " error_texts)).
      { unfold build_response. cbn [option_map].
        rewrite Herr. destruct sc; split; reflexivity. }
      destruct Hr as [Hr1 Hr2]. split; [exact Hr1|]. split; [exact Hr2|].
      intros Hex. unfold has_error. rewrite Hr2. now apply join_nonempty.
Qed.

Lemma C6_call_tool_errors_witness :
  exists r,
    call_tool world_loud_error (JString SQL_TOOL) (JObject []) ready
    = Ok r (mk_state ready_client [EvCallTool (JString SQL_TOOL) (JObject [])])
    /\ r_isError r = true
    /\ r_error r = Some "no such table daily"
    /\ has_error r = true.
Proof.
  destruct (C6_call_tool_errors world_loud_error (JString SQL_TOOL) (JObject []) ready)
    as [r [Hrun [_ Hobj]]].
  exists r. split; [exact Hrun|].
  assert (Hne : map item_text
                  (filter is_text_item
                     (map convert_item [McpText "no such table"; McpText "daily"]))
                <> []) by discriminate.
  destruct (Hobj [McpText "no such table"; McpText "daily"] (Some JNull)
              "CallToolResult" eq_refl Hne) as [H1 [H2 H3]].
  split; [exact H1|]. split; [exact H2|].
  apply H3. exists "daily". split; [right; left; reflexivity | discriminate].
Defined.

(** *** The symbol column of the data-content prober *)

Lemma matching_columns_app (patterns xs ys : list string) :
  matching_columns patterns (xs ++ ys)
  = (matching_columns patterns xs ++ matching_columns patterns ys)%list.
Proof. apply filter_app. Qed.

Lemma matching_columns_none (patterns xs : list string) :
  (forall x, In x xs -> mem_str (lower x) patterns = false) ->
  matching_columns patterns xs = [].
Proof.
  induction xs as [| x xs IH]; intros H; [reflexivity|].
  unfold matching_columns in *. cbn [filter].
  rewrite (H x (or_introl eq_refl)). apply IH.
  intros y Hy. apply H. now right.
Qed.

(** The first column whose lower-cased name is one of the patterns. *)
Lemma matching_columns_first (patterns before after : list string) (col : string) :
  (forall x, In x before -> mem_str (lower x) patterns = false) ->
  mem_str (lower col) patterns = true ->
  matching_columns patterns (before ++ col :: after)
  = col :: matching_columns patterns after.
Proof.
  intros Hbefore Hcol. rewrite matching_columns_app.
  rewrite (matching_columns_none _ _ Hbefore).
  unfold matching_columns. cbn [filter app]. now rewrite Hcol.
Qed.

Lemma run_sql_run (w : World) (query : string) (s : state) :
  exists r,
    run_sql w query s = Ok r (mk_state (self s) (log s ++ [sql_call query])).
Proof. apply call_tool_run. Qed.

(** C2, as stated, fails: with the default patterns and the columns
    [ticker_symbol] and [sym], the wording selects [ticker_symbol], which
    contains a pattern, but the prober's only distinct-values query is on
    [sym], the first column whose name is a pattern; and for the single column
    [ticker_symbol] no distinct-values query is issued at all. *)
Lemma C2_counterexample :
  spec_symbol_column DEFAULT_SYMBOL_PATTERNS ["ticker_symbol"; "sym"]
  = Some "ticker_symbol"
  /\ log (out_state (discover_data_content (world_trades ["ticker_symbol"; "sym"])
                       None false fresh))
     = [sql_call (count_query "trades"); sql_call (symbols_query "sym" "trades")]
  /\ log (out_state (discover_data_content (world_trades ["ticker_symbol"])
                       None false fresh))
     = [sql_call (count_query "trades")].
Proof. repeat split; vm_compute; reflexivity. Qed.

(** C2, amended: the distinct-values query is issued on the first column,
    in the order of the column list, whose lower-cased name is equal to one of
    the configured symbol patterns; columns that merely contain a pattern are
    passed over, later matching columns are not probed, and without a matching
    column no distinct-values query is issued. *)
Theorem C2_symbol_column_first_exact_match (w : World) (c : client)
    (table : string) (info : table_info) (s : state) :
  (forall (before after : list string) (col : string),
     (forall x, In x before -> mem_str (lower x) (symbol_patterns c) = false) ->
     mem_str (lower col) (symbol_patterns c) = true ->
     exists info',
       probe_symbols w c table (before ++ col :: after) info s
       = Ok info' (mk_state (self s)
                     (log s ++ [sql_call (symbols_query col table)])))
  /\ (forall cols : list string,
        (forall x, In x cols -> mem_str (lower x) (symbol_patterns c) = false) ->
        probe_symbols w c table cols info s = Ok info s).
Proof.
  split.
  - intros before after col Hbefore Hcol. unfold probe_symbols.
    rewrite (matching_columns_first _ _ _ _ Hbefore Hcol).
    unfold bind.
    destruct (run_sql_run w (symbols_query col table) s) as [r Hr]. rewrite Hr.
    destruct (succeeded r); [|eexists; reflexivity].
    destruct (_extract_column_values r col); eexists; reflexivity.
  - intros cols Hnone. unfold probe_symbols.
    now rewrite (matching_columns_none _ _ Hnone).
Qed.

Lemma C2_symbol_column_first_exact_match_witness :
  exists info',
    probe_symbols (world_trades ["ticker_symbol"; "Sym"; "symbol"]) fresh_client
      "trades" (["ticker_symbol"] ++ "Sym" :: ["symbol"])
      (mk_table_info ["ticker_symbol"; "Sym"; "symbol"] None None None None
         None None None)
      fresh
    = Ok info' (mk_state fresh_client [sql_call (symbols_query "Sym" "trades")]).
Proof.
  apply (proj1 (C2_symbol_column_first_exact_match
                  (world_trades ["ticker_symbol"; "Sym"; "symbol"]) fresh_client
                  "trades"
                  (mk_table_info ["ticker_symbol"; "Sym"; "symbol"] None None None
                     None None None None)
                  fresh)).
  - intros x [<- | []]. vm_compute. reflexivity.
  - vm_compute. reflexivity.
Defined.

(** *** [refresh_schema] *)

Lemma refresh_schema_clears (w : World) (s : state) :
  refresh_schema w s = _discover_schema w (mk_state (cleared (self s)) (log s))
  /\ _schema_description (cleared (self s)) = EmptyString
  /\ _additional_context (cleared (self s)) = []
  /\ _data_content (cleared (self s)) = []
  /\ _data_content_discovered (cleared (self s)) = false
  /\ _sql_guidance (cleared (self s)) = _sql_guidance (self s).
Proof. repeat split. Qed.

(** C9 at its failing input: the server offers SQL guidance during the
    first discovery and has withdrawn it by the time of the refresh. The
    refreshed client still holds the guidance of the first cycle, although the
    refresh read no such resource, and a client initialized at that moment
    holds none. The schema text, by contrast, is rebuilt. *)
Theorem C9_refresh_keeps_stale_sql_guidance :
  _sql_guidance (self after_initialize) = old_guidance
  /\ _sql_guidance (self after_refresh) = old_guidance
  /\ _sql_guidance (self initialized_late) = EmptyString
  /\ _schema_description (self after_refresh)
     = _schema_description (self initialized_late)
  /\ ~ In (EvReadResource "kdbx://guidance")
         (skipn (List.length (log after_initialize)) (log after_refresh)).
Proof.
  repeat split; try (vm_compute; reflexivity).
  vm_compute. intros [H | [H | []]]; discriminate H.
Qed.

(** *** Reasoning about computations *)

Lemma bind_ok {A B : Type} (m : M A) (f : A -> M B) (s s' : state) (a : A) :
  m s = Ok a s' -> bind m f s = f a s'.
Proof. intros H. unfold bind. now rewrite H. Qed.

Lemma bind_raise {A B : Type} (m : M A) (f : A -> M B) (s s' : state) (e : string) :
  m s = Raise e s' -> bind m f s = Raise e s'.
Proof. intros H. unfold bind. now rewrite H. Qed.

Section Frame.

Context {A B : Type}.

Lemma keeps_ret (a : A) : keeps_self (ret a).
Proof. intros s. reflexivity. Qed.

Lemma keeps_raise (e : string) : keeps_self (@raise A e).
Proof. intros s. reflexivity. Qed.

Lemma keeps_get_self : keeps_self get_self.
Proof. intros s. reflexivity. Qed.

Lemma keeps_request (ev : event) (answer : list event -> A) :
  keeps_self (request ev answer).
Proof. intros s. reflexivity. Qed.

Lemma keeps_lift (x : string + A) : keeps_self (lift x).
Proof. destruct x as [e | a]; intros st; reflexivity. Qed.

Lemma keeps_bind (m : M A) (f : A -> M B) :
  keeps_self m -> (forall a, keeps_self (f a)) -> keeps_self (bind m f).
Proof.
  intros Hm Hf s. unfold bind. specialize (Hm s).
  destruct (m s) as [a s' | e s']; cbn [out_state] in *.
  - rewrite Hf. exact Hm.
  - exact Hm.
Qed.

Lemma keeps_try_except (m : M A) (h : string -> M A) :
  keeps_self m -> (forall e, keeps_self (h e)) -> keeps_self (try_except m h).
Proof.
  intros Hm Hh s. unfold try_except. specialize (Hm s).
  destruct (m s) as [a s' | e s']; cbn [out_state] in *.
  - exact Hm.
  - rewrite Hh. exact Hm.
Qed.

Lemma preserves_of_keeps (P : client -> Prop) (m : M A) :
  keeps_self m -> preserves P m.
Proof. intros Hm s HP. now rewrite Hm. Qed.

Lemma preserves_ret (P : client -> Prop) (a : A) : preserves P (ret a).
Proof. intros s HP. exact HP. Qed.

Lemma preserves_bind (P : client -> Prop) (m : M A) (f : A -> M B) :
  preserves P m -> (forall a, preserves P (f a)) -> preserves P (bind m f).
Proof.
  intros Hm Hf s HP. unfold bind. specialize (Hm s HP).
  destruct (m s) as [a s' | e s']; cbn [out_state] in *.
  - now apply Hf.
  - exact Hm.
Qed.

Lemma preserves_try_except (P : client -> Prop) (m : M A) (h : string -> M A) :
  preserves P m -> (forall e, preserves P (h e)) -> preserves P (try_except m h).
Proof.
  intros Hm Hh s HP. unfold try_except. specialize (Hm s HP).
  destruct (m s) as [a s' | e s']; cbn [out_state] in *.
  - exact Hm.
  - now apply Hh.
Qed.

End Frame.

Lemma preserves_modify_self (P : client -> Prop) (f : client -> client) :
  (forall c, P c -> P (f c)) -> preserves P (modify_self f).
Proof. intros Hf s HP. now apply Hf. Qed.

Lemma keeps_for_each {A : Type} (xs : list A) (body : A -> M unit) :
  (forall x, keeps_self (body x)) -> keeps_self (for_each xs body).
Proof.
  intros Hbody. induction xs as [| x xs IH]; cbn [for_each].
  - apply keeps_ret.
  - apply keeps_bind; [apply Hbody | intros _; exact IH].
Qed.

Lemma preserves_for_each {A : Type} (P : client -> Prop) (xs : list A)
    (body : A -> M unit) :
  (forall x, preserves P (body x)) -> preserves P (for_each xs body).
Proof.
  intros Hbody. induction xs as [| x xs IH]; cbn [for_each].
  - apply preserves_ret.
  - apply preserves_bind; [apply Hbody | intros _; exact IH].
Qed.

(** One step of a frame proof: the shape of the computation decides. *)
Ltac keeps_step :=
  lazymatch goal with
  | |- keeps_self (ret _) => apply keeps_ret
  | |- keeps_self (raise _) => apply keeps_raise
  | |- keeps_self get_self => apply keeps_get_self
  | |- keeps_self (request _ _) => apply keeps_request
  | |- keeps_self (lift _) => apply keeps_lift
  | |- keeps_self (bind _ _) => apply keeps_bind; [| intros ?]
  | |- keeps_self (try_except _ _) => apply keeps_try_except; [| intros ?]
  | |- keeps_self (for_each _ _) => apply keeps_for_each; intros ?
  | |- keeps_self (if ?b then _ else _) => destruct b
  | |- keeps_self (match ?x with _ => _ end) => destruct x
  end.

Create HintDb frame.

Ltac keeps := repeat first [ solve [auto with frame] | keeps_step ].

Lemma keeps_call_tool (w : World) (tool_name arguments : json) :
  keeps_self (call_tool w tool_name arguments).
Proof. unfold call_tool. keeps. Qed.
#[local] Hint Resolve keeps_call_tool : frame.

Lemma keeps_run_sql (w : World) (query : string) : keeps_self (run_sql w query).
Proof. unfold run_sql. keeps. Qed.
#[local] Hint Resolve keeps_run_sql : frame.

Lemma keeps__read_resource (w : World) (u : string) : keeps_self (_read_resource w u).
Proof. unfold _read_resource. keeps. Qed.
#[local] Hint Resolve keeps__read_resource : frame.

Lemma keeps_probe_columns (w : World) (table : string) (cols : list string) :
  keeps_self (probe_columns w table cols).
Proof. unfold probe_columns. keeps. Qed.

Lemma keeps_probe_row_count (w : World) (table : string) (info : table_info) :
  keeps_self (probe_row_count w table info).
Proof. unfold probe_row_count. keeps. Qed.

Lemma keeps_probe_symbols (w : World) (c : client) (table : string)
    (cols : list string) (info : table_info) :
  keeps_self (probe_symbols w c table cols info).
Proof. unfold probe_symbols. keeps. Qed.

Lemma keeps_probe_dates (w : World) (c : client) (table : string)
    (cols : list string) (info : table_info) :
  keeps_self (probe_dates w c table cols info).
Proof. unfold probe_dates. keeps. Qed.

Lemma keeps_probe_text (w : World) (c : client) (table : string)
    (cols : list string) (info : table_info) :
  keeps_self (probe_text w c table cols info).
Proof. unfold probe_text. keeps. Qed.
#[local] Hint Resolve keeps_probe_columns keeps_probe_row_count
  keeps_probe_symbols keeps_probe_dates keeps_probe_text : frame.

Lemma keeps_tables_via_sql (w : World) (queries : list string) (tables : list json) :
  keeps_self (tables_via_sql w queries tables).
Proof.
  revert tables. induction queries as [| q rest IH]; intros tables;
    cbn [tables_via_sql]; keeps.
Qed.
#[local] Hint Resolve keeps_tables_via_sql : frame.

Lemma keeps__discover_tables_via_sql (w : World) :
  keeps_self (_discover_tables_via_sql w).
Proof. unfold _discover_tables_via_sql. keeps. Qed.
#[local] Hint Resolve keeps__discover_tables_via_sql : frame.

Lemma keeps__plan_tool_usage (w : World) (user_query additional : string) :
  keeps_self (_plan_tool_usage w user_query additional).
Proof. unfold _plan_tool_usage. keeps. Qed.

Lemma keeps__synthesize_results (w : World) (user_query : string)
    (results : list tool_result) :
  keeps_self (_synthesize_results w user_query results).
Proof. unfold _synthesize_results. keeps. Qed.

Lemma keeps_execute_step (w : World) (acc : progress) (step : json) :
  keeps_self (execute_step w acc step).
Proof. unfold execute_step. keeps. Qed.
#[local] Hint Resolve keeps__plan_tool_usage keeps__synthesize_results
  keeps_execute_step : frame.

Lemma keeps_execute_steps (w : World) (steps : list json) (acc : progress) :
  keeps_self (execute_steps w acc steps).
Proof.
  revert acc. induction steps as [| step rest IH]; intros acc;
    cbn [execute_steps]; keeps.
Qed.
#[local] Hint Resolve keeps_execute_steps : frame.

Lemma keeps_plan_loop (w : World) (user_query : string)
    (max_iterations remaining : nat) :
  forall iteration results discovered,
    keeps_self (plan_loop w user_query max_iterations remaining iteration
                  results discovered).
Proof.
  induction remaining as [| remaining IH]; intros iteration results discovered;
    cbn [plan_loop]; keeps.
Qed.
#[local] Hint Resolve keeps_plan_loop : frame.

(** *** The columns of the cached tables *)

Ltac preserves_step :=
  lazymatch goal with
  | |- preserves _ (ret _) => apply preserves_ret
  | |- preserves _ (bind _ _) => apply preserves_bind; [| intros ?]
  | |- preserves _ (try_except _ _) => apply preserves_try_except; [| intros ?]
  | |- preserves _ (for_each _ _) => apply preserves_for_each; intros ?
  | |- preserves _ (modify_self _) =>
      apply preserves_modify_self; let c := fresh "c" in
                                   let H := fresh "H" in
                                   intros c H; exact H
  | |- preserves _ (if ?b then _ else _) => destruct b
  | |- preserves _ (match ?x with _ => _ end) => destruct x
  end.

Ltac preserving :=
  repeat first
    [ solve [auto with frame]
    | solve [apply preserves_of_keeps; keeps]
    | preserves_step ].

Lemma columns_known_dict_set (c : client) (table : string) (info : table_info) :
  columns info <> [] ->
  columns_known c ->
  columns_known (set_data_content (dict_set table info (_data_content c)) c).
Proof.
  unfold columns_known. cbn [_data_content set_data_content].
  intros Hinfo. induction (_data_content c) as [| [k v] rest IH]; intros H.
  - cbn [dict_set]. constructor; [exact Hinfo | constructor].
  - cbn [dict_set]. inversion H as [| ? ? Hv Hrest]; subst.
    destruct (String.eqb table k).
    + constructor; [exact Hinfo | exact Hrest].
    + constructor; [exact Hv | now apply IH].
Qed.

Lemma preserves_probe_table (w : World) (entry : string * list string) :
  preserves columns_known (probe_table w entry).
Proof.
  unfold probe_table, probe_table_body.
  apply preserves_try_except; [| intros e; apply preserves_ret].
  apply preserves_bind; [preserving | intros c].
  apply preserves_bind; [preserving | intros [cols info]].
  apply preserves_bind; [preserving | intros info1].
  apply preserves_bind; [preserving | intros info2].
  apply preserves_bind; [preserving | intros info3].
  apply preserves_bind; [preserving | intros info4].
  destruct (columns info4) as [| col more] eqn:Hcols.
  - apply preserves_ret.
  - apply preserves_modify_self. intros c' Hc'.
    apply columns_known_dict_set; [| exact Hc']. rewrite Hcols. discriminate.
Qed.
#[local] Hint Resolve preserves_probe_table : frame.

Lemma preserves_schema_from_tools (w : World) (tools : list (string * tool)) :
  preserves columns_known (schema_from_tools w tools).
Proof.
  induction tools as [| [n t] rest IH]; cbn [schema_from_tools]; preserving.
Qed.

Lemma preserves_schema_from_queries (w : World) (sql_tool : string)
    (queries : list string) :
  preserves columns_known (schema_from_queries w sql_tool queries).
Proof.
  induction queries as [| q rest IH]; cbn [schema_from_queries]; preserving.
Qed.
#[local] Hint Resolve preserves_schema_from_tools preserves_schema_from_queries
  : frame.

Lemma preserves_schema_from_sql_tools (w : World) (sql_tools : list string) :
  preserves columns_known (schema_from_sql_tools w sql_tools).
Proof.
  induction sql_tools as [| t rest IH]; cbn [schema_from_sql_tools]; preserving.
Qed.
#[local] Hint Resolve preserves_schema_from_sql_tools : frame.

Lemma preserves__discover_schema_via_tools (w : World) :
  preserves columns_known (_discover_schema_via_tools w).
Proof. unfold _discover_schema_via_tools. preserving. Qed.
#[local] Hint Resolve preserves__discover_schema_via_tools : frame.

Lemma keeps_read_all (w : World) (rs : list resource) (b : buckets) :
  keeps_self (read_all w b rs).
Proof.
  revert b. induction rs as [| r rest IH]; intros b; cbn [read_all].
  - keeps.
  - apply keeps_bind; [unfold read_and_categorize; keeps | intros b'; apply IH].
Qed.
#[local] Hint Resolve keeps_read_all : frame.

Lemma preserves_store_buckets (w : World) (b : buckets) :
  preserves columns_known (store_buckets b).
Proof. unfold store_buckets. preserving. Qed.
#[local] Hint Resolve preserves_store_buckets : frame.

Lemma preserves__discover_schema (w : World) :
  preserves columns_known (_discover_schema w).
Proof. unfold _discover_schema. preserving. Qed.
#[local] Hint Resolve preserves__discover_schema : frame.

Lemma preserves_initialize (w : World) (force_refresh : bool) :
  preserves columns_known (initialize w force_refresh).
Proof. unfold initialize. preserving. Qed.
#[local] Hint Resolve preserves_initialize : frame.

Lemma preserves_refresh_schema (w : World) :
  preserves columns_known (refresh_schema w).
Proof.
  unfold refresh_schema.
  apply preserves_bind; [preserving | intros _].
  apply preserves_bind; [preserving | intros _].
  apply preserves_bind; [| intros _; preserving].
  apply preserves_modify_self. intros c _. constructor.
Qed.

Lemma preserves_discover_data_content (w : World) (tables : option (list string))
    (force_refresh : bool) :
  preserves columns_known (discover_data_content w tables force_refresh).
Proof. unfold discover_data_content. preserving. Qed.
#[local] Hint Resolve preserves_discover_data_content : frame.

Lemma preserves_intelligent_query (w : World) (user_query : string)
    (max_iterations : nat) :
  preserves columns_known (intelligent_query w user_query max_iterations).
Proof. unfold intelligent_query. preserving. Qed.

Lemma keeps_read_schema_resources (w : World) (rs : list resource) (info : string) :
  keeps_self (read_schema_resources w rs info).
Proof.
  revert info. induction rs as [| r rest IH]; intros info;
    cbn [read_schema_resources]; keeps.
Qed.
#[local] Hint Resolve keeps_read_schema_resources : frame.

Lemma preserves_simple_chat_query (w : World) (user_query : string) :
  preserves columns_known (simple_chat_query w user_query).
Proof.
  unfold simple_chat_query, _answer_from_schema, generate_and_run,
    _generate_simple_answer.
  preserving.
Qed.

(** Every state that a client can reach has the columns of all its cached
    tables. *)
Lemma reachable_columns_known (w : World) (s : state) :
  reachable w s -> columns_known (self s).
Proof.
  induction 1 as [sp dp tp fw | s f _ IH | s _ IH | s ts f _ IH | s t a _ IH
                 | s q n _ IH | s q _ IH].
  - constructor.
  - now apply preserves_initialize.
  - now apply preserves_refresh_schema.
  - now apply preserves_discover_data_content.
  - now apply (preserves_of_keeps _ _ (keeps_call_tool w t a)).
  - now apply preserves_intelligent_query.
  - now apply preserves_simple_chat_query.
Qed.

Example discover_daily :
  _data_content (self (out_state (discover_data_content world_daily None false fresh)))
  = [("daily", daily_entry None)].
Proof. vm_compute. reflexivity. Qed.

Example discover_daily_counted :
  _data_content
    (self (out_state (discover_data_content world_daily_counted None false fresh)))
  = [("daily", daily_entry (Some (JInt 7)))].
Proof. vm_compute. reflexivity. Qed.

Example discover_daily_misshapen :
  _data_content
    (self (out_state (discover_data_content world_daily_misshapen None false fresh)))
  = [].
Proof. vm_compute. reflexivity. Qed.

(** *** The probes of one table *)

Lemma run_sql_after (w : World) (query : string) (s : state) :
  exists r, run_sql w query s = Ok r (after s [sql_call query]).
Proof. apply run_sql_run. Qed.

(** A row-count query flagged as an error leaves the dict as it is. *)
Lemma probe_row_count_failed (w : World) (table : string) (info : table_info)
    (s : state) (r : tool_result) (s1 : state) :
  run_sql w (count_query table) s = Ok r s1 ->
  succeeded r = false ->
  probe_row_count w table info s = Ok info s1.
Proof.
  intros Hr Hfail. unfold probe_row_count, bind. now rewrite Hr, Hfail.
Qed.

Lemma probe_symbols_failed (w : World) (c : client) (table : string)
    (cols : list string) (info : table_info) (s : state) (col : string)
    (more : list string) (r : tool_result) (s1 : state) :
  matching_columns (symbol_patterns c) cols = col :: more ->
  run_sql w (symbols_query col table) s = Ok r s1 ->
  succeeded r = false ->
  probe_symbols w c table cols info s = Ok info s1.
Proof.
  intros Hm Hr Hfail. unfold probe_symbols, bind. now rewrite Hm, Hr, Hfail.
Qed.

Lemma probe_dates_failed (w : World) (c : client) (table : string)
    (cols : list string) (info : table_info) (s : state) (col : string)
    (more : list string) (r : tool_result) (s1 : state) :
  matching_columns (date_patterns c) cols = col :: more ->
  run_sql w (date_query col table) s = Ok r s1 ->
  succeeded r = false ->
  probe_dates w c table cols info s = Ok info s1.
Proof.
  intros Hm Hr Hfail. unfold probe_dates, bind. now rewrite Hm, Hr, Hfail.
Qed.

Lemma probe_text_failed (w : World) (c : client) (table : string)
    (cols : list string) (info : table_info) (s : state) (col : string)
    (more : list string) (r : tool_result) (s1 : state) :
  matching_columns (text_patterns c) cols = col :: more ->
  run_sql w (text_query col table
               match matching_columns (date_patterns c) cols with
               | date_col :: _ => "ORDER BY " ++ date_col ++ " DESC"
               | [] => EmptyString
               end) s = Ok r s1 ->
  succeeded r = false ->
  probe_text w c table cols info s = Ok (set_text_columns (col :: more) info) s1.
Proof.
  intros Hm Hr Hfail. unfold probe_text, bind. now rewrite Hm, Hr, Hfail.
Qed.

(** A successful distinct-values query with values sets the two symbol
    keys. *)
Lemma probe_symbols_succeeded (w : World) (c : client) (table : string)
    (cols : list string) (info : table_info) (s : state) (col : string)
    (more : list string) (r : tool_result) (s1 : state) (v : json)
    (vs : list json) :
  matching_columns (symbol_patterns c) cols = col :: more ->
  run_sql w (symbols_query col table) s = Ok r s1 ->
  succeeded r = true ->
  _extract_column_values r col = v :: vs ->
  probe_symbols w c table cols info s = Ok (set_symbols (v :: vs) col info) s1.
Proof.
  intros Hm Hr Hok Hvals. unfold probe_symbols, bind.
  now rewrite Hm, Hr, Hok, Hvals.
Qed.

(** The date-range probe keeps the columns and the symbol keys; the row
    count changes only when the date-range row brings one. *)
Lemma probe_dates_ensures (w : World) (c : client) (table : string)
    (cols : list string) (info : table_info) :
  ensures (probe_dates w c table cols info)
    (fun info' =>
       columns info' = columns info
       /\ symbols info' = symbols info
       /\ symbol_column info' = symbol_column info
       /\ (row_count info' = row_count info
           \/ exists r found,
                _extract_date_range w r = inr found
                /\ di_row_count found = row_count info'
                /\ row_count info' <> None)).
Proof.
  intros s. unfold probe_dates, bind.
  destruct (matching_columns (date_patterns c) cols) as [| col more].
  - cbn [ret]. repeat split. now left.
  - destruct (run_sql_after w (date_query col table) s) as [r Hr]. rewrite Hr.
    destruct (succeeded r); [| cbn [ret]; repeat split; now left].
    destruct (_extract_date_range w r) as [e | found] eqn:Hfound;
      cbn [lift raise ret]; [exact I|].
    destruct (date_info_nonempty found); cbn [ret];
      [| repeat split; now left].
    unfold update_date_info. cbn [columns symbols symbol_column row_count].
    repeat split.
    destruct (di_row_count found) as [v |] eqn:Hcount; [right | now left].
    exists r, found. rewrite Hcount. repeat split; [exact Hfound | discriminate].
Qed.

(** The sample-text probe keeps the columns, the symbol keys and the row
    count. *)
Lemma probe_text_ensures (w : World) (c : client) (table : string)
    (cols : list string) (info : table_info) :
  ensures (probe_text w c table cols info)
    (fun info' =>
       columns info' = columns info
       /\ symbols info' = symbols info
       /\ symbol_column info' = symbol_column info
       /\ row_count info' = row_count info).
Proof.
  intros s. unfold probe_text, bind.
  destruct (matching_columns (text_patterns c) cols) as [| col more].
  - cbn [ret]. repeat split.
  - match goal with
    | |- context [run_sql w ?q s] => destruct (run_sql_after w q s) as [r Hr]
    end.
    rewrite Hr.
    destruct (succeeded r); [| cbn [ret]; repeat split].
    destruct (_extract_column_values r col); cbn [ret]; repeat split.
Qed.

Lemma probe_row_count_ensures (w : World) (table : string) (info : table_info) :
  ensures (probe_row_count w table info)
    (fun info' => columns info' = columns info).
Proof.
  intros s. unfold probe_row_count, bind.
  destruct (run_sql_after w (count_query table) s) as [r Hr]. rewrite Hr.
  destruct (succeeded r); [| reflexivity].
  destruct (_extract_single_value r "row_count") as [e | [v |]];
    cbn [lift raise ret]; try exact I; try reflexivity.
  destruct v; reflexivity.
Qed.

Lemma probe_symbols_ensures (w : World) (c : client) (table : string)
    (cols : list string) (info : table_info) :
  ensures (probe_symbols w c table cols info)
    (fun info' => columns info' = columns info).
Proof.
  intros s. unfold probe_symbols, bind.
  destruct (matching_columns (symbol_patterns c) cols) as [| col more];
    [reflexivity|].
  destruct (run_sql_after w (symbols_query col table) s) as [r Hr]. rewrite Hr.
  destruct (succeeded r); [| reflexivity].
  destruct (_extract_column_values r col); reflexivity.
Qed.

(** The probes after the column list do not change it. *)
Lemma probe_fields_columns (w : World) (c : client) (table : string)
    (cols : list string) (info : table_info) (s : state) :
  match
    bind (probe_row_count w table info)
      (fun i1 => bind (probe_symbols w c table cols i1)
         (fun i2 => bind (probe_dates w c table cols i2)
            (fun i3 => probe_text w c table cols i3))) s
  with
  | Ok info' _ => columns info' = columns info
  | Raise _ _ => True
  end.
Proof.
  unfold bind.
  pose proof (probe_row_count_ensures w table info s) as H1.
  destruct (probe_row_count w table info s) as [i1 s1 | e s1]; [| exact I].
  pose proof (probe_symbols_ensures w c table cols i1 s1) as H2.
  destruct (probe_symbols w c table cols i1 s1) as [i2 s2 | e s2]; [| exact I].
  pose proof (probe_dates_ensures w c table cols i2 s2) as H3.
  destruct (probe_dates w c table cols i2 s2) as [i3 s3 | e s3]; [| exact I].
  pose proof (probe_text_ensures w c table cols i3 s3) as H4.
  destruct (probe_text w c table cols i3 s3) as [i4 s4 | e s4]; [| exact I].
  destruct H3 as [H3 _], H4 as [H4 _]. congruence.
Qed.

(** The [try] block of the loop, written out. *)
Lemma probe_table_body_eq (w : World) (table : string) (schema_columns : list string)
    (s : state) :
  probe_table_body w table schema_columns s
  = match probe_columns w table schema_columns s with
    | Ok (cols, info) s0 =>
        match probe_row_count w table info s0 with
        | Ok i1 s1 =>
            match probe_symbols w (self s) table cols i1 s1 with
            | Ok i2 s2 =>
                match probe_dates w (self s) table cols i2 s2 with
                | Ok i3 s3 =>
                    match probe_text w (self s) table cols i3 s3 with
                    | Ok i4 s4 =>
                        match columns i4 with
                        | [] => Ok tt s4
                        | _ :: _ => Ok tt (stored table i4 s4)
                        end
                    | Raise e s4 => Raise e s4
                    end
                | Raise e s3 => Raise e s3
                end
            | Raise e s2 => Raise e s2
            end
        | Raise e s1 => Raise e s1
        end
    | Raise e s0 => Raise e s0
    end.
Proof.
  unfold probe_table_body, bind, get_self.
  destruct (probe_columns w table schema_columns s) as [[cols info] s0 | e s0];
    [| reflexivity].
  destruct (probe_row_count w table info s0) as [i1 s1 | e s1]; [| reflexivity].
  destruct (probe_symbols w (self s) table cols i1 s1) as [i2 s2 | e s2];
    [| reflexivity].
  destruct (probe_dates w (self s) table cols i2 s2) as [i3 s3 | e s3];
    [| reflexivity].
  destruct (probe_text w (self s) table cols i3 s3) as [i4 s4 | e s4];
    [| reflexivity].
  destruct (columns i4); reflexivity.
Qed.

(** The column list of a table that the schema does not describe. *)
Lemma probe_columns_unknown (w : World) (table : string) (s : state)
    (r : tool_result) (s1 : state) :
  run_sql w (columns_query table) s = Ok r s1 ->
  probe_columns w table [] s
  = match _extract_columns_from_result r with
    | inl e => Raise e s1
    | inr [] => Ok ([], new_table_info []) s1
    | inr (col :: more) =>
        Ok (col :: more, set_columns (col :: more) (new_table_info [])) s1
    end.
Proof.
  intros Hr. unfold probe_columns, bind. rewrite Hr.
  destruct (_extract_columns_from_result r) as [e | [| col more]]; reflexivity.
Qed.

(** The column list of a table that the schema describes: no query. *)
Lemma probe_columns_known (w : World) (table col : string) (more : list string)
    (s : state) :
  probe_columns w table (col :: more) s
  = Ok (col :: more, new_table_info (col :: more)) s.
Proof. reflexivity. Qed.

(** A table whose columns are found neither in the schema nor by the
    [SELECT *] probe is not written to the cache. *)
Lemma probe_table_without_columns (w : World) (table : string) (s : state) :
  (forall r s1,
     run_sql w (columns_query table) s = Ok r s1 ->
     forall col more, _extract_columns_from_result r <> inr (col :: more)) ->
  self (out_state (probe_table w (table, []) s)) = self s.
Proof.
  intros Hnone. unfold probe_table, try_except. cbn [fst snd].
  rewrite probe_table_body_eq.
  destruct (run_sql_after w (columns_query table) s) as [r Hr].
  rewrite (probe_columns_unknown w table s r _ Hr).
  specialize (Hnone r _ Hr).
  destruct (_extract_columns_from_result r) as [e | [| col more]] eqn:Hcols.
  - reflexivity.
  - remember (after s [sql_call (columns_query table)]) as s0 eqn:Es0.
    assert (E0 : self s0 = self s) by (subst s0; reflexivity).
    pose proof (probe_fields_columns w (self s) table [] (new_table_info []) s0)
      as Hfields.
    unfold bind in Hfields.
    pose proof (keeps_probe_row_count w table (new_table_info []) s0) as K1.
    destruct (probe_row_count w table (new_table_info []) s0) as [i1 s1 | e s1];
      cbn [out_state] in *; [| cbn [ret out_state]; congruence].
    pose proof (keeps_probe_symbols w (self s) table [] i1 s1) as K2.
    destruct (probe_symbols w (self s) table [] i1 s1) as [i2 s2 | e s2];
      cbn [out_state] in *; [| cbn [ret out_state]; congruence].
    pose proof (keeps_probe_dates w (self s) table [] i2 s2) as K3.
    destruct (probe_dates w (self s) table [] i2 s2) as [i3 s3 | e s3];
      cbn [out_state] in *; [| cbn [ret out_state]; congruence].
    pose proof (keeps_probe_text w (self s) table [] i3 s3) as K4.
    destruct (probe_text w (self s) table [] i3 s3) as [i4 s4 | e s4];
      cbn [out_state] in *; [| cbn [ret out_state]; congruence].
    cbn [columns new_table_info] in Hfields. rewrite Hfields.
    cbn [out_state]. congruence.
  - now elim (Hnone col more).
Qed.

(** C10: in every state that a client can reach, and so after any run of
    [discover_data_content], every entry of the data-content cache has a
    non-empty column list; and a table whose columns are found neither in the
    schema nor by the [SELECT *] probe is left out of the cache, whatever its
    other probes returned. *)
Theorem C10_cached_tables_have_columns (w : World) (s : state)
    (tables : option (list string)) (force_refresh : bool) :
  reachable w s ->
  columns_known
    (self (out_state (discover_data_content w tables force_refresh s)))
  /\ (forall (table : string) (s0 : state),
        (forall r s1,
           run_sql w (columns_query table) s0 = Ok r s1 ->
           forall col more, _extract_columns_from_result r <> inr (col :: more)) ->
        _data_content (self (out_state (probe_table w (table, []) s0)))
        = _data_content (self s0)).
Proof.
  intros Hreach. split.
  - apply (reachable_columns_known w). now constructor.
  - intros table s0 Hnone. now rewrite probe_table_without_columns.
Qed.

Lemma C10_cached_tables_have_columns_witness :
  reachable world_daily (mk_state new_client [])
  /\ columns_known
       (self (out_state
                (discover_data_content world_daily None false
                   (mk_state new_client [])))).
Proof.
  split.
  - apply reach_new.
  - apply (proj1 (C10_cached_tables_have_columns world_daily
                    (mk_state new_client []) None false
                    (reach_new world_daily None None None None))).
Defined.

(** *** A failed probe *)

Lemma probe_table_returns (w : World) (entry : string * list string) (s : state) :
  returns (probe_table w entry s).
Proof.
  unfold probe_table, try_except.
  destruct (probe_table_body w (fst entry) (snd entry) s); exact I.
Qed.

(** The loop over the tables reaches every table: the probes of the
    tables before it all return. *)
Lemma for_each_probe_reaches (w : World) (before after : list (string * list string))
    (entry : string * list string) (s : state) :
  exists s1,
    for_each before (probe_table w) s = Ok tt s1
    /\ for_each (before ++ entry :: after) (probe_table w) s
       = bind (probe_table w entry) (fun _ => for_each after (probe_table w)) s1.
Proof.
  revert s. induction before as [| b before IH]; intros s.
  - exists s. split; reflexivity.
  - cbn [for_each app].
    pose proof (probe_table_returns w b s) as Hret.
    destruct (probe_table w b s) as [[] s' | e s'] eqn:Hb; [| destruct Hret].
    rewrite !(bind_ok _ _ _ _ _ Hb). apply IH.
Qed.




(** *** [intelligent_query] *)

Example refusal_decodes : plan_of_reply refusal_text = refusal_plan.
Proof. vm_compute. reflexivity. Qed.

Lemma plan_tool_usage_run (w : World) (user_query additional : string) (s : state) :
  _plan_tool_usage w user_query additional s
  = Ok (plan_of_llm (w_llm w (log s) (plan_prompt w (self s) user_query additional)))
      (after s [EvLLM (plan_prompt w (self s) user_query additional)]).
Proof.
  unfold _plan_tool_usage, bind, get_self. rewrite request_run.
  destruct (w_llm w (log s) (plan_prompt w (self s) user_query additional));
    reflexivity.
Qed.

Lemma intelligent_query_eq (w : World) (user_query : string) (max_iterations : nat)
    (s : state) :
  intelligent_query w user_query max_iterations s
  = bind (prepare w)
      (fun _ =>
         bind (plan_loop w user_query max_iterations max_iterations 0 [] EmptyString)
           (conclude w user_query)) s.
Proof.
  unfold intelligent_query, prepare, conclude, bind, get_self.
  destruct (if negb (_initialized (self s)) then initialize w false else ret tt)
    as [[] s1 | e s1]; [| reflexivity].
  destruct (negb (_data_content_discovered (self s1))).
  - destruct (discover_data_content w None false s1) as [d s2 | e s2];
      [| reflexivity].
    cbn [ret].
    destruct (plan_loop w user_query max_iterations max_iterations 0 [] "" s2)
      as [[a r | [| r rs]] s3 | e s3]; reflexivity.
  - cbn [ret].
    destruct (plan_loop w user_query max_iterations max_iterations 0 [] "" s1)
      as [[a r | [| r rs]] s3 | e s3]; reflexivity.
Qed.

(** A client that is initialized and has probed its data needs no
    preparation. *)
Lemma prepare_ready (w : World) (s : state) :
  _initialized (self s) = true ->
  _data_content_discovered (self s) = true ->
  prepare w s = Ok tt s.
Proof.
  intros Hinit Hdisc. unfold prepare, bind, get_self.
  rewrite Hinit. cbn [negb ret]. rewrite Hdisc. reflexivity.
Qed.

(** The first turn of the loop on a plan that declares the data
    unavailable. *)
Lemma plan_loop_unavailable (w : World) (user_query : string)
    (max_iterations remaining iteration : nat) (results : list tool_result)
    (discovered : string) (s : state) (p : plan) :
  plan_of_llm (w_llm w (log s) (plan_prompt w (self s) user_query discovered)) = p ->
  data_unavailable p = true ->
  plan_loop w user_query max_iterations (S remaining) iteration results
    discovered s
  = match unavailable_answer w p with
    | inr answer =>
        Ok (Returned answer [])
          (after s [EvLLM (plan_prompt w (self s) user_query discovered)])
    | inl e =>
        Raise e (after s [EvLLM (plan_prompt w (self s) user_query discovered)])
    end.
Proof.
  intros Hp Hun. cbn [plan_loop].
  rewrite (bind_ok _ _ _ _ _ (plan_tool_usage_run w user_query discovered s)).
  rewrite Hp, Hun. unfold bind.
  destruct (unavailable_answer w p); reflexivity.
Qed.

(** C3, as stated, fails: on a client that is initialized but has not yet
    probed its data, [intelligent_query] begins with the data-content
    discovery, which calls the SQL tool, before the planner is asked. The
    answer is the one of the claim, the tool calls are not avoided. *)
Lemma C3_counterexample :
  _initialized (self fresh) = true
  /\ intelligent_query world_refusal "average volume of XYZ" 3 fresh
     = Ok (JString ("R" ++ NL ++ NL ++ "L"), [])
         (mk_state (set_data_content_discovered false fresh_client)
            [sql_call "SHOW TABLES";
             sql_call "SELECT name FROM tables";
             sql_call "SELECT table_name FROM information_schema.tables";
             EvLLM (plan_prompt world_refusal fresh_client
                      "average volume of XYZ" EmptyString)])
  /\ filter is_tool_call
       (log (out_state
               (intelligent_query world_refusal "average volume of XYZ" 3 fresh)))
     <> [].
Proof.
  split; [reflexivity|]. split; [vm_compute; reflexivity|].
  vm_compute. discriminate.
Qed.

(** C3, amended. When the planner's plan declares the data unavailable,
    with reasoning [R] and limitations [L], [intelligent_query] returns [R],
    an empty line and [L] with an empty result list, and its only request
    after the preparation is the one planning call. On a client that is
    initialized and has probed its data there is no preparation, so that no
    tool is invoked at all; otherwise the tool calls are those of the
    preparation, made before the planner is asked. When the limitations are
    absent, null or empty, the answer is the reasoning alone. *)
Theorem C3_data_unavailable_short_circuit (w : World) (user_query : string)
    (max_iterations : nat) (s s1 : state) (p : plan) (R : string) :
  prepare w s = Ok tt s1 ->
  plan_of_llm (w_llm w (log s1) (plan_prompt w (self s1) user_query EmptyString)) = p ->
  dict_get "data_available" p = Some (JBool false) ->
  dict_get "reasoning" p = Some (JString R) ->
  let planned := after s1 [EvLLM (plan_prompt w (self s1) user_query EmptyString)] in
  (forall L,
     dict_get "limitations" p = Some (JString L) ->
     L <> EmptyString ->
     intelligent_query w user_query (S max_iterations) s
     = Ok (JString (R ++ NL ++ NL ++ L), []) planned)
  /\ (dict_get "limitations" p = None
      \/ dict_get "limitations" p = Some JNull
      \/ dict_get "limitations" p = Some (JString EmptyString) ->
      intelligent_query w user_query (S max_iterations) s
      = Ok (JString R, []) planned)
  /\ (_initialized (self s) = true ->
      _data_content_discovered (self s) = true ->
      s1 = s /\ filter is_tool_call (log planned) = filter is_tool_call (log s)).
Proof.
  intros Hprep Hp Hun HR planned.
  assert (Hloop :
            plan_loop w user_query (S max_iterations) (S max_iterations) 0 []
              EmptyString s1
            = match unavailable_answer w p with
              | inr answer => Ok (Returned answer []) planned
              | inl e => Raise e planned
              end).
  { apply plan_loop_unavailable; [exact Hp|].
    unfold data_unavailable. now rewrite Hun. }
  split; [| split].
  - intros L HL HLne. rewrite intelligent_query_eq.
    rewrite (bind_ok _ _ _ _ _ Hprep).
    unfold bind. rewrite Hloop.
    unfold unavailable_answer, get_or. rewrite HL, HR.
    cbn [py_truthy]. rewrite (nonempty_true L HLne). reflexivity.
  - intros Hlim. rewrite intelligent_query_eq.
    rewrite (bind_ok _ _ _ _ _ Hprep).
    unfold bind. rewrite Hloop.
    unfold unavailable_answer, get_or. rewrite HR.
    destruct Hlim as [-> | [-> | ->]]; reflexivity.
  - intros Hinit Hdisc. rewrite (prepare_ready w s Hinit Hdisc) in Hprep.
    injection Hprep as <-. split; [reflexivity|].
    unfold planned, after. cbn [log]. rewrite filter_app. cbn [filter is_tool_call].
    apply app_nil_r.
Qed.

Lemma C3_data_unavailable_short_circuit_witness :
  intelligent_query world_refusal "average volume of XYZ" 3 ready
  = Ok (JString ("R" ++ NL ++ NL ++ "L"), [])
      (after ready
         [EvLLM (plan_prompt world_refusal ready_client "average volume of XYZ"
                   EmptyString)]).
Proof.
  apply (proj1 (C3_data_unavailable_short_circuit world_refusal
                  "average volume of XYZ" 2 ready ready refusal_plan "R"
                  eq_refl refusal_decodes eq_refl eq_refl) "L").
  - reflexivity.
  - discriminate.
Defined.

(** *** The planning loop *)

Lemma str_app_nil_r (a : string) : a ++ EmptyString = a.
Proof. induction a as [| c a IH]; [reflexivity | cbn; now rewrite IH]. Qed.

Lemma str_app_assoc (a b c : string) : (a ++ b) ++ c = a ++ (b ++ c).
Proof. induction a as [| x a IH]; [reflexivity | cbn; now rewrite IH]. Qed.

Lemma planning_schemas_app (xs ys : list event) :
  planning_schemas (xs ++ ys) = (planning_schemas xs ++ planning_schemas ys)%list.
Proof. apply flat_map_app. Qed.

Lemma tool_calls_app (xs ys : list event) :
  tool_calls (xs ++ ys) = (tool_calls xs ++ tool_calls ys)%list.
Proof. apply flat_map_app. Qed.

Lemma plan_calls_app (xs ys : list event) :
  plan_calls (xs ++ ys) = plan_calls xs + plan_calls ys.
Proof. unfold plan_calls. now rewrite planning_schemas_app, length_app. Qed.

(** [call_tool] returns a result for the call it was asked to make. *)
Lemma call_tool_answers (w : World) (tool_name arguments : json) (s : state) :
  exists r,
    call_tool w tool_name arguments s
    = Ok r (after s [EvCallTool tool_name arguments])
    /\ call_of r = (tool_name, arguments).
Proof.
  unfold call_tool, bind. rewrite request_run.
  destruct (w_call_tool w (log s) tool_name arguments) as [e | [ie c sc repr | ie c e]].
  - eexists. split; reflexivity.
  - eexists. split; [reflexivity|]. unfold build_response. destruct sc; reflexivity.
  - eexists. split; reflexivity.
Qed.

(** What one step of a plan does. A step that is not a dict, or whose
    purpose is not a string, raises before any call. Otherwise the tool is
    called once, the result is appended with the purpose of the step, and the
    discovered schema is extended, by the note of the discovery when the step
    is a schema-discovery step that succeeded with some text. *)
Lemma execute_step_spec (w : World) (acc : progress) (step : json) (s : state) :
  match step_purpose step with
  | None => exists e, execute_step w acc step s = Raise e s
  | Some p =>
      exists r acc',
        call_tool w (step_tool step) (step_arguments step) s
        = Ok r (after s [EvCallTool (step_tool step) (step_arguments step)])
        /\ execute_step w acc step s
           = Ok acc' (after s [EvCallTool (step_tool step) (step_arguments step)])
        /\ all_tool_results acc' = (all_tool_results acc ++ [with_purpose p r])%list
        /\ call_of (with_purpose p r) = (step_tool step, step_arguments step)
        /\ schema_discovery_done acc'
           = schema_discovery_done acc || is_discovery_step step
        /\ exists addition,
             discovered_schema acc' = discovered_schema acc ++ addition
             /\ (is_discovery_step step = true ->
                 has_error r = false ->
                 nonempty (_extract_schema_from_result (get_content r)) = true ->
                 addition
                 = discovery_note (step_tool step)
                     (_extract_schema_from_result (get_content r)) w)
  end.
Proof.
  unfold step_purpose, is_discovery_step, step_purpose.
  destruct step as [| | | | | | | | fields];
    try (eexists; reflexivity).
  cbn [execute_step step_tool step_arguments].
  destruct (get_or "purpose" "" fields) as [| | | | | | p | |];
    try (eexists; reflexivity).
  destruct (call_tool_answers w
              (match dict_get "tool" fields with Some v => v | None => JNull end)
              (match dict_get "arguments" fields with
               | Some v => v
               | None => JObject []
               end) s) as [r [Hr Hcall]].
  rewrite (bind_ok _ _ _ _ _ Hr).
  assert (Hcall' : forall q, call_of (with_purpose q r) = call_of r)
    by (intros q; reflexivity).
  assert (Herr : has_error (with_purpose p r) = has_error r) by reflexivity.
  assert (Hcont : get_content (with_purpose p r) = get_content r) by reflexivity.
  rewrite Herr, Hcont.
  destruct (any_keyword_in SCHEMA_PURPOSE_KEYWORDS (lower p)) eqn:Hkw.
  - destruct (negb (has_error r)
              && nonempty (_extract_schema_from_result (get_content r))) eqn:Hgood.
    + exists r. eexists. split; [exact Hr|]. split; [reflexivity|].
      cbn [all_tool_results schema_discovery_done discovered_schema].
      split; [reflexivity|]. split; [now rewrite Hcall'|].
      split; [now rewrite orb_true_r|].
      exists (discovery_note
                (match dict_get "tool" fields with Some v => v | None => JNull end)
                (_extract_schema_from_result (get_content r)) w).
      split; [reflexivity|]. intros _ _ _. reflexivity.
    + exists r. eexists. split; [exact Hr|]. split; [reflexivity|].
      cbn [all_tool_results schema_discovery_done discovered_schema].
      split; [reflexivity|]. split; [now rewrite Hcall'|].
      split; [now rewrite orb_true_r|].
      exists EmptyString. split; [now rewrite str_app_nil_r|].
      intros _ He Hne. rewrite He, Hne in Hgood. discriminate Hgood.
  - exists r. eexists. split; [exact Hr|]. split; [reflexivity|].
    cbn [all_tool_results schema_discovery_done discovered_schema].
    split; [reflexivity|]. split; [now rewrite Hcall'|].
    split; [now rewrite orb_false_r|].
    exists EmptyString. split; [now rewrite str_app_nil_r|].
    intros Habs. discriminate Habs.
Qed.

(** The steps of a plan, run in order: only tool calls are logged; when
    the run returns, one result per step has been appended, in order, the
    discovered schema has only been extended, and the discovery flag records
    whether a schema-discovery step was among the steps. Executable steps
    never raise. *)
Lemma execute_steps_spec (w : World) (steps : list json) :
  forall (acc : progress) (s : state),
  exists new,
    log (out_state (execute_steps w acc steps s)) = (log s ++ new)%list
    /\ planning_schemas new = []
    /\ (forallb is_executable_step steps = true ->
        returns (execute_steps w acc steps s))
    /\ forall acc' s',
         execute_steps w acc steps s = Ok acc' s' ->
         exists extra addition,
           all_tool_results acc' = (all_tool_results acc ++ extra)%list
           /\ discovered_schema acc' = discovered_schema acc ++ addition
           /\ map call_of extra = tool_calls new
           /\ List.length extra = List.length steps
           /\ schema_discovery_done acc'
              = schema_discovery_done acc || existsb is_discovery_step steps.
Proof.
  induction steps as [| step rest IH]; intros acc s.
  - exists []. cbn [execute_steps ret out_state].
    split; [now rewrite app_nil_r|]. split; [reflexivity|]. split; [intros _; exact I|].
    intros acc' s' H. injection H as <- <-.
    exists [], EmptyString. rewrite app_nil_r, str_app_nil_r, orb_false_r.
    repeat split.
  - cbn [execute_steps].
    pose proof (execute_step_spec w acc step s) as Hstep.
    unfold is_executable_step, is_discovery_step. cbn [forallb existsb].
    destruct (step_purpose step) as [p |] eqn:Hp.
    + destruct Hstep as [r [acc1 [_ [Hrun [Hres [Hcall [Hdone [add1 [Hadd _]]]]]]]]].
      rewrite (bind_ok _ _ _ _ _ Hrun).
      destruct (IH acc1 (after s [EvCallTool (step_tool step) (step_arguments step)]))
        as [new1 [Hlog [Hplan [Hret Hok]]]].
      exists (EvCallTool (step_tool step) (step_arguments step) :: new1).
      split; [rewrite Hlog; cbn [after log]; now rewrite <- app_assoc|].
      split; [exact Hplan|]. split; [exact Hret|].
      intros acc' s' Hrest.
      destruct (Hok acc' s' Hrest) as [extra1 [add2 [H1 [H2 [H3 [H4 H5]]]]]].
      exists (with_purpose p r :: extra1), (add1 ++ add2).
      split; [rewrite H1, Hres; now rewrite <- app_assoc|].
      split; [rewrite H2, Hadd; apply str_app_assoc|].
      split; [cbn [map tool_calls flat_map app]; now rewrite Hcall, H3|].
      split; [cbn [List.length]; now rewrite H4|].
      rewrite H5, Hdone. unfold is_discovery_step. rewrite Hp.
      now rewrite orb_assoc.
    + destruct Hstep as [e Hraise].
      rewrite (bind_raise _ _ _ _ _ Hraise). cbn [out_state].
      exists []. split; [now rewrite app_nil_r|]. split; [reflexivity|].
      split; [intros H; discriminate H|].
      intros acc' s' H. discriminate H.
Qed.

Lemma synthesize_run (w : World) (user_query : string) (results : list tool_result)
    (s : state) :
  exists answer,
    _synthesize_results w user_query results s
    = Ok answer
        (after s [EvLLM (SynthesisPrompt user_query
                           (join NL (results_text_from w 1 results)))]).
Proof.
  unfold _synthesize_results, bind. rewrite request_run.
  match goal with
  | |- context [w_llm w ?h ?q] => destruct (w_llm w h q)
  end; eexists; reflexivity.
Qed.

(** The schema section of the first planning prompt of a turn. *)
Lemma planning_schemas_plan_prompt (w : World) (c : client)
    (user_query discovered : string) :
  planning_schemas [EvLLM (plan_prompt w c user_query discovered)]
  = [schema_section c discovered].
Proof. reflexivity. Qed.

(** The planning loop, whatever the model answers: it logs at most one
    planning call per remaining turn, the first of them with the discovered
    schema it was given; every planning prompt holds the schema section of the
    client extended by the discovered schema it started with and by what was
    discovered since; and when the loop ends for the synthesis, the list it
    hands over is the list it started with followed by the results of all the
    tool calls it made, in order. *)
Lemma plan_loop_spec (w : World) (user_query : string) (max_iterations : nat)
    (remaining : nat) :
  forall (iteration : nat) (results : list tool_result) (discovered : string)
         (s : state),
  exists new,
    log (out_state (plan_loop w user_query max_iterations remaining iteration
                      results discovered s))
    = (log s ++ new)%list
    /\ plan_calls new <= remaining
    /\ (remaining <> 0 ->
        exists rest,
          new = EvLLM (plan_prompt w (self s) user_query discovered) :: rest)
    /\ Forall (fun sd => exists d, sd = schema_section (self s) (discovered ++ d))
         (planning_schemas new)
    /\ forall out s',
         plan_loop w user_query max_iterations remaining iteration results
           discovered s = Ok (Synthesize out) s' ->
         exists extra,
           out = (results ++ extra)%list /\ map call_of extra = tool_calls new.
Proof.
  induction remaining as [| remaining IH]; intros iteration results discovered s.
  - exists []. cbn [plan_loop ret out_state].
    split; [now rewrite app_nil_r|]. split; [apply Nat.le_refl|].
    split; [intros H; now elim H|]. split; [constructor|].
    intros out s' H. injection H as <- <-. exists []. now rewrite app_nil_r.
  - cbn [plan_loop].
    rewrite (bind_ok _ _ _ _ _ (plan_tool_usage_run w user_query discovered s)).
    set (prompt := plan_prompt w (self s) user_query discovered).
    set (p := plan_of_llm (w_llm w (log s) prompt)).
    assert (Hfirst : Forall
                       (fun sd => exists d, sd = schema_section (self s) (discovered ++ d))
                       (planning_schemas [EvLLM prompt])).
    { unfold prompt. rewrite planning_schemas_plan_prompt.
      constructor; [| constructor]. exists EmptyString. now rewrite str_app_nil_r. }
    destruct (data_unavailable p).
    { (* the data is declared unavailable *)
      exists [EvLLM prompt].
      split; [unfold bind; destruct (unavailable_answer w p); reflexivity|].
      split; [cbn; apply le_n_S, Nat.le_0_l|].
      split; [intros _; now exists []|]. split; [exact Hfirst|].
      intros out s' H. unfold bind in H.
      destruct (unavailable_answer w p); discriminate H. }
    destruct (negb (py_truthy (get_or "steps" "" p))).
    { (* no steps *)
      exists [EvLLM prompt].
      split; [destruct (Nat.eqb iteration 0); reflexivity|].
      split; [cbn; apply le_n_S, Nat.le_0_l|].
      split; [intros _; now exists []|]. split; [exact Hfirst|].
      intros out s' H. destruct (Nat.eqb iteration 0); [discriminate H|].
      injection H as <- <-. exists []. now rewrite app_nil_r. }
    (* the steps are executed *)
    set (s1 := after s [EvLLM prompt]).
    set (acc0 := mk_progress results discovered false).
    destruct (execute_steps_spec w (steps_of p) acc0 s1)
      as [new1 [Hlog1 [Hplan1 [_ Hok1]]]].
    pose proof (keeps_execute_steps w (steps_of p) acc0 s1) as Hself1.
    destruct (execute_steps w acc0 (steps_of p) s1) as [acc' s2 | e s2] eqn:Hsteps.
    2:{ rewrite (bind_raise _ _ _ _ _ Hsteps). cbn [out_state] in *.
        exists (EvLLM prompt :: new1).
        split; [rewrite Hlog1; unfold s1; cbn [after log]; now rewrite <- app_assoc|].
        split; [unfold plan_calls; cbn [planning_schemas flat_map app];
                fold (planning_schemas new1); rewrite Hplan1; cbn;
                apply le_n_S, Nat.le_0_l|].
        split; [intros _; now exists new1|].
        split; [cbn [planning_schemas flat_map app] in *;
                fold (planning_schemas new1); rewrite Hplan1; exact Hfirst|].
        intros out s' H. discriminate H. }
    rewrite (bind_ok _ _ _ _ _ Hsteps). cbn [out_state] in *.
    destruct (Hok1 acc' s2 eq_refl) as [extra1 [add1 [Hres1 [Hdisc1 [Hcalls1 _]]]]].
    cbn [all_tool_results discovered_schema] in Hres1, Hdisc1.
    assert (Hself : self s2 = self s) by (rewrite Hself1; reflexivity).
    destruct (schema_discovery_done acc' && (iteration <? max_iterations - 1)%nat).
    + (* another turn *)
      destruct (IH (S iteration) (all_tool_results acc') (discovered_schema acc') s2)
        as [new2 [Hlog2 [Hcount2 [_ [Hall2 Hok2]]]]].
      exists (EvLLM prompt :: new1 ++ new2)%list.
      split.
      { rewrite Hlog2, Hlog1. unfold s1. cbn [after log].
        rewrite <- !app_assoc. reflexivity. }
      split.
      { change (EvLLM prompt :: new1 ++ new2)%list
          with ([EvLLM prompt] ++ (new1 ++ new2))%list.
        rewrite !plan_calls_app. unfold plan_calls at 2. rewrite Hplan1.
        cbn [List.length]. unfold plan_calls at 1. unfold prompt.
        rewrite planning_schemas_plan_prompt. cbn [List.length].
        rewrite Nat.add_0_l. apply le_n_S. exact Hcount2. }
      split; [intros _; now exists (new1 ++ new2)%list|].
      split.
      { change (EvLLM prompt :: new1 ++ new2)%list
          with ([EvLLM prompt] ++ (new1 ++ new2))%list.
        rewrite !planning_schemas_app, Hplan1. cbn [app].
        apply Forall_app. split; [exact Hfirst|].
        rewrite Hself, Hdisc1 in Hall2.
        eapply Forall_impl; [| exact Hall2].
        intros sd [d Hd]. exists (add1 ++ d). now rewrite <- str_app_assoc. }
      intros out s' Hout.
      destruct (Hok2 out s' Hout) as [extra2 [Hout2 Hcalls2]].
      exists (extra1 ++ extra2)%list. split.
      * rewrite Hout2, Hres1. now rewrite <- app_assoc.
      * rewrite map_app, Hcalls1, Hcalls2.
        cbn [tool_calls flat_map app]. fold (tool_calls (new1 ++ new2)).
        now rewrite tool_calls_app.
    + (* the loop is left *)
      exists (EvLLM prompt :: new1).
      cbn [ret out_state].
      split; [rewrite Hlog1; unfold s1; cbn [after log]; now rewrite <- app_assoc|].
      split; [unfold plan_calls; cbn [planning_schemas flat_map app];
              fold (planning_schemas new1); rewrite Hplan1; cbn;
              apply le_n_S, Nat.le_0_l|].
      split; [intros _; now exists new1|].
      split; [cbn [planning_schemas flat_map app] in *;
              fold (planning_schemas new1); rewrite Hplan1; exact Hfirst|].
      intros out s' H. injection H as <- <-.
      exists extra1. split; [exact Hres1|].
      cbn [tool_calls flat_map app]. exact Hcalls1.
Qed.

(** With a planner that always returns an executed plan with a
    schema-discovery step, every remaining turn of the loop is taken: the loop
    ends for the synthesis after exactly that many planning calls, with
    results. *)
Lemma plan_loop_exact (w : World) (user_query : string) (max_iterations : nat) :
  (forall history prompt, discovery_plan (plan_of_llm (w_llm w history prompt))) ->
  forall (remaining iteration : nat) (results : list tool_result)
         (discovered : string) (s : state),
    iteration + S remaining = max_iterations ->
    exists out s' new,
      plan_loop w user_query max_iterations (S remaining) iteration results
        discovered s = Ok (Synthesize out) s'
      /\ log s' = (log s ++ new)%list
      /\ plan_calls new = S remaining
      /\ out <> [].
Proof.
  intros Hplans.
  induction remaining as [| remaining IH];
    intros iteration results discovered s Hmax.
  all: cbn [plan_loop].
  all: rewrite (bind_ok _ _ _ _ _ (plan_tool_usage_run w user_query discovered s)).
  all: set (prompt := plan_prompt w (self s) user_query discovered).
  all: destruct (Hplans (log s) prompt) as [Havail [steps [Hsteps [Hexec Hdisc]]]].
  all: rewrite Havail.
  all: assert (Hget : get_or "steps" "" (plan_of_llm (w_llm w (log s) prompt))
                      = JArray steps) by (unfold get_or; now rewrite Hsteps).
  all: assert (Hof : steps_of (plan_of_llm (w_llm w (log s) prompt)) = steps)
         by (unfold steps_of; now rewrite Hsteps).
  all: rewrite Hget, Hof.
  all: assert (Hne : steps <> []) by (intros ->; discriminate Hdisc).
  all: assert (Htruthy : py_truthy (JArray steps) = true)
         by (destruct steps; [now elim Hne | reflexivity]).
  all: rewrite Htruthy; cbn [negb].
  all: set (s1 := after s [EvLLM prompt]).
  all: set (acc0 := mk_progress results discovered false).
  all: destruct (execute_steps_spec w steps acc0 s1)
         as [new1 [Hlog1 [Hplan1 [Hret1 Hok1]]]].
  all: specialize (Hret1 Hexec).
  all: destruct (execute_steps w acc0 steps s1) as [acc' s2 | e s2] eqn:Hrun;
         [| destruct Hret1].
  all: rewrite (bind_ok _ _ _ _ _ Hrun); cbn [out_state] in Hlog1.
  all: destruct (Hok1 acc' s2 eq_refl)
         as [extra1 [add1 [Hres1 [_ [_ [Hlen1 Hdone1]]]]]].
  all: cbn [schema_discovery_done all_tool_results] in Hdone1, Hres1.
  all: rewrite Hdisc in Hdone1; rewrite Hdone1; cbn [andb].
  all: assert (Hextra : extra1 <> [])
         by (intros ->; destruct steps; [now elim Hne | discriminate Hlen1]).
  all: assert (Hcount1 : plan_calls (EvLLM prompt :: new1) = 1)
         by (unfold plan_calls; cbn [planning_schemas flat_map app];
             fold (planning_schemas new1); now rewrite Hplan1).
  - (* the last turn *)
    replace (iteration <? max_iterations - 1)%nat with false
      by (symmetry; apply Nat.ltb_ge; lia).
    exists (all_tool_results acc'), s2, (EvLLM prompt :: new1).
    split; [reflexivity|].
    split; [rewrite Hlog1; unfold s1; cbn [after log]; now rewrite <- app_assoc|].
    split; [exact Hcount1|].
    rewrite Hres1. intros Habs. apply app_eq_nil in Habs. now destruct Habs.
  - (* a turn that is followed by another *)
    replace (iteration <? max_iterations - 1)%nat with true
      by (symmetry; apply Nat.ltb_lt; lia).
    destruct (IH (S iteration) (all_tool_results acc') (discovered_schema acc') s2)
      as [out [s' [new2 [Hloop [Hlog2 [Hcount2 Hout]]]]]]; [lia|].
    exists out, s', ((EvLLM prompt :: new1) ++ new2)%list.
    split; [exact Hloop|].
    split; [rewrite Hlog2, Hlog1; unfold s1; cbn [after log];
            now rewrite <- !app_assoc|].
    split; [rewrite plan_calls_app, Hcount1, Hcount2; reflexivity|].
    exact Hout.
Qed.



Lemma world_always_discovers_plans (history : list event) (prompt : Client.prompt) :
  discovery_plan (plan_of_llm (w_llm world_always_discovers history prompt)).
Proof.
  split; [reflexivity|].
  eexists. split; [vm_compute; reflexivity|]. split; reflexivity.
Defined.





(** A run of two turns: the first plan lists the tables, the second plan, made
    with the discovered table in its prompt, queries it; the answer comes with
    the results of both calls. *)
Example discover_then_query_run :
  let run := intelligent_query world_discover_then_query "average volume of XYZ" 3
               ready in
  (exists results s',
     run = Ok (JString "Table x has one row.", results) s'
     /\ map call_of results = tool_calls (log s')
     /\ List.length results = 2)
  /\ planning_schemas (log (out_state run))
     = [schema_section ready_client EmptyString;
        schema_section ready_client
          (discovery_note (JString "list_tables") "TABLE x"
             world_discover_then_query)].
Proof.
  split; [| vm_compute; reflexivity].
  eexists. eexists. split; [vm_compute; reflexivity|].
  split; vm_compute; reflexivity.
Qed.

(* ===================================================================== *)
(** ** Further properties of the client and of its callers *)
(* ===================================================================== *)

(** *** Strings *)

Lemma map_chars_app (f : ascii -> ascii) (a b : string) :
  map_chars f (a ++ b) = map_chars f a ++ map_chars f b.
Proof. induction a as [| c a IH]; cbn; [reflexivity | now rewrite IH]. Qed.

Lemma lower_app (a b : string) : lower (a ++ b) = lower a ++ lower b.
Proof. apply map_chars_app. Qed.

Lemma startswith_app (p s b : string) :
  startswith p s = true -> startswith p (s ++ b) = true.
Proof.
  revert s. induction p as [| a p IH]; intros s H; [reflexivity|].
  destruct s as [| c s]; cbn in *; [discriminate|].
  apply andb_true_iff in H. destruct H as [H1 H2].
  rewrite H1. now apply IH.
Qed.

Lemma split_first_some_app (needle s b : string) :
  split_first false needle s <> None ->
  split_first false needle (s ++ b) <> None.
Proof.
  induction s as [| c s IH]; intros H.
  - cbn in *. destruct (startswith needle EmptyString) eqn:E; [| now elim H].
    destruct needle; [| discriminate E].
    destruct b; cbn; discriminate.
  - cbn [split_first] in *.
    destruct (startswith needle (String c s)) eqn:E.
    + change (String c s ++ b) with (String c (s ++ b)) in *.
      cbn [split_first].
      change (String c (s ++ b)) with (String c s ++ b).
      rewrite (startswith_app _ _ b E). discriminate.
    + change (String c s ++ b) with (String c (s ++ b)).
      cbn [split_first].
      destruct (startswith needle (String c (s ++ b))); [discriminate|].
      destruct (split_first false needle s) as [[pre post] |] eqn:Es;
        [| now elim H].
      assert (Hs : split_first false needle (s ++ b) <> None)
        by (apply IH; discriminate).
      destruct (split_first false needle (s ++ b)) as [[pre' post'] |];
        [discriminate | now elim Hs].
Qed.

Lemma split_first_some_cons (needle s : string) (c : ascii) :
  split_first false needle s <> None ->
  split_first false needle (String c s) <> None.
Proof.
  intros H. cbn [split_first].
  destruct (startswith needle (String c s)); [discriminate|].
  destruct (split_first false needle s) as [[pre post] |];
    [discriminate | now elim H].
Qed.

Lemma contains_context (needle a s b : string) :
  contains needle s = true -> contains needle (a ++ s ++ b) = true.
Proof.
  unfold contains. intros H.
  assert (Hs : split_first false needle s <> None)
    by (destruct (split_first false needle s); [discriminate | discriminate H]).
  assert (Hsb : split_first false needle (a ++ s ++ b) <> None).
  { induction a as [| c a IH]; cbn [String.append].
    - now apply split_first_some_app.
    - now apply split_first_some_cons. }
  destruct (split_first false needle (a ++ s ++ b)); [reflexivity | now elim Hsb].
Qed.

Lemma any_keyword_in_context (keywords : list string) (a s b : string) :
  any_keyword_in keywords s = true ->
  any_keyword_in keywords (a ++ s ++ b) = true.
Proof.
  unfold any_keyword_in. rewrite !existsb_exists.
  intros [k [Hin Hk]]. exists k. split; [exact Hin|].
  now apply contains_context.
Qed.

(** *** Keyword routing *)

Lemma is_kdb_query_extends (query before after : string) :
  is_kdb_query query = true ->
  is_kdb_query (before ++ query ++ after) = true.
Proof.
  unfold is_kdb_query. intros H.
  rewrite !lower_app. now apply any_keyword_in_context.
Qed.

(** X1: the routing test is a substring test on the lower-cased query: a query
    is routed to KDB+ exactly when one of the keywords occurs somewhere in its
    lower-cased text, so that a routed query stays routed whatever text is put
    around it, also when that makes the keyword a part of a longer word. *)
Theorem is_kdb_query_substring (query : string) :
  (is_kdb_query query = true <->
   exists keyword,
     In keyword KDB_KEYWORDS /\ contains keyword (lower query) = true)
  /\ (is_kdb_query query = true ->
      forall before after, is_kdb_query (before ++ query ++ after) = true).
Proof.
  split.
  - unfold is_kdb_query, any_keyword_in. apply existsb_exists.
  - intros H before after. now apply is_kdb_query_extends.
Qed.

Lemma is_kdb_query_substring_witness :
  is_kdb_query "Ask" = true
  /\ is_kdb_query ("Which T" ++ "Ask" ++ "s are open?") = true.
Proof.
  split; [reflexivity|].
  apply (proj2 (is_kdb_query_substring "Ask")). reflexivity.
Defined.

(** X2: the classification of a query is one of two sources, never the web; an
    explicit flag decides alone; without a flag and with KDB+ disabled every
    query goes to the documents; and, with the same settings, a query that
    goes to KDB+ still does when text is put around it. *)
Theorem classify_query_type_spec (KDB_ENABLED : bool) :
  (forall query use_kdb,
     classify_query_type KDB_ENABLED query use_kdb = "kdb"
     \/ classify_query_type KDB_ENABLED query use_kdb = "rag")
  /\ (forall query flag,
        classify_query_type KDB_ENABLED query (Some flag)
        = if flag then "kdb" else "rag")
  /\ (forall query,
        KDB_ENABLED = false ->
        classify_query_type KDB_ENABLED query None = "rag")
  /\ (forall query use_kdb before after,
        classify_query_type KDB_ENABLED query use_kdb = "kdb" ->
        classify_query_type KDB_ENABLED (before ++ query ++ after) use_kdb = "kdb").
Proof.
  split; [| split; [| split]].
  - intros query [[|] |]; unfold classify_query_type; [now left | now right |].
    destruct (KDB_ENABLED && is_kdb_query query); [now left | now right].
  - intros query [|]; reflexivity.
  - intros query ->. reflexivity.
  - intros query [[|] |] before after; unfold classify_query_type;
      [reflexivity | discriminate |].
    destruct KDB_ENABLED; cbn [andb]; [| discriminate].
    destruct (is_kdb_query query) eqn:E; [| discriminate].
    intros _. now rewrite (is_kdb_query_extends query before after E).
Qed.

Lemma classify_query_type_spec_witness :
  classify_query_type true "volume" None = "kdb"
  /\ classify_query_type true ("the " ++ "volume" ++ " of XYZ") None = "kdb".
Proof.
  split; [reflexivity|].
  apply (proj2 (proj2 (proj2 (classify_query_type_spec true)))
           "volume" None "the " " of XYZ").
  reflexivity.
Defined.

(** *** Sorting by priority *)

Section SortDesc.

Context {A : Type} (key : A -> Q).

Lemma insert_desc_perm (x : A) (l : list A) :
  Permutation (insert_desc key x l) (x :: l).
Proof.
  induction l as [| y l IH]; cbn [insert_desc]; [reflexivity|].
  destruct (Qle_bool (key y) (key x)); [reflexivity|].
  rewrite IH. apply perm_swap.
Qed.

Lemma sort_desc_perm (l : list A) : Permutation (sort_desc key l) l.
Proof.
  induction l as [| x l IH]; [reflexivity|].
  unfold sort_desc in *. cbn [fold_right].
  rewrite insert_desc_perm. now constructor.
Qed.

Lemma insert_desc_sorted (x : A) (l : list A) :
  StronglySorted (fun a b => (key b <= key a)%Q) l ->
  StronglySorted (fun a b => (key b <= key a)%Q) (insert_desc key x l).
Proof.
  induction l as [| y l IH]; intros Hs; cbn [insert_desc].
  - repeat constructor.
  - inversion Hs as [| ? ? Hl Hy]; subst.
    destruct (Qle_bool (key y) (key x)) eqn:E.
    + apply Qle_bool_iff in E.
      constructor; [exact Hs|].
      constructor; [exact E|].
      eapply Forall_impl; [| exact Hy].
      intros b Hb. cbv beta in *. eapply Qle_trans; eassumption.
    + assert (Hlt : (key x <= key y)%Q).
      { destruct (Qlt_le_dec (key x) (key y)) as [Hlt | Hle].
        - now apply Qlt_le_weak.
        - apply Qle_bool_iff in Hle. congruence. }
      constructor; [now apply IH|].
      eapply Permutation_Forall; [symmetry; apply insert_desc_perm|].
      constructor; assumption.
Qed.

Lemma sort_desc_sorted (l : list A) :
  StronglySorted (fun a b => (key b <= key a)%Q) (sort_desc key l).
Proof.
  induction l as [| x l IH]; [constructor|].
  unfold sort_desc in *. cbn [fold_right]. now apply insert_desc_sorted.
Qed.

Lemma insert_desc_filter (q : Q) (x : A) (l : list A) :
  filter (fun a => Qeq_bool (key a) q) (insert_desc key x l)
  = filter (fun a => Qeq_bool (key a) q) (x :: l).
Proof.
  induction l as [| y l IH]; cbn [insert_desc]; [reflexivity|].
  destruct (Qle_bool (key y) (key x)) eqn:E; [reflexivity|].
  cbn [filter] in *. rewrite IH.
  destruct (Qeq_bool (key x) q) eqn:Ex; [| reflexivity].
  destruct (Qeq_bool (key y) q) eqn:Ey; [| reflexivity].
  apply Qeq_bool_iff in Ex, Ey.
  assert (Hle : (key y <= key x)%Q) by (rewrite Ex, Ey; apply Qle_refl).
  apply Qle_bool_iff in Hle. congruence.
Qed.

Lemma sort_desc_stable (q : Q) (l : list A) :
  filter (fun a => Qeq_bool (key a) q) (sort_desc key l)
  = filter (fun a => Qeq_bool (key a) q) l.
Proof.
  induction l as [| x l IH]; [reflexivity|].
  unfold sort_desc in *. cbn [fold_right].
  rewrite insert_desc_filter. cbn [filter]. now rewrite IH.
Qed.

End SortDesc.

(** X3: the resources sorted by priority are the same resources, in an order
    of non-increasing priority, and the resources of one priority stay in the
    order in which the server listed them; a resource without a priority
    counts as one half. *)
Theorem sort_resources_by_priority_spec (resources : list resource) :
  Permutation (_sort_resources_by_priority resources) resources
  /\ StronglySorted
       (fun a b => (_get_resource_priority b <= _get_resource_priority a)%Q)
       (_sort_resources_by_priority resources)
  /\ (forall q : Q,
        filter (fun r => Qeq_bool (_get_resource_priority r) q)
          (_sort_resources_by_priority resources)
        = filter (fun r => Qeq_bool (_get_resource_priority r) q) resources)
  /\ (forall r,
        _get_resource_priority r
        = match priority_of r with Some p => p | None => (1 # 2)%Q end).
Proof.
  split; [apply sort_desc_perm|].
  split; [apply sort_desc_sorted|].
  split; [intros q; apply sort_desc_stable|].
  intros r. unfold priority_of, _get_resource_priority.
  destruct (res_annotations r) as [ann |]; reflexivity.
Qed.

(** *** Schema discovery *)

Lemma after_after (s : state) (xs ys : list event) :
  after (after s xs) ys = after s (xs ++ ys).
Proof. unfold after. cbn [self log]. now rewrite <- app_assoc. Qed.

Lemma after_nil (s : state) : after s [] = s.
Proof. destruct s. unfold after. cbn [self log]. now rewrite app_nil_r. Qed.

Lemma read_resource_run (w : World) (u : string) (s : state) :
  exists text, _read_resource w u s = Ok text (after s [EvReadResource u]).
Proof.
  unfold _read_resource. rewrite (bind_ok _ _ _ _ _ (request_run _ _ s)).
  destruct (w_read_resource w (log s) u) as [e | [parts | text]];
    eexists; reflexivity.
Qed.

Lemma read_and_categorize_run (w : World) (b : buckets) (r : resource) (s : state) :
  exists b',
    read_and_categorize w b r s = Ok b' (after s [EvReadResource (uri r)]).
Proof.
  unfold read_and_categorize.
  destruct (read_resource_run w (uri r) s) as [text Hread].
  rewrite (bind_ok _ _ _ _ _ Hread).
  destruct (nonempty text); [| eexists; reflexivity].
  destruct (any_keyword_in SCHEMA_RESOURCE_KEYWORDS _); [eexists; reflexivity|].
  destruct (any_keyword_in GUIDANCE_RESOURCE_KEYWORDS _); eexists; reflexivity.
Qed.

Lemma read_all_run (w : World) (rs : list resource) :
  forall (b : buckets) (s : state),
  exists b',
    read_all w b rs s
    = Ok b' (after s (map (fun r => EvReadResource (uri r)) rs)).
Proof.
  induction rs as [| r rest IH]; intros b s; cbn [read_all map].
  - exists b. now rewrite after_nil.
  - destruct (read_and_categorize_run w b r s) as [b1 H1].
    rewrite (bind_ok _ _ _ _ _ H1).
    destruct (IH b1 (after s [EvReadResource (uri r)])) as [b' H'].
    exists b'. rewrite H', after_after. reflexivity.
Qed.

Lemma build_schema_description_nonempty (c : client) :
  nonempty (_build_schema_description c) = true.
Proof.
  unfold _build_schema_description.
  destruct (_resources c) as [| r rest]; [reflexivity|].
  apply join_nonempty. exists "Available resources/tables:".
  split; [now left | discriminate].
Qed.

(** The assignments after the reading loop change nothing but the three
    derived fields, do not raise, and leave a schema description that is not
    empty. *)
Lemma store_buckets_run (b : buckets) (s : state) :
  exists c',
    store_buckets b s = Ok tt (mk_state c' (log s))
    /\ nonempty (_schema_description c') = true
    /\ _resources c' = _resources (self s)
    /\ _tools c' = _tools (self s)
    /\ _data_content c' = _data_content (self s).
Proof.
  destruct s as [c l].
  unfold store_buckets, bind, modify_self, ret, get_self.
  destruct (sort_desc fst (schema_content_parts b));
    destruct (sort_desc fst (sql_guidance_parts b));
    destruct (sort_desc fst (other_content_parts b));
    cbn [self log];
    repeat match goal with
           | |- context [if ?x then _ else _] => destruct x eqn:?
           end;
    cbn [self log];
    eexists; (split; [reflexivity|]);
    (split; [| repeat split; reflexivity]).
  all: try apply build_schema_description_nonempty.
  all: cbn [_schema_description set_schema_description set_sql_guidance
              set_additional_context] in *.
  all: repeat match goal with
         | H : negb _ && _ = _ |- _ => apply andb_false_iff in H
         | H : negb _ = false |- _ => apply negb_false_iff in H
         | H : negb _ = true |- _ => apply negb_true_iff in H
         | H : _ && _ = true |- _ => apply andb_true_iff in H; destruct H
         end.
  all: try assumption.
  all: try congruence.
Qed.

Lemma schema_from_tools_found (w : World) (tools : list (string * tool)) :
  forall s s',
    schema_from_tools w tools s = Ok true s' ->
    nonempty (_schema_description (self s')) = true.
Proof.
  induction tools as [| [tool_name t] rest IH]; intros s s' H;
    cbn [schema_from_tools] in H.
  - discriminate H.
  - destruct (t_description t) as [d |]; [| discriminate H].
    destruct (existsb _ SCHEMA_TOOL_KEYWORDS); [| now apply (IH s)].
    destruct (call_tool_run w (JString tool_name) (JObject []) s) as [r Hr].
    rewrite (bind_ok _ _ _ _ _ Hr) in H.
    destruct (negb (has_error r)
              && nonempty (_extract_schema_from_result (get_content r))
              && negb (contains "error"
                         (lower (_extract_schema_from_result (get_content r)))))
      eqn:E; [| now apply (IH _ _ H)].
    injection H as <-. cbn [self _schema_description set_schema_description].
    apply andb_true_iff in E. destruct E as [E _].
    apply andb_true_iff in E. now destruct E.
Qed.

Lemma schema_from_queries_found (w : World) (sql_tool : string)
    (queries : list string) :
  forall s s',
    schema_from_queries w sql_tool queries s = Ok true s' ->
    nonempty (_schema_description (self s')) = true.
Proof.
  induction queries as [| query rest IH]; intros s s' H;
    cbn [schema_from_queries] in H.
  - discriminate H.
  - destruct (call_tool_run w (JString sql_tool) (query_arguments query) s)
      as [r Hr].
    rewrite (bind_ok _ _ _ _ _ Hr) in H.
    match type of H with
    | (if ?b then _ else _) _ = _ => destruct b; [| now apply (IH _ _ H)]
    end.
    injection H as <-. reflexivity.
Qed.

Lemma schema_from_sql_tools_found (w : World) (sql_tools : list string) :
  forall s s',
    schema_from_sql_tools w sql_tools s = Ok true s' ->
    nonempty (_schema_description (self s')) = true.
Proof.
  induction sql_tools as [| sql_tool rest IH]; intros s s' H;
    cbn [schema_from_sql_tools] in H.
  - discriminate H.
  - unfold bind in H.
    destruct (schema_from_queries w sql_tool SCHEMA_QUERIES s)
      as [[|] s1 | e s1] eqn:E; [| | discriminate H].
    + injection H as <-. now apply (schema_from_queries_found _ _ _ _ _ E).
    + now apply (IH _ _ H).
Qed.

Lemma discover_schema_via_tools_nonempty (w : World) (s s' : state) :
  _discover_schema_via_tools w s = Ok tt s' ->
  nonempty (_schema_description (self s')) = true.
Proof.
  unfold _discover_schema_via_tools. unfold bind at 1. unfold get_self at 1.
  unfold bind at 1.
  destruct (schema_from_tools w (_tools (self s)) s) as [[|] s1 | e s1] eqn:E1;
    [| | discriminate].
  - intros H. injection H as <-. now apply (schema_from_tools_found _ _ _ _ E1).
  - unfold bind at 1.
    match goal with
    | |- context [schema_from_sql_tools w ?l s1] =>
        destruct (schema_from_sql_tools w l s1) as [[|] s2 | e s2] eqn:E2
    end; [| | discriminate].
    + intros H. injection H as <-.
      now apply (schema_from_sql_tools_found _ _ _ _ E2).
    + intros H. injection H as <-. reflexivity.
Qed.

(** When the server lists resources, [_discover_schema] returns, and its
    requests are the listing followed by one read per resource meant for the
    model, in the order of their priorities. *)
Lemma discover_schema_resources (w : World) (s : state)
    (first : mcp_resource) (others : list mcp_resource) :
  w_list_resources w (log s) = inr (first :: others) ->
  let listed := map resource_of (first :: others) in
  exists c',
    _discover_schema w s
    = Ok tt
        (mk_state c'
           (log s
              ++ EvListResources
                   :: map (fun r => EvReadResource (uri r))
                        (_sort_resources_by_priority
                           (filter _is_resource_for_llm listed))))
    /\ _resources c' = listed
    /\ nonempty (_schema_description c') = true.
Proof.
  intros Hlist listed. unfold _discover_schema, try_except.
  rewrite (bind_ok _ _ _ _ _ (request_run _ _ s)).
  rewrite Hlist. cbn [lift]. unfold bind at 1. unfold ret at 1.
  unfold bind at 1. unfold modify_self at 1.
  unfold bind at 1. unfold get_self at 1.
  cbn [self log _resources set_resources]. fold listed.
  match goal with
  | |- context [bind (read_all w ?b ?rs) _ ?st] =>
      destruct (read_all_run w rs b st) as [b' Hread]
  end.
  rewrite (bind_ok _ _ _ _ _ Hread).
  match goal with
  | |- context [store_buckets b' ?st] =>
      destruct (store_buckets_run b' st) as [c' [Hstore [Hne [Hres _]]]]
  end.
  rewrite Hstore. exists c'.
  split; [| split; [exact Hres | exact Hne]].
  unfold after. cbn [self log]. now rewrite <- app_assoc.
Qed.

Lemma discover_schema_nonempty (w : World) (s s' : state) :
  _discover_schema w s = Ok tt s' ->
  nonempty (_schema_description (self s')) = true.
Proof.
  destruct (w_list_resources w (log s)) as [e | [| first others]] eqn:Hlist.
  - unfold _discover_schema, try_except.
    rewrite (bind_ok _ _ _ _ _ (request_run _ _ s)). rewrite Hlist.
    cbn [lift]. unfold bind at 1. unfold raise at 1.
    apply discover_schema_via_tools_nonempty.
  - unfold _discover_schema, try_except.
    rewrite (bind_ok _ _ _ _ _ (request_run _ _ s)). rewrite Hlist.
    cbn [lift]. unfold bind at 1. unfold ret at 1.
    match goal with
    | |- context [_discover_schema_via_tools w ?st] =>
        destruct (_discover_schema_via_tools w st) as [[] s1 | e s1] eqn:E
    end.
    + intros H. injection H as <-.
      now apply (discover_schema_via_tools_nonempty _ _ _ E).
    + apply discover_schema_via_tools_nonempty.
  - destruct (discover_schema_resources w s first others Hlist)
      as [c' [Hrun [_ Hne]]].
    rewrite Hrun. intros H. injection H as <-. exact Hne.
Qed.

(** X4: the requests of a schema discovery when the server lists resources:
    the listing, then one read for each resource whose audience includes the
    model, by non-increasing priority and never for another resource; no tool
    is called, nothing is raised, and the resources listed are recorded. *)
Theorem discover_schema_reads_by_priority (w : World) (s : state)
    (first : mcp_resource) (others : list mcp_resource) :
  w_list_resources w (log s) = inr (first :: others) ->
  let listed := map resource_of (first :: others) in
  let read := _sort_resources_by_priority (filter _is_resource_for_llm listed) in
  exists c',
    _discover_schema w s
    = Ok tt
        (mk_state c'
           (log s ++ EvListResources :: map (fun r => EvReadResource (uri r)) read))
    /\ _resources c' = listed
    /\ Permutation read (filter _is_resource_for_llm listed)
    /\ StronglySorted
         (fun a b => (_get_resource_priority b <= _get_resource_priority a)%Q)
         read.
Proof.
  intros Hlist listed read.
  destruct (discover_schema_resources w s first others Hlist)
    as [c' [Hrun [Hres _]]].
  exists c'. split; [exact Hrun|]. split; [exact Hres|].
  split; [apply sort_desc_perm | apply sort_desc_sorted].
Qed.

Lemma discover_schema_reads_by_priority_witness :
  exists c',
    _discover_schema world_annotated (mk_state new_client [])
    = Ok tt
        (mk_state c'
           [EvListResources; EvReadResource "kdbx://meta";
            EvReadResource "kdbx://tables"; EvReadResource "kdbx://examples"])
    /\ _resources c' = map resource_of [res_internal; res_low; res_tables; res_high].
Proof.
  destruct (discover_schema_reads_by_priority world_annotated
              (mk_state new_client []) res_internal [res_low; res_tables; res_high]
              eq_refl) as [c' [Hrun [Hres _]]].
  exists c'. split; [exact Hrun | exact Hres].
Defined.

(** A property of the client that does not depend on the fields that a
    schema discovery assigns is preserved by it. *)
Section DiscoveryFrame.

Variable w : World.
Variable P : client -> Prop.
Hypothesis P_schema : forall v c, P c -> P (set_schema_description v c).
Hypothesis P_guidance : forall v c, P c -> P (set_sql_guidance v c).
Hypothesis P_context : forall v c, P c -> P (set_additional_context v c).
Hypothesis P_resources : forall v c, P c -> P (set_resources v c).

Ltac assigning :=
  preserving;
  try (apply preserves_modify_self; intros;
       first [ apply P_schema | apply P_guidance | apply P_context
             | apply P_resources ]; assumption).

Lemma assigning_schema_from_tools (tools : list (string * tool)) :
  preserves P (schema_from_tools w tools).
Proof.
  induction tools as [| [n t] rest IH]; cbn [schema_from_tools]; assigning.
Qed.

Lemma assigning_schema_from_queries (sql_tool : string) (queries : list string) :
  preserves P (schema_from_queries w sql_tool queries).
Proof.
  induction queries as [| q rest IH]; cbn [schema_from_queries]; assigning.
Qed.

Lemma assigning_schema_from_sql_tools (sql_tools : list string) :
  preserves P (schema_from_sql_tools w sql_tools).
Proof.
  induction sql_tools as [| t rest IH]; cbn [schema_from_sql_tools].
  - assigning.
  - apply preserves_bind; [apply assigning_schema_from_queries | intros []].
    + assigning.
    + exact IH.
Qed.

Lemma assigning_discover_schema_via_tools :
  preserves P (_discover_schema_via_tools w).
Proof.
  unfold _discover_schema_via_tools.
  apply preserves_bind; [assigning | intros c].
  apply preserves_bind; [apply assigning_schema_from_tools | intros []].
  - assigning.
  - apply preserves_bind; [apply assigning_schema_from_sql_tools | intros []];
      assigning.
Qed.

Lemma assigning_store_buckets (b : buckets) : preserves P (store_buckets b).
Proof. unfold store_buckets. assigning. Qed.

Lemma assigning_discover_schema : preserves P (_discover_schema w).
Proof.
  unfold _discover_schema.
  apply preserves_try_except;
    [| intros e; apply assigning_discover_schema_via_tools].
  apply preserves_bind; [assigning | intros listed].
  apply preserves_bind; [assigning | intros [| r rs]].
  - apply assigning_discover_schema_via_tools.
  - apply preserves_bind; [assigning | intros _].
    apply preserves_bind; [assigning | intros c].
    apply preserves_bind; [assigning | intros b].
    apply assigning_store_buckets.
Qed.

End DiscoveryFrame.

Lemma discover_schema_keeps_tools (w : World) (s : state) :
  _tools (self (out_state (_discover_schema w s))) = _tools (self s)
  /\ _tools_description (self (out_state (_discover_schema w s)))
     = _tools_description (self s).
Proof.
  apply (assigning_discover_schema w
           (fun c => _tools c = _tools (self s)
                     /\ _tools_description c = _tools_description (self s)));
    try (intros v c H; exact H).
  split; reflexivity.
Qed.

Lemma initialize_run (w : World) (force_refresh : bool) (s : state) :
  _initialized (self s) && negb force_refresh = false ->
  initialize w force_refresh s
  = match w_list_tools w (log s) with
    | inl e => Raise e (after s [EvListTools])
    | inr tools =>
        let c1 := set_tools (fold_left (fun d t => dict_set (t_name t) t d) tools [])
                    (self s) in
        let c2 := set_tools_description (_build_tools_description c1) c1 in
        bind (_discover_schema w) (fun _ => modify_self (set_initialized true))
          (mk_state c2 (log s ++ [EvListTools]))
    end.
Proof.
  intros Hcond. unfold initialize. unfold bind at 1. unfold get_self at 1.
  rewrite Hcond.
  rewrite (bind_ok _ _ _ _ _ (request_run _ _ s)).
  destruct (w_list_tools w (log s)) as [e | tools]; reflexivity.
Qed.

Lemma initialize_returns (w : World) (force_refresh : bool) (s s' : state) :
  _initialized (self s) && negb force_refresh = false ->
  initialize w force_refresh s = Ok tt s' ->
  _initialized (self s') = true
  /\ nonempty (_schema_description (self s')) = true
  /\ _tools_description (self s') = _build_tools_description (self s')
  /\ exists tools,
       w_list_tools w (log s) = inr tools
       /\ _tools (self s') = fold_left (fun d t => dict_set (t_name t) t d) tools [].
Proof.
  intros Hcond. rewrite (initialize_run w force_refresh s Hcond).
  destruct (w_list_tools w (log s)) as [e | tools]; [discriminate|].
  cbv zeta. unfold bind.
  match goal with
  | |- context [_discover_schema w ?st] =>
      pose proof (discover_schema_nonempty w st) as Hne;
      pose proof (discover_schema_keeps_tools w st) as Hkeep;
      destruct (_discover_schema w st) as [[] s1 | e s1]; [| discriminate]
  end.
  intros H. injection H as <-.
  cbn [self _initialized _schema_description _tools_description _tools
         set_initialized].
  specialize (Hne s1 eq_refl). cbn [out_state] in Hkeep.
  destruct Hkeep as [Hk1 Hk2].
  cbn [self _tools _tools_description set_tools_description set_tools] in Hk1, Hk2.
  split; [reflexivity|]. split; [exact Hne|].
  split.
  - rewrite Hk2. unfold _build_tools_description.
    cbn [_tools set_tools set_initialized]. now rewrite Hk1.
  - exists tools. split; [reflexivity | exact Hk1].
Qed.

(** X5: [initialize] does nothing on an initialized client unless it is
    forced. Otherwise it lists the tools first: when that fails the exception
    is passed on and the client is left as it was, so that a later call tries
    again; and when [initialize] returns, the client is marked as initialized,
    its schema description is not empty and its tools description is the one
    built from the tools it holds. *)
Theorem initialize_outcomes (w : World) (force_refresh : bool) (s : state) :
  (_initialized (self s) = true -> initialize w false s = Ok tt s)
  /\ (_initialized (self s) && negb force_refresh = false ->
      (forall e,
         w_list_tools w (log s) = inl e ->
         initialize w force_refresh s = Raise e (after s [EvListTools]))
      /\ (forall s',
            initialize w force_refresh s = Ok tt s' ->
            _initialized (self s') = true
            /\ nonempty (_schema_description (self s')) = true
            /\ _tools_description (self s') = _build_tools_description (self s'))).
Proof.
  split.
  - intros Hinit. unfold initialize. unfold bind at 1. unfold get_self at 1.
    now rewrite Hinit.
  - intros Hcond. split.
    + intros e He. rewrite (initialize_run w force_refresh s Hcond).
      now rewrite He.
    + intros s' Hrun.
      destruct (initialize_returns w force_refresh s s' Hcond Hrun)
        as [H1 [H2 [H3 _]]].
      now repeat split.
Qed.

Lemma initialize_outcomes_witness :
  initialize world_no_tools false (mk_state new_client [])
  = Raise "connection refused" (mk_state new_client [EvListTools])
  /\ _initialized
       (self (out_state (initialize world_annotated false (mk_state new_client []))))
     = true.
Proof.
  split.
  - apply (proj1 (proj2 (initialize_outcomes world_no_tools false
                           (mk_state new_client [])) eq_refl)
             "connection refused" eq_refl).
  - apply (proj2 (proj2 (initialize_outcomes world_annotated false
                           (mk_state new_client [])) eq_refl)
             (out_state (initialize world_annotated false (mk_state new_client [])))).
    vm_compute. reflexivity.
Defined.

(** X6: the two accessors answer from the client when it is initialized,
    without any request. On a client that is not, they initialize it first,
    and what they return then is a schema description that is not empty and
    the tools description built from the tools held. *)
Theorem get_descriptions_spec (w : World) (s : state) :
  (_initialized (self s) = true ->
   get_schema_description w s = Ok (_schema_description (self s)) s
   /\ get_tools_description w s = Ok (_tools_description (self s)) s)
  /\ (_initialized (self s) = false ->
      (forall d s',
         get_schema_description w s = Ok d s' ->
         nonempty d = true /\ _initialized (self s') = true)
      /\ (forall d s',
            get_tools_description w s = Ok d s' ->
            d = _build_tools_description (self s')
            /\ _initialized (self s') = true)).
Proof.
  split.
  - intros Hinit. unfold get_schema_description, get_tools_description.
    unfold bind, get_self, ret. rewrite Hinit. cbn [negb]. now split.
  - intros Hinit.
    assert (Hcond : _initialized (self s) && negb false = false)
      by now rewrite Hinit.
    split; intros d s' Hrun.
    + unfold get_schema_description in Hrun.
      unfold bind at 1 in Hrun. unfold get_self at 1 in Hrun.
      rewrite Hinit in Hrun. cbn [negb] in Hrun. unfold bind at 1 in Hrun.
      destruct (initialize w false s) as [[] s1 | e s1] eqn:E; [| discriminate].
      destruct (initialize_returns w false s s1 Hcond E) as [H1 [H2 _]].
      cbv in Hrun. injection Hrun as <- <-. now split.
    + unfold get_tools_description in Hrun.
      unfold bind at 1 in Hrun. unfold get_self at 1 in Hrun.
      rewrite Hinit in Hrun. cbn [negb] in Hrun. unfold bind at 1 in Hrun.
      destruct (initialize w false s) as [[] s1 | e s1] eqn:E; [| discriminate].
      destruct (initialize_returns w false s s1 Hcond E) as [H1 [_ [H3 _]]].
      cbv in Hrun. injection Hrun as <- <-. now split.
Qed.

Lemma get_descriptions_spec_witness :
  nonempty
    match get_schema_description world_annotated (mk_state new_client []) with
    | Ok d _ => d
    | Raise _ _ => EmptyString
    end = true.
Proof.
  destruct (get_schema_description world_annotated (mk_state new_client []))
    as [d s' | e s'] eqn:E.
  - apply (proj1 (proj2 (get_descriptions_spec world_annotated
                           (mk_state new_client [])) eq_refl) d s' E).
  - vm_compute in E. discriminate E.
Defined.

(** *** The JSON extractor *)

Lemma scan_members_object (fuel : nat) :
  forall acc s v r,
    scan fuel (MMembers acc) s = Some (v, r) -> exists d, v = JObject d.
Proof.
  induction fuel as [| fuel IH]; intros acc s v r H; [discriminate H|].
  cbn [scan] in H.
  destruct (scanstring (S (String.length s)) s) as [[key r0] |]; [| discriminate H].
  destruct (skip_ws r0) as [| c0 r1]; [discriminate H|].
  destruct c0 as [[] [] [] [] [] [] [] []]; try discriminate H.
  destruct (scan fuel MValue (skip_ws r1)) as [[v1 r2] |]; [| discriminate H].
  destruct (skip_ws r2) as [| c3 r3]; [discriminate H|].
  destruct (nat_of_ascii c3) as [| n] eqn:E3; [discriminate H|].
  do 43 (destruct n as [| n]; [discriminate H|]).
  destruct n as [| n].
  - destruct (skip_ws r3) as [| c4 r4]; [discriminate H|].
    destruct (Nat.eqb (nat_of_ascii c4) 34); [| discriminate H].
    now apply (IH _ _ _ _ H).
  - do 80 (destruct n as [| n]; [discriminate H|]).
    destruct n as [| n]; [| discriminate H].
    injection H as <- _. now eexists.
Qed.

Lemma scan_brace_object (fuel : nat) (r : string) (v : json) (rest : string) :
  scan fuel MValue (String "{" r) = Some (v, rest) -> exists d, v = JObject d.
Proof.
  destruct fuel as [| fuel]; intros H; [discriminate H|].
  cbn [scan] in H. change (nat_of_ascii "{") with 123 in H. cbv iota in H.
  destruct (skip_ws r) as [| c1 r1]; [discriminate H|].
  destruct (nat_of_ascii c1) as [| n]; [discriminate H|].
  do 33 (destruct n as [| n]; [discriminate H|]).
  destruct n as [| n]; [now apply (scan_members_object _ _ _ _ _ H)|].
  do 90 (destruct n as [| n]; [discriminate H|]).
  destruct n as [| n]; [| discriminate H].
  injection H as <- _. now eexists.
Qed.

Lemma loads_brace_object (r : string) (v : json) :
  loads (String "{" r) = Some v -> exists d, v = JObject d.
Proof.
  unfold loads. change (skip_ws (String "{" r)) with (String "{" r).
  destruct (scan (S (String.length (String "{" r))) MValue (String "{" r))
    as [[v0 rest] |] eqn:E; [| discriminate].
  destruct (skip_ws rest); [| discriminate].
  intros H. injection H as <-. now apply (scan_brace_object _ _ _ _ E).
Qed.

Lemma rstrip_by_head (p : ascii -> bool) (c : ascii) (r : string) :
  p c = false -> exists r', rstrip_by p (String c r) = String c r'.
Proof.
  intros Hc. cbn [rstrip_by]. rewrite Hc.
  destruct (rstrip_by p r); eexists; reflexivity.
Qed.

Lemma strip_head (c : ascii) (r : string) :
  is_space c = false -> exists r', strip (String c r) = String c r'.
Proof.
  intros Hc. unfold strip, strip_by. cbn [lstrip_by]. rewrite Hc.
  now apply rstrip_by_head.
Qed.

Lemma search_code_block_brace (s g : string) :
  search_code_block s = Some g -> exists body, g = String "{" body.
Proof.
  induction s as [| c s IH]; cbn [search_code_block].
  - unfold match_code_block_at. cbn. discriminate.
  - destruct (match_code_block_at (String c s)) as [g0 |] eqn:E; [| exact IH].
    intros H. injection H as <-.
    unfold match_code_block_at in E.
    destruct (startswith FENCE (String c s)); [| discriminate E].
    destruct (lstrip_by is_space _) as [| c0 body]; [discriminate E|].
    destruct (Ascii.eqb c0 "{") eqn:Ec; [| discriminate E].
    apply Ascii.eqb_eq in Ec. subst c0.
    destruct (last_fenced_brace body); [| discriminate E].
    injection E as <-. now eexists.
Qed.

Lemma split_first_head (needle s pre post : string) :
  split_first false needle s = Some (pre, post) ->
  startswith needle (drop (String.length pre) s) = true.
Proof.
  revert pre post. induction s as [| c s IH]; intros pre post H;
    cbn [split_first] in H.
  - destruct (startswith needle EmptyString) eqn:E; [| discriminate H].
    injection H as <- _. exact E.
  - destruct (startswith needle (String c s)) eqn:E.
    + injection H as <- _. exact E.
    + destruct (split_first false needle s) as [[pre' post'] |] eqn:Es;
        [| discriminate H].
      injection H as <- _. cbn [String.length drop]. now apply (IH _ _ eq_refl).
Qed.

Lemma slice_brace (text : string) (i j : nat) :
  startswith "{" (drop i text) = true -> i < j ->
  exists body, slice text i j = String "{" body.
Proof.
  intros Hhead Hlt. unfold slice.
  destruct (drop i text) as [| c r]; [discriminate Hhead|].
  cbn [startswith] in Hhead. apply andb_true_iff in Hhead.
  destruct Hhead as [Hc _]. apply Ascii.eqb_eq in Hc. subst c.
  destruct (j - i) as [| n] eqn:E; [lia|].
  cbn [take]. now eexists.
Qed.

Lemma drop_next (i : nat) (text : string) (c : ascii) (r : string) :
  drop i text = String c r -> drop (S i) text = r.
Proof.
  revert text. induction i as [| i IH]; intros text H.
  - cbn in H. subst text. reflexivity.
  - destruct text as [| d text]; [discriminate H|].
    cbn [drop] in *. now apply IH.
Qed.

Lemma balanced_scan_brace (text : string) :
  forall s depth start i candidate,
    drop i text = s ->
    (forall st, start = Some st ->
                startswith "{" (drop st text) = true /\ st < i) ->
    balanced_scan text depth start i s = Some candidate ->
    (exists body, candidate = String "{" body) /\ loads candidate <> None.
Proof.
  induction s as [| c r IH]; intros depth start i candidate Hs Hstart H;
    cbn [balanced_scan] in H; [discriminate H|].
  pose proof (drop_next _ _ _ _ Hs) as Hnext.
  destruct (Ascii.eqb c "{") eqn:Eo.
  - apply Ascii.eqb_eq in Eo. subst c.
    apply (IH _ _ _ _ Hnext) in H; [exact H|].
    intros st Hst. destruct (depth =? 0)%Z.
    + injection Hst as <-. rewrite Hs. split; [reflexivity | lia].
    + destruct (Hstart st Hst). split; [assumption | lia].
  - destruct (Ascii.eqb c "}").
    + destruct ((depth - 1 =? 0)%Z).
      * destruct start as [st |].
        -- destruct (Hstart st eq_refl) as [Hhead Hlt].
           destruct (loads (slice text st (S i))) eqn:El.
           ++ injection H as <-. split.
              ** apply slice_brace; [exact Hhead | lia].
              ** rewrite El. discriminate.
           ++ apply (IH _ _ _ _ Hnext) in H; [exact H|].
              intros st' Hst'. discriminate Hst'.
        -- apply (IH _ _ _ _ Hnext) in H; [exact H|].
           intros st' Hst'. discriminate Hst'.
      * apply (IH _ _ _ _ Hnext) in H; [exact H|].
        intros st Hst. destruct (Hstart st Hst). split; [assumption | lia].
    + apply (IH _ _ _ _ Hnext) in H; [exact H|].
      intros st Hst. destruct (Hstart st Hst). split; [assumption | lia].
Qed.

Lemma extract_json_candidate (text candidate : string) :
  _extract_json text = Some candidate ->
  (exists body, candidate = String "{" body) /\ loads candidate <> None.
Proof.
  unfold _extract_json.
  set (t := strip (strip_open_think (strip_closed_think (String.length text) text))).
  destruct (negb (nonempty t)); [discriminate|].
  assert (Htail :
            forall first_brace last_brace,
              find "{" t = Some first_brace ->
              (last_brace <=? first_brace)%nat = false ->
              match loads (slice t first_brace (S last_brace)) with
              | Some _ => Some (slice t first_brace (S last_brace))
              | None => balanced_scan t 0%Z None 0 t
              end = Some candidate ->
              (exists body, candidate = String "{" body)
              /\ loads candidate <> None).
  { intros first_brace last_brace Hfind Hle.
    apply Nat.leb_gt in Hle. unfold find in Hfind.
    destruct (split_first false "{" t) as [[pre post] |] eqn:Ef;
      [| discriminate Hfind].
    injection Hfind as <-.
    pose proof (split_first_head _ _ _ _ Ef) as Hhead.
    destruct (loads (slice t (String.length pre) (S last_brace))) eqn:El.
    - intros H. injection H as <-. split.
      + apply slice_brace; [exact Hhead | lia].
      + rewrite El. discriminate.
    - apply (balanced_scan_brace t t 0%Z None 0 candidate eq_refl).
      intros st Hst. discriminate Hst. }
  destruct (search_code_block t) as [g |] eqn:Eg.
  - destruct (search_code_block_brace _ _ Eg) as [body ->].
    destruct (strip_head "{" body eq_refl) as [r' Hstrip].
    destruct (loads (strip (String "{" body))) eqn:El.
    + intros H. injection H as <-. split.
      * rewrite Hstrip. now eexists.
      * rewrite El. discriminate.
    + destruct (find "{" t) as [first_brace |] eqn:Ef; [| discriminate].
      destruct (rfind_char "}" t) as [last_brace |]; [| discriminate].
      destruct (last_brace <=? first_brace)%nat eqn:Ele; [discriminate|].
      now apply Htail.
  - destruct (find "{" t) as [first_brace |] eqn:Ef; [| discriminate].
    destruct (rfind_char "}" t) as [last_brace |]; [| discriminate].
    destruct (last_brace <=? first_brace)%nat eqn:Ele; [discriminate|].
    now apply Htail.
Qed.

Lemma find_cons_none (needle : string) (c : ascii) (s : string) :
  find needle (String c s) = None -> find needle s = None.
Proof.
  unfold find. cbn [split_first].
  destruct (startswith needle (String c s)); [discriminate|].
  destruct (split_first false needle s) as [[pre post] |]; [discriminate|].
  reflexivity.
Qed.

Lemma find_lstrip_none (needle s : string) (p : ascii -> bool) :
  find needle s = None -> find needle (lstrip_by p s) = None.
Proof.
  induction s as [| c s IH]; intros H; cbn [lstrip_by]; [exact H|].
  destruct (p c); [| exact H].
  apply IH. now apply (find_cons_none needle c).
Qed.

Lemma find_drop_none (needle s : string) (n : nat) :
  find needle s = None -> find needle (drop n s) = None.
Proof.
  revert s. induction n as [| n IH]; intros s H; [exact H|].
  destruct s as [| c s]; [exact H|].
  cbn [drop]. apply IH. now apply (find_cons_none needle c).
Qed.

Lemma search_code_block_needs_brace (s g : string) :
  search_code_block s = Some g -> find "{" s <> None.
Proof.
  induction s as [| c s IH]; cbn [search_code_block].
  - unfold match_code_block_at. cbn. discriminate.
  - destruct (match_code_block_at (String c s)) as [g0 |] eqn:E.
    + intros _ Hnone. unfold match_code_block_at in E.
      destruct (startswith FENCE (String c s)); [| discriminate E].
      set (r := drop 3 (String c s)) in *.
      assert (Hr : find "{" r = None) by now apply find_drop_none.
      set (r' := if startswith "json" r then drop 4 r else r) in *.
      assert (Hr' : find "{" r' = None)
        by (unfold r'; destruct (startswith "json" r);
            [now apply find_drop_none | exact Hr]).
      pose proof (find_lstrip_none "{" r' is_space Hr') as Hl.
      destruct (lstrip_by is_space r') as [| c0 body]; [discriminate E|].
      destruct (Ascii.eqb c0 "{") eqn:Ec; [| discriminate E].
      apply Ascii.eqb_eq in Ec. subst c0. discriminate Hl.
    + intros H Hnone. apply (IH H). now apply (find_cons_none "{" c).
Qed.

Lemma find_prefix_none (needle a b : string) :
  find needle (a ++ b) = None -> find needle a = None.
Proof.
  unfold find. intros H.
  destruct (split_first false needle a) as [[pre post] |] eqn:E; [| reflexivity].
  assert (Hs : split_first false needle (a ++ b) <> None)
    by (apply split_first_some_app; rewrite E; discriminate).
  destruct (split_first false needle (a ++ b)) as [[pre' post'] |];
    [discriminate H | now elim Hs].
Qed.

Lemma split_first_parts (ci : bool) (needle s pre post : string) :
  split_first ci needle s = Some (pre, post) ->
  (exists rest, s = pre ++ rest) /\ (exists n, post = drop n s).
Proof.
  revert pre post. induction s as [| c s IH]; intros pre post H;
    cbn [split_first] in H.
  - destruct (if ci then _ else _); [| discriminate H].
    injection H as <- <-. split; [now exists EmptyString|].
    now exists (String.length needle).
  - destruct (if ci then _ else _).
    + injection H as <- <-. split; [now exists (String c s)|].
      now exists (String.length needle).
    + destruct (split_first ci needle s) as [[pre' post'] |]; [| discriminate H].
      injection H as <- <-.
      destruct (IH _ _ eq_refl) as [[rest Hrest] [n Hn]]. split.
      * exists rest. cbn. now rewrite <- Hrest.
      * now exists (S n).
Qed.

Lemma rstrip_by_prefix (p : ascii -> bool) (s : string) :
  exists rest, s = rstrip_by p s ++ rest.
Proof.
  induction s as [| c s [rest IH]]; [now exists EmptyString|].
  cbn [rstrip_by]. destruct (rstrip_by p s) as [| d r'] eqn:E.
  - destruct (p c); [now exists (String c s)|].
    exists s. reflexivity.
  - exists rest. rewrite IH at 1. reflexivity.
Qed.

Lemma find_char_none (c : ascii) (s : string) :
  find (String c EmptyString) s = None <-> mem_char c s = false.
Proof.
  unfold find. induction s as [| d s IH]; cbn [split_first startswith mem_char].
  - split; [reflexivity | reflexivity].
  - rewrite andb_true_r. destruct (Ascii.eqb c d); cbn [orb].
    + split; discriminate.
    + destruct (split_first false (String c EmptyString) s) as [[pre post] |].
      * split; [discriminate|]. intros H. apply IH in H. discriminate H.
      * split; [intros _; now apply IH | reflexivity].
Qed.

Lemma mem_char_drop (c : ascii) (n : nat) (s : string) :
  mem_char c s = false -> mem_char c (drop n s) = false.
Proof.
  revert s. induction n as [| n IH]; intros s H; [exact H|].
  destruct s as [| d s]; [exact H|].
  cbn [drop mem_char] in *. apply orb_false_iff in H. now apply IH.
Qed.

Lemma mem_char_prefix (c : ascii) (a b : string) :
  mem_char c (a ++ b) = false -> mem_char c a = false.
Proof.
  induction a as [| d a IH]; [reflexivity|].
  cbn [String.append mem_char]. intros H. apply orb_false_iff in H.
  destruct H as [H1 H2]. rewrite H1. now apply IH.
Qed.

Lemma mem_char_strip_closed_think (c : ascii) (fuel : nat) :
  forall text,
    mem_char c text = false ->
    mem_char c (strip_closed_think fuel text) = false.
Proof.
  induction fuel as [| fuel IH]; intros text H; [exact H|].
  destruct text as [| d r]; [exact H|].
  rewrite strip_closed_think_eq.
  assert (Hcons : mem_char c (String d (strip_closed_think fuel r)) = false).
  { cbn [mem_char] in *. apply orb_false_iff in H. destruct H as [H1 H2].
    rewrite H1. now apply IH. }
  destruct (startswith_ci THINK_OPEN (String d r)); [| exact Hcons].
  destruct (split_first true THINK_CLOSE (drop 7 (String d r)))
    as [[pre post] |] eqn:E; [| exact Hcons].
  apply IH. destruct (split_first_parts _ _ _ _ _ E) as [_ [n ->]].
  now do 2 apply mem_char_drop.
Qed.

Lemma mem_char_strip_think (c : ascii) (text : string) :
  mem_char c text = false -> mem_char c (strip (strip_think text)) = false.
Proof.
  intros H. unfold strip_think, strip, strip_by.
  pose proof (mem_char_strip_closed_think c (String.length text) text H) as H1.
  set (t1 := strip_closed_think (String.length text) text) in *.
  assert (H2 : mem_char c (strip_open_think t1) = false).
  { unfold strip_open_think.
    destruct (split_first true THINK_OPEN t1) as [[pre post] |] eqn:E;
      [| exact H1].
    destruct (split_first_parts _ _ _ _ _ E) as [[rest Hrest] _].
    rewrite Hrest in H1. now apply (mem_char_prefix c pre rest). }
  set (t2 := strip_open_think t1) in *.
  assert (H3 : mem_char c (lstrip_by is_space t2) = false).
  { clear -H2. induction t2 as [| d t2 IH]; [reflexivity|].
    cbn [lstrip_by]. destruct (is_space d); [| exact H2].
    cbn [mem_char] in H2. apply orb_false_iff in H2. now apply IH. }
  destruct (rstrip_by_prefix is_space (lstrip_by is_space t2)) as [rest Hrest].
  rewrite Hrest in H3. now apply (mem_char_prefix c _ rest).
Qed.

(** X7: whatever the text, a candidate that [_extract_json] returns begins
    with an opening brace and decodes to a JSON object: the extractor never
    hands over a string that does not parse, nor one that parses to a list, a
    string or a number, on which the planner's [plan.get] would fail. A text
    without an opening brace yields no candidate. *)
Theorem extract_json_returns_object (text : string) :
  (forall candidate,
     _extract_json text = Some candidate ->
     exists body fields,
       candidate = String "{" body /\ loads candidate = Some (JObject fields))
  /\ (find "{" text = None -> _extract_json text = None).
Proof.
  split.
  - intros candidate H.
    destruct (extract_json_candidate text candidate H) as [[body ->] Hloads].
    destruct (loads (String "{" body)) as [v |] eqn:E; [| now elim Hloads].
    destruct (loads_brace_object body v E) as [fields ->].
    now exists body, fields.
  - intros Hnone. apply find_char_none in Hnone.
    apply mem_char_strip_think in Hnone. apply find_char_none in Hnone.
    unfold strip_think in Hnone.
    destruct (_extract_json text) as [candidate |] eqn:E; [| reflexivity].
    exfalso. revert E. unfold _extract_json.
    set (t := strip (strip_open_think (strip_closed_think (String.length text) text)))
      in *.
    destruct (negb (nonempty t)); [discriminate|].
    change (find "{" t) with (find (String "{" EmptyString) t).
    rewrite Hnone.
    destruct (search_code_block t) as [g |] eqn:Eg; [| discriminate].
    exfalso. now apply (search_code_block_needs_brace t g Eg).
Qed.

Lemma extract_json_returns_object_witness :
  (exists body fields,
     text_ab1 = String "{" body /\ loads text_ab1 = Some (JObject fields))
  /\ _extract_json "SELECT 1" = None.
Proof.
  split.
  - apply (proj1 (extract_json_returns_object input_trailing) text_ab1).
    vm_compute. reflexivity.
  - apply (proj2 (extract_json_returns_object "SELECT 1")). reflexivity.
Defined.

(** *** Planning failures *)

Lemma plan_loop_message (w : World) (user_query : string)
    (max_iterations remaining : nat) (results : list tool_result)
    (discovered : string) (s : state) (m : string) :
  plan_of_llm (w_llm w (log s) (plan_prompt w (self s) user_query discovered))
  = message_plan m ->
  plan_loop w user_query max_iterations (S remaining) 0 results discovered s
  = Ok (Returned (JString m) [])
      (after s [EvLLM (plan_prompt w (self s) user_query discovered)]).
Proof.
  intros Hp. cbn [plan_loop].
  rewrite (bind_ok _ _ _ _ _ (plan_tool_usage_run w user_query discovered s)).
  rewrite Hp. reflexivity.
Qed.

(** X8: when the planner cannot produce a plan, [intelligent_query] neither
    raises nor calls a tool: the failure is returned as the answer, with an
    empty result list, after the one model call. A model call that fails with
    the message [e] gives the answer ["Error: " ++ e]; a reply in which neither
    a JSON object nor a SQL statement is found gives the parse-failure message
    with the first 200 characters of the reply, its newlines replaced by
    spaces. *)
Theorem intelligent_query_planner_failure (w : World) (user_query : string)
    (max_iterations : nat) (s s1 : state) :
  prepare w s = Ok tt s1 ->
  let prompt := plan_prompt w (self s1) user_query EmptyString in
  (forall e,
     w_llm w (log s1) prompt = inl e ->
     intelligent_query w user_query (S max_iterations) s
     = Ok (JString ("Error: " ++ e), []) (after s1 [EvLLM prompt]))
  /\ (forall reply,
        w_llm w (log s1) prompt = inr reply ->
        _extract_json (strip reply) = None ->
        _extract_sql_fallback (strip reply) = None ->
        intelligent_query w user_query (S max_iterations) s
        = Ok (JString ("Failed to parse LLM response. Preview: "
                         ++ reply_preview (strip reply) ++ "..."), [])
            (after s1 [EvLLM prompt])).
Proof.
  intros Hprep prompt. split.
  - intros e He. rewrite intelligent_query_eq, (bind_ok _ _ _ _ _ Hprep).
    rewrite (bind_ok _ _ _ _ _
               (plan_loop_message w user_query _ _ [] EmptyString s1
                  ("Error: " ++ e)
                  ltac:(fold prompt; rewrite He; reflexivity))).
    reflexivity.
  - intros reply Hreply Hjson Hsql.
    rewrite intelligent_query_eq, (bind_ok _ _ _ _ _ Hprep).
    rewrite (bind_ok _ _ _ _ _
               (plan_loop_message w user_query _ _ [] EmptyString s1
                  ("Failed to parse LLM response. Preview: "
                     ++ reply_preview (strip reply) ++ "...")
                  ltac:(fold prompt; rewrite Hreply; cbn [plan_of_llm];
                        unfold plan_of_reply; rewrite Hjson, Hsql;
                        reflexivity))).
    reflexivity.
Qed.

Lemma intelligent_query_planner_failure_witness :
  intelligent_query world_silent "average volume of XYZ" 3 ready
  = Ok (JString "Error: model offline", [])
      (after ready
         [EvLLM (plan_prompt world_silent ready_client "average volume of XYZ"
                   EmptyString)])
  /\ intelligent_query world_chatty "average volume of XYZ" 3 ready
     = Ok (JString "Failed to parse LLM response. Preview: I do not know....", [])
         (after ready
            [EvLLM (plan_prompt world_chatty ready_client "average volume of XYZ"
                      EmptyString)]).
Proof.
  split.
  - apply (proj1 (intelligent_query_planner_failure world_silent
                    "average volume of XYZ" 2 ready ready eq_refl)
             "model offline").
    reflexivity.
  - apply (proj2 (intelligent_query_planner_failure world_chatty
                    "average volume of XYZ" 2 ready ready eq_refl)
             "I do not know.");
      vm_compute; reflexivity.
Defined.

(** X9: when the reply of the planner holds no JSON object but a SQL
    statement, [intelligent_query] executes exactly that statement with the
    SQL tool, once, and synthesizes the answer from its result, which it
    returns with the purpose ["Execute user query"]. *)
Theorem intelligent_query_sql_fallback (w : World) (user_query : string)
    (max_iterations : nat) (s s1 : state) (reply sql_query : string) :
  prepare w s = Ok tt s1 ->
  let prompt := plan_prompt w (self s1) user_query EmptyString in
  w_llm w (log s1) prompt = inr reply ->
  _extract_json (strip reply) = None ->
  _extract_sql_fallback (strip reply) = Some sql_query ->
  exists r answer,
    run_sql w sql_query (after s1 [EvLLM prompt])
    = Ok r (after s1 [EvLLM prompt; sql_call sql_query])
    /\ let results := [with_purpose "Execute user query" r] in
       intelligent_query w user_query (S max_iterations) s
       = Ok (JString answer, results)
           (after s1
              [EvLLM prompt; sql_call sql_query;
               EvLLM (SynthesisPrompt user_query
                        (join NL (results_text_from w 1 results)))]).
Proof.
  intros Hprep prompt Hreply Hjson Hsql.
  destruct (run_sql_after w sql_query (after s1 [EvLLM prompt])) as [r Hr].
  rewrite after_after in Hr. cbn [app] in Hr.
  set (results := [with_purpose "Execute user query" r]).
  destruct (synthesize_run w user_query results
              (after s1 [EvLLM prompt; sql_call sql_query])) as [answer Hsyn].
  rewrite after_after in Hsyn. cbn [app] in Hsyn.
  exists r, answer. split; [exact Hr|]. cbv zeta. fold results.
  rewrite intelligent_query_eq, (bind_ok _ _ _ _ _ Hprep).
  assert (Hloop :
            plan_loop w user_query (S max_iterations) (S max_iterations) 0 []
              EmptyString s1
            = Ok (Synthesize results) (after s1 [EvLLM prompt; sql_call sql_query])).
  { cbn [plan_loop].
    rewrite (bind_ok _ _ _ _ _ (plan_tool_usage_run w user_query EmptyString s1)).
    fold prompt. rewrite Hreply. cbn [plan_of_llm].
    unfold plan_of_reply. rewrite Hjson, Hsql.
    change (data_unavailable _) with false. cbv iota.
    change (py_truthy (get_or "steps" EmptyString _)) with true. cbn [negb].
    change (steps_of _)
      with [JObject [("tool", JString SQL_TOOL);
                     ("arguments", query_arguments sql_query);
                     ("purpose", JString "Execute user query")]].
    cbn [execute_steps]. unfold execute_step.
    change (dict_get "tool" _) with (Some (JString SQL_TOOL)).
    change (dict_get "arguments" _) with (Some (query_arguments sql_query)).
    change (get_or "purpose" EmptyString _) with (JString "Execute user query").
    cbv iota.
    unfold run_sql in Hr. unfold bind. rewrite Hr.
    change (any_keyword_in SCHEMA_PURPOSE_KEYWORDS (lower "Execute user query"))
      with false.
    reflexivity. }
  rewrite (bind_ok _ _ _ _ _ Hloop). unfold results at 1. cbn [conclude].
  fold results. rewrite (bind_ok _ _ _ _ _ Hsyn). reflexivity.
Qed.

Lemma intelligent_query_sql_fallback_witness :
  exists r answer,
    run_sql world_plain_sql "SELECT * FROM x"
      (after ready
         [EvLLM (plan_prompt world_plain_sql ready_client "rows of x" EmptyString)])
    = Ok r
        (after ready
           [EvLLM (plan_prompt world_plain_sql ready_client "rows of x" EmptyString);
            sql_call "SELECT * FROM x"])
    /\ intelligent_query world_plain_sql "rows of x" 3 ready
       = Ok (JString answer, [with_purpose "Execute user query" r])
           (after ready
              [EvLLM (plan_prompt world_plain_sql ready_client "rows of x"
                        EmptyString);
               sql_call "SELECT * FROM x";
               EvLLM (SynthesisPrompt "rows of x"
                        (join NL
                           (results_text_from world_plain_sql 1
                              [with_purpose "Execute user query" r])))]).
Proof.
  apply (intelligent_query_sql_fallback world_plain_sql "rows of x" 2 ready ready
           "Use SELECT * FROM x LIMIT 10 for this." "SELECT * FROM x" eq_refl);
    vm_compute; reflexivity.
Defined.

(** *** [intelligent_query] returns *)

Lemma plan_loop_returns (w : World) (user_query : string) (max_iterations : nat) :
  (forall history prompt, plan_runs w (plan_of_llm (w_llm w history prompt))) ->
  forall remaining iteration results discovered s,
    returns (plan_loop w user_query max_iterations remaining iteration results
               discovered s).
Proof.
  intros Hruns. induction remaining as [| remaining IH];
    intros iteration results discovered s; cbn [plan_loop]; [exact I|].
  rewrite (bind_ok _ _ _ _ _ (plan_tool_usage_run w user_query discovered s)).
  set (prompt := plan_prompt w (self s) user_query discovered).
  destruct (Hruns (log s) prompt) as [Hun Hsteps].
  set (p := plan_of_llm (w_llm w (log s) prompt)) in *.
  destruct (data_unavailable p).
  - destruct (Hun eq_refl) as [a Ha]. rewrite Ha. exact I.
  - destruct (py_truthy (get_or "steps" EmptyString p)); cbn [negb].
    + specialize (Hsteps eq_refl eq_refl).
      set (acc0 := mk_progress results discovered false).
      set (s1 := after s [EvLLM prompt]).
      destruct (execute_steps_spec w (steps_of p) acc0 s1)
        as [new [_ [_ [Hret _]]]].
      specialize (Hret Hsteps). unfold bind.
      destruct (execute_steps w acc0 (steps_of p) s1) as [acc s2 | e s2];
        [| destruct Hret].
      destruct (schema_discovery_done acc && (iteration <? max_iterations - 1)%nat);
        [apply IH | exact I].
    + destruct (Nat.eqb iteration 0); exact I.
Qed.


Lemma world_always_discovers_runs (history : list event) (prompt : Client.prompt) :
  plan_runs world_always_discovers
    (plan_of_llm (w_llm world_always_discovers history prompt)).
Proof.
  split.
  - intros H. vm_compute in H. discriminate H.
  - intros _ _. vm_compute. reflexivity.
Defined.


(** *** The SQL cleanup *)

Lemma letter_case (l c : ascii) :
  In l ["s"; "e"; "l"; "c"; "t"]%char ->
  Ascii.eqb l (lower_char c) = true ->
  is_space c = false /\ upper_char c = upper_char l.
Proof.
  intros Hin H.
  destruct c as [[] [] [] [] [] [] [] []];
    destruct Hin as [<- | [<- | [<- | [<- | [<- | []]]]]];
    try discriminate H; split; reflexivity.
Qed.

Lemma rstrip_by_cons (p : ascii -> bool) (c : ascii) (r : string) :
  p c = false -> rstrip_by p (String c r) = String c (rstrip_by p r).
Proof.
  intros Hc. cbn [rstrip_by]. rewrite Hc. destruct (rstrip_by p r); reflexivity.
Qed.

Lemma startswith_ci_select (m : string) :
  startswith_ci "SELECT" m = true ->
  startswith "SELECT" (upper (strip m)) = true.
Proof.
  unfold startswith_ci. change (lower "SELECT") with "select".
  destruct m as [| c1 [| c2 [| c3 [| c4 [| c5 [| c6 r]]]]]];
    cbn [lower map_chars startswith]; intros H;
    try (rewrite ?andb_false_r in H; discriminate H).
  apply andb_true_iff in H. destruct H as [L1 H].
  apply andb_true_iff in H. destruct H as [L2 H].
  apply andb_true_iff in H. destruct H as [L3 H].
  apply andb_true_iff in H. destruct H as [L4 H].
  apply andb_true_iff in H. destruct H as [L5 H].
  apply andb_true_iff in H. destruct H as [L6 _].
  apply letter_case in L1; [| cbn; tauto].
  apply letter_case in L2; [| cbn; tauto].
  apply letter_case in L3; [| cbn; tauto].
  apply letter_case in L4; [| cbn; tauto].
  apply letter_case in L5; [| cbn; tauto].
  apply letter_case in L6; [| cbn; tauto].
  destruct L1 as [S1 U1], L2 as [S2 U2], L3 as [S3 U3], L4 as [S4 U4],
    L5 as [S5 U5], L6 as [S6 U6].
  unfold strip, strip_by. cbn [lstrip_by]. rewrite S1.
  rewrite !rstrip_by_cons by assumption.
  cbn [upper map_chars startswith].
  rewrite U1, U2, U3, U4, U5, U6. reflexivity.
Qed.

Lemma search_select_head (s m : string) :
  search_select s = Some m -> startswith_ci "SELECT" m = true.
Proof.
  induction s as [| c s IH]; cbn [search_select].
  - cbn. discriminate.
  - destruct (startswith_ci "SELECT" (String c s)) eqn:E; cbn [andb].
    + destruct (drop 6 (String c s)) as [| d [| d' r]]; try exact IH.
      destruct (is_space d); [| exact IH].
      intros H. injection H as <-. exact E.
    + exact IH.
Qed.

Lemma clean_sql_select (content sql_query : string) :
  clean_sql content = Some sql_query ->
  startswith "SELECT" (upper sql_query) = true.
Proof.
  unfold clean_sql.
  match goal with
  | |- (if startswith "SELECT" (upper ?q) then _ else _) = _ -> _ =>
      set (cleaned := q); destruct (startswith "SELECT" (upper cleaned)) eqn:E
  end.
  - intros H. injection H as <-. exact E.
  - destruct (search_select cleaned) as [m |] eqn:Em; [| discriminate].
    intros H. injection H as <-.
    apply startswith_ci_select. now apply (search_select_head cleaned).
Qed.

(** *** [simple_chat_query] *)

Lemma simple_chat_query_eq (w : World) (user_query : string) (s : state) :
  simple_chat_query w user_query s
  = bind (prepare w) (fun _ => chat_after_prepare w user_query) s.
Proof.
  unfold simple_chat_query, prepare, chat_after_prepare, bind, get_self, ret.
  destruct (negb (_initialized (self s))).
  - destruct (initialize w false s) as [[] s1 | e s1]; [| reflexivity].
    destruct (negb (_data_content_discovered (self s1))); [| reflexivity].
    destruct (discover_data_content w None false s1) as [d s2 | e s2];
      reflexivity.
  - destruct (negb (_data_content_discovered (self s))); [| reflexivity].
    destruct (discover_data_content w None false s) as [d s2 | e s2];
      reflexivity.
Qed.

Lemma generate_simple_answer_run (w : World) (user_query sql_query : string)
    (data : json) (s : state) :
  match data_preview data with
  | inl e => _generate_simple_answer w user_query sql_query data s = Raise e s
  | inr preview =>
      exists answer,
        _generate_simple_answer w user_query sql_query data s
        = Ok answer
            (after s [EvLLM (SimpleAnswerPrompt user_query sql_query (fst preview)
                               (snd preview))])
  end.
Proof.
  unfold _generate_simple_answer.
  destruct (data_preview data) as [e | preview]; cbn [lift]; [reflexivity|].
  unfold bind at 1. unfold ret at 1.
  rewrite (bind_ok _ _ _ _ _ (request_run _ _ s)).
  destruct (w_llm w (log s) _); eexists; reflexivity.
Qed.

(** The [try] block of [simple_chat_query] with its [except] clause:
    it returns, after the model call and at most one tool call, which runs
    the cleaned reply. *)
Lemma generate_and_run_outcome (w : World) (user_query : string) (p : prompt)
    (s : state) :
  exists out new,
    try_except (generate_and_run w user_query p) chat_error s
    = Ok out (after s (EvLLM p :: new))
    /\ (forall e,
          w_llm w (log s) p = inl e ->
          out = ("Error: " ++ e, None, JArray []) /\ new = [])
    /\ (forall reply,
          w_llm w (log s) p = inr reply ->
          match clean_sql reply with
          | None =>
              out = ("Could not generate SQL for: " ++ user_query, None, JArray [])
              /\ new = []
          | Some sql_query =>
              exists r rest,
                run_sql w sql_query (after s [EvLLM p])
                = Ok r (after s [EvLLM p; sql_call sql_query])
                /\ new = sql_call sql_query :: rest
                /\ tool_calls rest = []
                /\ (has_error r || r_isError r = true ->
                    out = ("Query failed: " ++ error_message r, Some sql_query,
                           JArray [])
                    /\ rest = [])
                /\ (has_error r || r_isError r = false ->
                    py_truthy (rows_of r) = false ->
                    out = ("Query executed but returned no data.", Some sql_query,
                           rows_of r)
                    /\ rest = [])
          end).
Proof.
  unfold try_except, generate_and_run.
  rewrite (bind_ok _ _ _ _ _ (request_run _ _ s)).
  fold (after s [EvLLM p]).
  destruct (w_llm w (log s) p) as [e | reply]; cbn [lift].
  - exists ("Error: " ++ e, None, JArray []), [].
    split; [reflexivity|]. split.
    + intros e' He. injection He as <-. now split.
    + intros reply Habs. discriminate Habs.
  - unfold bind at 1. unfold ret at 1.
    destruct (clean_sql reply) as [sql_query |] eqn:Esql.
    + destruct (run_sql_after w sql_query (after s [EvLLM p])) as [r Hr].
      rewrite after_after in Hr. cbn [app] in Hr.
      rewrite (bind_ok _ _ _ _ _ Hr).
      fold (rows_of r). fold (error_message r).
      destruct (has_error r || r_isError r) eqn:Eerr.
      * eexists. exists [sql_call sql_query]. split; [reflexivity|]. split.
        -- intros e Habs. discriminate Habs.
        -- intros reply' Hreply. injection Hreply as <-. rewrite Esql.
           exists r, []. repeat split; intros; try assumption; try reflexivity;
             congruence.
      * destruct (py_truthy (rows_of r)) eqn:Edata.
        -- pose proof (generate_simple_answer_run w user_query sql_query
                         (rows_of r) (after s [EvLLM p; sql_call sql_query]))
             as Hgen.
           destruct (data_preview (rows_of r)) as [e | preview].
           ++ rewrite (bind_raise _ _ _ _ _ Hgen).
              eexists. exists [sql_call sql_query]. split; [reflexivity|]. split.
              ** intros e' Habs. discriminate Habs.
              ** intros reply' Hreply. injection Hreply as <-. rewrite Esql.
                 exists r, []. repeat split; intros; try assumption;
                   try reflexivity; congruence.
           ++ destruct Hgen as [answer Hgen]. rewrite after_after in Hgen.
              cbn [app] in Hgen. rewrite (bind_ok _ _ _ _ _ Hgen).
              eexists. eexists. split; [reflexivity|]. split.
              ** intros e' Habs. discriminate Habs.
              ** intros reply' Hreply. injection Hreply as <-. rewrite Esql.
                 exists r. eexists. split; [exact Hr|].
                 split; [reflexivity|]. split; [reflexivity|].
                 split; intros; congruence.
        -- eexists. exists [sql_call sql_query]. split; [reflexivity|]. split.
           ++ intros e Habs. discriminate Habs.
           ++ intros reply' Hreply. injection Hreply as <-. rewrite Esql.
              exists r, []. repeat split; intros; try assumption;
                try reflexivity; congruence.
    + eexists. exists []. split; [reflexivity|]. split.
      * intros e Habs. discriminate Habs.
      * intros reply' Hreply. injection Hreply as <-. rewrite Esql. now split.
Qed.

Lemma read_schema_resources_run (w : World) (rs : list resource) :
  forall (info : string) (s : state),
  exists text new,
    read_schema_resources w rs info s = Ok text (after s new)
    /\ tool_calls new = []
    /\ ((forall r, In r rs -> mem_str (name r) SCHEMA_RESOURCE_NAMES = false) ->
        text = info /\ new = []).
Proof.
  induction rs as [| r rest IH]; intros info s; cbn [read_schema_resources].
  - exists info, []. rewrite after_nil. repeat split.
  - destruct (mem_str (name r) SCHEMA_RESOURCE_NAMES) eqn:Ename.
    + destruct (read_resource_run w (uri r) s) as [content Hread].
      rewrite (bind_ok _ _ _ _ _ Hread).
      match goal with
      | |- context [read_schema_resources w rest ?i ?st] =>
          destruct (IH i st) as [text [new [Hrun [Hcalls _]]]]
      end.
      exists text, (EvReadResource (uri r) :: new).
      rewrite Hrun, after_after. split; [reflexivity|]. split; [exact Hcalls|].
      intros Hnone. specialize (Hnone r (or_introl eq_refl)). congruence.
    + destruct (IH info s) as [text [new [Hrun [Hcalls Hsame]]]].
      exists text, new. split; [exact Hrun|]. split; [exact Hcalls|].
      intros Hnone. apply Hsame. intros r' Hin. apply Hnone. now right.
Qed.

Lemma answer_from_schema_run (w : World) (user_query : string) (s : state) :
  exists out new,
    _answer_from_schema w user_query s = Ok out (after s new)
    /\ tool_calls new = []
    /\ ((forall r, In r (_resources (self s)) ->
                   mem_str (name r) SCHEMA_RESOURCE_NAMES = false) ->
        nonempty (_schema_description (self s)) = true ->
        let p := SchemaAnswerPrompt (_schema_description (self s)) user_query in
        new = [EvLLM p]
        /\ out = match w_llm w (log s) p with
                 | inr reply => Some (strip reply)
                 | inl _ => None
                 end).
Proof.
  unfold _answer_from_schema. unfold bind at 1. unfold get_self at 1.
  destruct (read_schema_resources_run w (_resources (self s)) EmptyString s)
    as [text [new [Hrun [Hcalls Hsame]]]].
  rewrite (bind_ok _ _ _ _ _ Hrun).
  assert (Hself : _schema_description (self (after s new))
                  = _schema_description (self s)) by reflexivity.
  set (info := if negb (nonempty text) && nonempty (_schema_description (self s))
               then _schema_description (self s) else text).
  destruct (negb (nonempty info)) eqn:Einfo.
  - exists None, new. split; [reflexivity|]. split; [exact Hcalls|].
    intros Hnone Hne. destruct (Hsame Hnone) as [-> ->].
    unfold info in Einfo. cbn [nonempty negb andb] in Einfo.
    rewrite Hne in Einfo. rewrite Hne in Einfo. discriminate Einfo.
  - rewrite (bind_ok _ _ _ _ _ (request_run _ _ (after s new))).
    exists (match w_llm w (log (after s new)) (SchemaAnswerPrompt info user_query) with
            | inr reply => Some (strip reply)
            | inl _ => None
            end), (new ++ [EvLLM (SchemaAnswerPrompt info user_query)])%list.
    split.
    + destruct (w_llm w (log (after s new)) _);
        unfold ret, after; cbn [self log]; now rewrite <- app_assoc.
    + split; [rewrite tool_calls_app, Hcalls; reflexivity|].
      intros Hnone Hne. destruct (Hsame Hnone) as [Htext Hnew].
      subst text new. unfold info. cbn [nonempty negb andb].
      rewrite Hne. rewrite after_nil. now split.
Qed.



(** X12: the answers of [simple_chat_query] when a question that is not about
    the schema cannot be answered from data; none of them raises. A failing
    model call gives ["Error: "] and the message, without a query. A reply
    without a [SELECT] statement gives the could-not-generate message, and no
    tool is called. A query whose result is flagged as an error or carries an
    error gives ["Query failed: "] and the error, or a default text when the
    result has no error key, together with the query. A query that returns no
    rows gives a fixed text with the query. In the two last cases the model is
    not called again. *)
Theorem simple_chat_query_failures (w : World) (user_query : string)
    (s s1 : state) :
  prepare w s = Ok tt s1 ->
  any_keyword_in SCHEMA_QUESTION_KEYWORDS (lower user_query) = false ->
  let p := chat_prompt w (self s1) user_query in
  (forall e,
     w_llm w (log s1) p = inl e ->
     simple_chat_query w user_query s
     = Ok ("Error: " ++ e, None, JArray []) (after s1 [EvLLM p]))
  /\ (forall reply,
        w_llm w (log s1) p = inr reply ->
        clean_sql reply = None ->
        simple_chat_query w user_query s
        = Ok ("Could not generate SQL for: " ++ user_query, None, JArray [])
            (after s1 [EvLLM p]))
  /\ (forall reply sql_query,
        w_llm w (log s1) p = inr reply ->
        clean_sql reply = Some sql_query ->
        exists r,
          run_sql w sql_query (after s1 [EvLLM p])
          = Ok r (after s1 [EvLLM p; sql_call sql_query])
          /\ (has_error r || r_isError r = true ->
              simple_chat_query w user_query s
              = Ok ("Query failed: " ++ error_message r, Some sql_query, JArray [])
                  (after s1 [EvLLM p; sql_call sql_query]))
          /\ (has_error r || r_isError r = false ->
              py_truthy (rows_of r) = false ->
              simple_chat_query w user_query s
              = Ok ("Query executed but returned no data.", Some sql_query,
                    rows_of r)
                  (after s1 [EvLLM p; sql_call sql_query]))).
Proof.
  intros Hprep Hkw p.
  assert (Heq : simple_chat_query w user_query s
                = try_except (generate_and_run w user_query p) chat_error s1).
  { rewrite simple_chat_query_eq, (bind_ok _ _ _ _ _ Hprep).
    unfold chat_after_prepare. rewrite Hkw. reflexivity. }
  rewrite Heq.
  destruct (generate_and_run_outcome w user_query p s1)
    as [out [new [Hrun [Hfail Hreply]]]].
  rewrite Hrun. split; [| split].
  - intros e He. destruct (Hfail e He) as [-> ->]. reflexivity.
  - intros reply Hllm Hsql. specialize (Hreply reply Hllm). rewrite Hsql in Hreply.
    destruct Hreply as [-> ->]. reflexivity.
  - intros reply sql_query Hllm Hsql. specialize (Hreply reply Hllm).
    rewrite Hsql in Hreply.
    destruct Hreply as [r [rest [Hr [-> [_ [Herr Hempty]]]]]].
    exists r. split; [exact Hr|]. split.
    + intros H. destruct (Herr H) as [-> ->]. reflexivity.
    + intros H1 H2. destruct (Hempty H1 H2) as [-> ->]. reflexivity.
Qed.

Lemma simple_chat_query_failures_witness :
  simple_chat_query world_silent "rows of x" ready
  = Ok ("Error: model offline", None, JArray [])
      (after ready [EvLLM (chat_prompt world_silent ready_client "rows of x")])
  /\ simple_chat_query world_drop "rows of x" ready
     = Ok ("Could not generate SQL for: rows of x", None, JArray [])
         (after ready [EvLLM (chat_prompt world_drop ready_client "rows of x")]).
Proof.
  split.
  - apply (proj1 (simple_chat_query_failures world_silent "rows of x" ready ready
                    eq_refl eq_refl) "model offline").
    reflexivity.
  - apply (proj1 (proj2 (simple_chat_query_failures world_drop "rows of x" ready
                           ready eq_refl eq_refl)) "DROP TABLE x");
      vm_compute; reflexivity.
Defined.

(** X13: a question about the schema is answered from the schema alone when
    the model gives an answer: with no resource named after the schema to
    read and a cached schema description that is not empty, the only request
    is the model call with that description, the stripped reply is returned
    without a query and without rows, and no tool is called. When that model
    call fails or its reply is blank, the question goes on to the SQL
    generation. *)
Theorem simple_chat_query_schema_question (w : World) (user_query : string)
    (s s1 : state) :
  prepare w s = Ok tt s1 ->
  any_keyword_in SCHEMA_QUESTION_KEYWORDS (lower user_query) = true ->
  (forall r, In r (_resources (self s1)) ->
             mem_str (name r) SCHEMA_RESOURCE_NAMES = false) ->
  nonempty (_schema_description (self s1)) = true ->
  let p := SchemaAnswerPrompt (_schema_description (self s1)) user_query in
  (forall reply,
     w_llm w (log s1) p = inr reply ->
     nonempty (strip reply) = true ->
     simple_chat_query w user_query s
     = Ok (strip reply, None, JArray []) (after s1 [EvLLM p]))
  /\ ((forall reply, w_llm w (log s1) p = inr reply -> strip reply = EmptyString) ->
      simple_chat_query w user_query s
      = try_except
          (generate_and_run w user_query (chat_prompt w (self s1) user_query))
          chat_error (after s1 [EvLLM p])).
Proof.
  intros Hprep Hkw Hnone Hne p.
  rewrite simple_chat_query_eq, (bind_ok _ _ _ _ _ Hprep).
  unfold chat_after_prepare. rewrite Hkw.
  destruct (answer_from_schema_run w user_query s1)
    as [out [new [Hrun [_ Hshape]]]].
  destruct (Hshape Hnone Hne) as [-> ->]. fold p in Hrun |- *.
  rewrite (bind_ok _ _ _ _ _ Hrun). split.
  - intros reply Hreply Hanswer. rewrite Hreply.
    destruct (strip reply) as [| ch rest]; [discriminate Hanswer | reflexivity].
  - intros Hblank.
    destruct (w_llm w (log s1) p) as [e | reply]; [reflexivity|].
    rewrite (Hblank reply eq_refl). reflexivity.
Qed.

Lemma simple_chat_query_schema_question_witness :
  simple_chat_query world_answers "What tables are there?" described
  = Ok ("Table daily.", None, JArray [])
      (after described
         [EvLLM (SchemaAnswerPrompt "TABLE ANALYSIS: daily" "What tables are there?")]).
Proof.
  apply (proj1 (simple_chat_query_schema_question world_answers
                  "What tables are there?" described described eq_refl eq_refl
                  ltac:(intros r []) eq_refl) " Table daily. ");
    reflexivity.
Defined.

(** *** Reading query results *)

Lemma fold_left_invariant {A B : Type} (P : A -> Prop) (f : A -> B -> A)
    (l : list B) (init : A) :
  P init ->
  (forall acc x, In x l -> P acc -> P (f acc x)) ->
  P (fold_left f l init).
Proof.
  revert init. induction l as [| x l IH]; intros init Hinit Hstep; [exact Hinit|].
  cbn [fold_left]. apply IH.
  - apply Hstep; [now left | exact Hinit].
  - intros acc y Hin. apply Hstep. now right.
Qed.

Lemma ForallOrdPairs_snoc {A : Type} (R : A -> A -> Prop) (l : list A) (a : A) :
  ForallOrdPairs R l -> Forall (fun x => R x a) l ->
  ForallOrdPairs R (l ++ [a]).
Proof.
  induction 1 as [| x l Hx Hl IH]; intros Ha; cbn [app].
  - repeat constructor.
  - inversion Ha as [| ? ? Hxa Hla]; subst. constructor.
    + apply Forall_app. split; [exact Hx | now constructor].
    + now apply IH.
Qed.

Lemma extract_column_values_props (result : tool_result) (column : string) :
  Forall (fun v => py_truthy v = true) (_extract_column_values result column)
  /\ distinct_values (_extract_column_values result column)
  /\ Forall (column_value_of result column)
       (_extract_column_values result column).
Proof.
  unfold _extract_column_values.
  apply (fold_left_invariant
           (fun vs => Forall (fun v => py_truthy v = true) vs
                      /\ distinct_values vs
                      /\ Forall (column_value_of result column) vs)).
  - repeat split; constructor.
  - intros acc item Hitem Hacc. unfold add_item_values.
    destruct (item_data item) as [[| | | | | | | rows |] |] eqn:Edata;
      try exact Hacc.
    apply (fold_left_invariant
             (fun vs => Forall (fun v => py_truthy v = true) vs
                        /\ distinct_values vs
                        /\ Forall (column_value_of result column) vs));
      [exact Hacc|].
    intros vs row Hrow [Htruthy [Hdistinct Hfrom]]. unfold add_row_value.
    destruct row as [| | | | | | | | fields]; try now repeat split.
    destruct (dict_get column fields) as [val |] eqn:Eval; [| now repeat split].
    destruct (py_truthy val) eqn:Et; [| now repeat split].
    destruct (py_in val vs) eqn:Ein; [now repeat split|].
    cbn [andb negb]. split; [| split].
    + apply Forall_app. split; [exact Htruthy | now repeat constructor].
    + apply ForallOrdPairs_snoc; [exact Hdistinct|].
      unfold py_in in Ein. apply Forall_forall. intros x Hx.
      destruct (py_eq val x) eqn:E; [| reflexivity].
      assert (Hex : existsb (py_eq val) vs = true)
        by (apply existsb_exists; now exists x).
      congruence.
    + apply Forall_app. split; [exact Hfrom|].
      constructor; [| constructor].
      now exists item, rows, fields.
Qed.


(** *** Table discovery with SQL *)

Lemma tables_via_sql_run (w : World) (queries : list string) :
  forall s,
  exists tables n,
    tables_via_sql w queries [] s
    = Ok tables (after s (map sql_call (firstn n queries)))
    /\ n <= List.length queries
    /\ (tables = [] -> n = List.length queries)
    /\ (queries <> [] -> 1 <= n).
Proof.
  induction queries as [| query rest IH]; intros s; cbn [tables_via_sql].
  - exists [], 0. rewrite after_nil. repeat split; try reflexivity.
    intros H. now elim H.
  - destruct (run_sql_after w query s) as [r Hr].
    rewrite (bind_ok _ _ _ _ _ Hr).
    destruct (IH (after s [sql_call query])) as [tables [n [Hrun [Hle [Hall _]]]]].
    assert (Hnext :
              exists tables0 n0,
                tables_via_sql w rest [] (after s [sql_call query])
                = Ok tables0 (after s (map sql_call (firstn n0 (query :: rest))))
                /\ n0 <= List.length (query :: rest)
                /\ (tables0 = [] -> n0 = List.length (query :: rest))
                /\ (query :: rest <> [] -> 1 <= n0)).
    { exists tables, (S n). rewrite Hrun, after_after. cbn [firstn map app length].
      repeat split; try lia. intros H. now rewrite (Hall H). }
    destruct (succeeded r); [| exact Hnext].
    cbn [app].
    destruct (flat_map _ (get_content r)) as [| t more] eqn:Enames;
      [exact Hnext|].
    exists (t :: more), 1. cbn [firstn map length].
    repeat split; try lia. discriminate.
Qed.


Lemma discover_tables_via_sql_run (w : World) (s : state) :
  exists tables s1,
    _discover_tables_via_sql w s = Ok tables s1 /\ self s1 = self s.
Proof.
  destruct (tables_via_sql_run w TABLE_DISCOVERY_QUERIES s)
    as [tables [n [Hrun _]]].
  exists tables. eexists. split; [exact Hrun | reflexivity].
Qed.

Lemma for_each_probe_returns (w : World) (entries : list (string * list string)) :
  forall s, exists s', for_each entries (probe_table w) s = Ok tt s'.
Proof.
  induction entries as [| entry rest IH]; intros s; cbn [for_each].
  - now exists s.
  - pose proof (probe_table_returns w entry s) as Hret.
    destruct (probe_table w entry s) as [[] s1 | e s1] eqn:E; [| destruct Hret].
    rewrite (bind_ok _ _ _ _ _ E). apply IH.
Qed.

Lemma discover_data_content_run (w : World) (tables : option (list string))
    (force_refresh : bool) (s : state) :
  _initialized (self s) = true ->
  _data_content_discovered (self s) && negb force_refresh = false ->
  discover_data_content w tables force_refresh s
  = bind
      match tables_from_schema w (self s) tables with
      | [] =>
          bind (_discover_tables_via_sql w)
            (fun table_list => lift (empty_columns_dict w table_list []))
      | found => ret found
      end
      (fun found =>
         match found with
         | [] => bind get_self (fun c => ret (_data_content c))
         | _ =>
             bind (for_each found (probe_table w))
               (fun _ =>
                  bind (modify_self (set_data_content_discovered true))
                    (fun _ => bind get_self (fun c => ret (_data_content c))))
         end) s.
Proof.
  intros Hinit Hcond. unfold discover_data_content.
  unfold bind at 1. unfold get_self at 1. rewrite Hcond.
  unfold bind at 1. rewrite Hinit. cbn [negb]. unfold ret at 1.
  unfold bind at 1. unfold get_self at 1.
  unfold tables_from_schema.
  destruct tables as [ts |];
    [destruct (restrict_tables ts _)
    | destruct (_extract_tables_and_columns_from_schema w _ _)];
    reflexivity.
Qed.

(** X16: the outcomes of a data-content discovery on an initialized client.
    With the cache filled and no forced refresh the cache is returned and
    nothing is requested. Otherwise, when the schema names a requested table,
    the run returns and marks the content as discovered. When it names none,
    the tables are listed with SQL: if the listing yields nothing, the run
    returns with the client unchanged, not marked as discovered, so that the
    next query lists the tables again; if a name in the listing is a list or a
    dict, the run raises a [TypeError]; otherwise it returns and marks the
    content as discovered. *)
Theorem discover_data_content_outcomes (w : World) (tables : option (list string))
    (force_refresh : bool) (s : state) :
  (_data_content_discovered (self s) = true ->
   discover_data_content w tables false s = Ok (_data_content (self s)) s)
  /\ (_initialized (self s) = true ->
      _data_content_discovered (self s) && negb force_refresh = false ->
      match tables_from_schema w (self s) tables with
      | _ :: _ =>
          exists s',
            discover_data_content w tables force_refresh s
            = Ok (_data_content (self s')) s'
            /\ _data_content_discovered (self s') = true
      | [] =>
          exists table_list s1,
            _discover_tables_via_sql w s = Ok table_list s1
            /\ self s1 = self s
            /\ match empty_columns_dict w table_list [] with
               | inl e =>
                   discover_data_content w tables force_refresh s = Raise e s1
               | inr [] =>
                   discover_data_content w tables force_refresh s
                   = Ok (_data_content (self s)) s1
               | inr (_ :: _) =>
                   exists s',
                     discover_data_content w tables force_refresh s
                     = Ok (_data_content (self s')) s'
                     /\ _data_content_discovered (self s') = true
               end
      end).
Proof.
  split.
  - intros Hdisc. unfold discover_data_content.
    unfold bind at 1. unfold get_self at 1. now rewrite Hdisc.
  - intros Hinit Hcond.
    rewrite (discover_data_content_run w tables force_refresh s Hinit Hcond).
    assert (Hprobe :
              forall entry rest s0,
                exists s',
                  bind (for_each (entry :: rest) (probe_table w))
                    (fun _ =>
                       bind (modify_self (set_data_content_discovered true))
                         (fun _ => bind get_self (fun c => ret (_data_content c))))
                    s0
                  = Ok (_data_content (self s')) s'
                  /\ _data_content_discovered (self s') = true).
    { intros entry rest s0.
      destruct (for_each_probe_returns w (entry :: rest) s0) as [s1 H1].
      rewrite (bind_ok _ _ _ _ _ H1).
      eexists. split; reflexivity. }
    destruct (tables_from_schema w (self s) tables) as [| entry rest].
    + destruct (discover_tables_via_sql_run w s) as [table_list [s1 [Hrun Hself]]].
      exists table_list, s1. split; [exact Hrun|]. split; [exact Hself|].
      destruct (empty_columns_dict w table_list []) as [e | [| entry rest]]
        eqn:Edict.
      * unfold bind at 1. unfold bind at 1. rewrite Hrun, Edict. reflexivity.
      * unfold bind at 1. unfold bind at 1. rewrite Hrun, Edict.
        unfold lift, bind, get_self, ret. now rewrite Hself.
      * unfold bind at 1. unfold bind at 1. rewrite Hrun, Edict.
        unfold lift, ret at 1. apply Hprobe.
    + unfold bind at 1. unfold ret at 1. apply Hprobe.
Qed.

Lemma discover_data_content_outcomes_witness :
  discover_data_content world_nested_name None false fresh
  = Raise "unhashable type: 'list'" (after fresh [sql_call "SHOW TABLES"])
  /\ discover_data_content world_no_rows None false fresh
     = Ok [] (after fresh (map sql_call TABLE_DISCOVERY_QUERIES)).
Proof.
  split.
  - pose proof (proj2 (discover_data_content_outcomes world_nested_name None false
                         fresh) eq_refl eq_refl) as H.
    vm_compute in H. destruct H as [table_list [s1 [Hrun [_ H]]]].
    injection Hrun as <- <-. vm_compute in H. vm_compute. exact H.
  - pose proof (proj2 (discover_data_content_outcomes world_no_rows None false
                         fresh) eq_refl eq_refl) as H.
    vm_compute in H. destruct H as [table_list [s1 [Hrun [_ H]]]].
    injection Hrun as <- <-. vm_compute in H. vm_compute. exact H.
Defined.

(** *** The entries of the data-content cache *)

Lemma probe_row_count_shape (w : World) (table : string) (info : table_info) :
  ensures (probe_row_count w table info)
    (fun info' => info' = info \/ exists v, info' = set_row_count v info).
Proof.
  intros s. unfold probe_row_count, bind.
  destruct (run_sql_after w (count_query table) s) as [r Hr]. rewrite Hr.
  destruct (succeeded r); [| now left].
  destruct (_extract_single_value r "row_count") as [e | [v |]];
    cbn [lift raise ret]; try exact I; try now left.
  destruct v; try (right; eexists; reflexivity). now left.
Qed.

Lemma probe_symbols_shape (w : World) (c : client) (table : string)
    (cols : list string) (info : table_info) :
  ensures (probe_symbols w c table cols info)
    (fun info' =>
       info' = info
       \/ exists v vs col,
            info' = set_symbols (v :: vs) col info
            /\ hd_error (matching_columns (symbol_patterns c) cols) = Some col
            /\ Forall (fun x => py_truthy x = true) (v :: vs)
            /\ distinct_values (v :: vs)).
Proof.
  intros s. unfold probe_symbols, bind.
  destruct (matching_columns (symbol_patterns c) cols) as [| col more];
    [now left|].
  destruct (run_sql_after w (symbols_query col table) s) as [r Hr]. rewrite Hr.
  destruct (succeeded r); [| now left].
  destruct (extract_column_values_props r col) as [Ht [Hd _]].
  destruct (_extract_column_values r col) as [| v vs]; [now left|].
  right. exists v, vs, col. now repeat split.
Qed.

Lemma probe_dates_shape (w : World) (c : client) (table : string)
    (cols : list string) (info : table_info) :
  ensures (probe_dates w c table cols info)
    (fun info' =>
       info' = info
       \/ exists found col,
            info' = update_date_info found col info
            /\ hd_error (matching_columns (date_patterns c) cols) = Some col).
Proof.
  intros s. unfold probe_dates, bind.
  destruct (matching_columns (date_patterns c) cols) as [| col more];
    [now left|].
  destruct (run_sql_after w (date_query col table) s) as [r Hr]. rewrite Hr.
  destruct (succeeded r); [| now left].
  destruct (_extract_date_range w r) as [e | found];
    cbn [lift raise ret]; [exact I|].
  destruct (date_info_nonempty found); [| now left].
  right. now exists found, col.
Qed.

Lemma probe_text_shape (w : World) (c : client) (table : string)
    (cols : list string) (info : table_info) :
  ensures (probe_text w c table cols info)
    (fun info' =>
       match matching_columns (text_patterns c) cols with
       | [] => info' = info
       | col :: more =>
           info' = set_text_columns (col :: more) info
           \/ exists v vs,
                info' = set_sample_text col (firstn 10 (v :: vs))
                          (set_text_columns (col :: more) info)
       end).
Proof.
  intros s. unfold probe_text, bind.
  destruct (matching_columns (text_patterns c) cols) as [| col more];
    [reflexivity|].
  match goal with
  | |- context [run_sql w ?q s] => destruct (run_sql_after w q s) as [r Hr]
  end.
  rewrite Hr.
  destruct (succeeded r); [| now left].
  destruct (_extract_column_values r col) as [| v vs]; [now left|].
  right. now exists v, vs.
Qed.

Lemma probe_columns_shape (w : World) (table : string) (schema_columns : list string)
    (s : state) :
  match probe_columns w table schema_columns s with
  | Ok (cols, info) s0 =>
      self s0 = self s
      /\ info = new_table_info cols
      /\ (schema_columns <> [] -> cols = schema_columns)
  | Raise _ s0 => self s0 = self s
  end.
Proof.
  destruct schema_columns as [| col more].
  - destruct (run_sql_after w (columns_query table) s) as [r Hr].
    rewrite (probe_columns_unknown w table s r _ Hr).
    destruct (_extract_columns_from_result r) as [e | [| c1 cs]];
      [reflexivity | |]; repeat split; intros H; now elim H.
  - rewrite probe_columns_known. now repeat split.
Qed.

Lemma firstn_10_length {A : Type} (l : list A) : List.length (firstn 10 l) <= 10.
Proof. apply firstn_le_length. Qed.

Lemma probe_chain_ok (w : World) (c : client) (table : string) (cols : list string)
    (s : state) :
  match
    bind (probe_row_count w table (new_table_info cols))
      (fun i1 => bind (probe_symbols w c table cols i1)
         (fun i2 => bind (probe_dates w c table cols i2)
            (fun i3 => probe_text w c table cols i3))) s
  with
  | Ok info _ => columns info = cols /\ entry_ok c cols info
  | Raise _ _ => True
  end.
Proof.
  unfold bind.
  pose proof (probe_row_count_shape w table (new_table_info cols) s) as H1.
  destruct (probe_row_count w table (new_table_info cols) s) as [i1 s1 | e s1];
    [| exact I].
  pose proof (probe_symbols_shape w c table cols i1 s1) as H2.
  destruct (probe_symbols w c table cols i1 s1) as [i2 s2 | e s2]; [| exact I].
  pose proof (probe_dates_shape w c table cols i2 s2) as H3.
  destruct (probe_dates w c table cols i2 s2) as [i3 s3 | e s3]; [| exact I].
  pose proof (probe_text_shape w c table cols i3 s3) as H4.
  destruct (probe_text w c table cols i3 s3) as [i4 s4 | e s4]; [| exact I].
  unfold entry_ok, symbols_ok, dates_ok, text_ok, sample_ok.
  destruct H1 as [-> | [n ->]];
    destruct H2 as [-> | [v [vs [scol [-> [Hs [Ht Hd]]]]]]];
    destruct H3 as [-> | [found [dcol [-> Hdate]]]];
    destruct (matching_columns (text_patterns c) cols) as [| tcol more] eqn:Etext;
    try (destruct H4 as [-> | [x [xs ->]]]); try subst i4;
    cbn [columns symbols symbol_column date_column date_range text_columns
           sample_text new_table_info set_row_count set_symbols update_date_info
           set_text_columns set_sample_text hd_error];
    repeat split; try assumption; try reflexivity; try discriminate;
    try apply firstn_10_length.
Qed.


(** *** The search entry point *)

Lemma count_records_from (tool_results : list tool_result) (total : nat) :
  fold_left
    (fun total result =>
       let content := get_content result in
       match content with
       | _ :: _ =>
           if negb (has_error result) then total + List.length content else total
       | [] => total
       end)
    tool_results total
  = total + list_sum (map counted tool_results).
Proof.
  unfold list_sum.
  revert total. induction tool_results as [| r rest IH]; intros total;
    cbn [fold_left map fold_right]; [lia|].
  rewrite IH. unfold counted.
  destruct (get_content r) as [| item items]; destruct (has_error r);
    cbn [negb List.length]; lia.
Qed.

Lemma count_records_sum (tool_results : list tool_result) :
  _count_records_from_results tool_results = list_sum (map counted tool_results).
Proof. unfold _count_records_from_results. now rewrite count_records_from. Qed.

(** X18: the record count is the number of content items of the results that
    carry no error message: it adds up over the results, a result with an
    error message counts for nothing, and the result that [call_tool] builds
    from an exception counts for nothing when the exception has a message,
    but for one record, its error text, when the message is empty. *)
Theorem count_records_from_results_spec (w : World) :
  (forall xs ys,
     _count_records_from_results (xs ++ ys)
     = _count_records_from_results xs + _count_records_from_results ys)
  /\ (forall r,
        _count_records_from_results [r]
        = if has_error r then 0 else List.length (get_content r))
  /\ (forall tool_name arguments s e,
        w_call_tool w (log s) tool_name arguments = inl e ->
        exists r s',
          call_tool w tool_name arguments s = Ok r s'
          /\ _count_records_from_results [r] = if nonempty e then 0 else 1).
Proof.
  split; [| split].
  - intros xs ys. rewrite !count_records_sum, map_app, list_sum_app. reflexivity.
  - intros r. rewrite count_records_sum. cbn [map list_sum fold_right].
    unfold counted. lia.
  - intros tool_name arguments s e He. unfold call_tool.
    rewrite (bind_ok _ _ _ _ _ (request_run _ _ s)). rewrite He.
    eexists. eexists. split; [reflexivity|].
    rewrite count_records_sum. cbn [map list_sum fold_right].
    unfold counted, has_error.
    cbn [r_error get_content r_content]. destruct (nonempty e); reflexivity.
Qed.

Lemma count_records_from_results_spec_witness :
  exists r s',
    call_tool world_mute_exception (JString SQL_TOOL) (JObject []) ready = Ok r s'
    /\ _count_records_from_results [r] = 1.
Proof.
  apply (proj2 (proj2 (count_records_from_results_spec world_mute_exception))
           (JString SQL_TOOL) (JObject []) ready EmptyString).
  reflexivity.
Defined.

(** X19: [search_kdb_nat] with KDB+ disabled answers with the empty triple
    without any request and without calling the progress callback.
    Otherwise it raises only when the callback raises: without the [mcp]
    package, and whenever the query raises, the answer is the empty triple.
    What it returns is either the empty triple, or an answer that is not
    empty and does not begin with ["Unable to answer"], together with the
    citations and the record count of the results of the query. *)
Theorem search_kdb_nat_spec (w : World) (KDB_ENABLED _mcp_available : bool)
    (json_dumps : json -> string) (writer : string -> string + unit)
    (query : string) (s : state) :
  let search := search_kdb_nat w KDB_ENABLED _mcp_available json_dumps writer in
  (KDB_ENABLED = false -> search query s = Ok NO_ANSWER s)
  /\ (KDB_ENABLED = true ->
      match writer query with
      | inl e => search query s = Raise e s
      | inr _ =>
          exists out s',
            search query s = Ok out s'
            /\ (_mcp_available = false -> out = NO_ANSWER /\ s' = s)
            /\ (forall e s1,
                  intelligent_query w query 3 s = Raise e s1 ->
                  out = NO_ANSWER)
            /\ (out = NO_ANSWER
                \/ exists answer results,
                     intelligent_query w query 3 s = Ok (JString answer, results) s'
                     /\ nonempty answer = true
                     /\ startswith "Unable to answer" answer = false
                     /\ out = (answer,
                               _format_intelligent_citations w json_dumps query
                                 results,
                               _count_records_from_results results))
      end).
Proof.
  unfold search_kdb_nat. split.
  - intros ->. reflexivity.
  - intros ->. cbn [negb]. unfold bind at 1.
    destruct (writer query) as [e | []]; cbn [lift]; [reflexivity|].
    unfold ret at 1. unfold try_except.
    destruct _mcp_available; cbn [negb].
    + unfold bind.
      destruct (intelligent_query w query 3 s) as [[answer results] s1 | e s1]
        eqn:Erun.
      * destruct (py_truthy answer) eqn:Etruthy; cbn [negb].
        -- destruct answer as [| | | | | | a | |];
             try (exists NO_ANSWER; eexists; split; [reflexivity|];
                  split; [discriminate|]; split; [discriminate | now left]).
           destruct (startswith "Unable to answer" a) eqn:Eun.
           ++ exists NO_ANSWER. eexists. split; [reflexivity|].
              split; [discriminate|]. split; [discriminate | now left].
           ++ eexists. eexists. split; [reflexivity|].
              split; [discriminate|]. split; [discriminate|].
              right. exists a, results. now repeat split.
        -- exists NO_ANSWER. eexists. split; [reflexivity|].
           split; [discriminate|]. split; [discriminate | now left].
      * exists NO_ANSWER. eexists. split; [reflexivity|].
        split; [discriminate|]. split; [reflexivity | now left].
    + exists NO_ANSWER, s. split; [reflexivity|].
      split; [now split|]. split; [reflexivity | now left].
Qed.

Example search_kdb_nat_runs :
  search_kdb_nat world_unable true true dumps_basic (fun _ => inr tt)
    "average volume of XYZ" ready
  = Ok NO_ANSWER
      (after ready
         [EvLLM (plan_prompt world_unable ready_client "average volume of XYZ"
                   EmptyString)])
  /\ (exists citations s',
        search_kdb_nat world_discover_then_query true true dumps_basic
          (fun _ => inr tt) "average volume of XYZ" ready
        = Ok ("Table x has one row.", citations, 2) s').
Proof.
  split; [vm_compute; reflexivity|].
  eexists. eexists. vm_compute. reflexivity.
Qed.

(** *** Merging the sources *)

Lemma usable_content (r : SourceResult) :
  usable (Some r) = true -> nonempty (content r) = true.
Proof.
  unfold usable, is_empty. destruct (nonempty (content r)); [reflexivity|].
  discriminate.
Qed.

(** X20: the merged content is never empty. A source is used when it is
    relevant and its content is not empty in the sense of [is_empty]: with
    both sources usable their contents are put under two headings, KDB+
    first; with one usable source its content and citation are returned as
    they are. With no usable source a KDB+ result that has any content is
    returned all the same, relevant or not, before a document result, and the
    fixed sentence is the last resort. A content of 200 characters or more is
    never empty in the sense of [is_empty]. *)
Theorem merge_hybrid_results_spec (kdb_result rag_result : option SourceResult)
    (query : string) :
  let merged := merge_hybrid_results kdb_result rag_result query in
  nonempty (fst merged) = true
  /\ match kdb_result, rag_result with
     | Some kdb, Some rag =>
         if usable kdb_result && usable rag_result then
           fst merged
           = "**Financial Data (KDB+):**" ++ NL ++ content kdb ++ NL ++ NL
               ++ "**Document Analysis (RAG):**" ++ NL ++ content rag
         else if usable kdb_result then merged = (content kdb, citation kdb)
         else if usable rag_result then merged = (content rag, citation rag)
         else if nonempty (content kdb) then merged = (content kdb, citation kdb)
         else if nonempty (content rag) then merged = (content rag, citation rag)
         else merged = (NOTHING_FOUND, EmptyString)
     | Some only, None | None, Some only =>
         if nonempty (content only) then merged = (content only, citation only)
         else merged = (NOTHING_FOUND, EmptyString)
     | None, None => merged = (NOTHING_FOUND, EmptyString)
     end
  /\ (forall r, 200 <= String.length (content r) -> is_empty r = false).
Proof.
  cbv zeta. split; [| split].
  - unfold merge_hybrid_results.
    destruct kdb_result as [kdb |], rag_result as [rag |].
    + destruct (usable (Some kdb)) eqn:Ek, (usable (Some rag)) eqn:Er;
        cbn [andb fst]; try reflexivity.
      * now apply usable_content.
      * now apply usable_content.
      * destruct (nonempty (content kdb)) eqn:E1; [exact E1|].
        destruct (nonempty (content rag)) eqn:E2; [exact E2 | reflexivity].
    + destruct (usable (Some kdb)) eqn:Ek; cbn [fst];
        [now apply usable_content|].
      destruct (nonempty (content kdb)) eqn:E1; [exact E1 | reflexivity].
    + destruct (usable (Some rag)) eqn:Er; cbn [fst];
        [now apply usable_content|].
      destruct (nonempty (content rag)) eqn:E1; [exact E1 | reflexivity].
    + reflexivity.
  - unfold merge_hybrid_results.
    destruct kdb_result as [kdb |], rag_result as [rag |].
    + destruct (usable (Some kdb)) eqn:Ek, (usable (Some rag)) eqn:Er;
        cbn [andb fst]; try reflexivity.
      destruct (nonempty (content kdb)); [reflexivity|].
      destruct (nonempty (content rag)); reflexivity.
    + destruct (usable (Some kdb)) eqn:Ek.
      * now rewrite (usable_content kdb Ek).
      * destruct (nonempty (content kdb)); reflexivity.
    + destruct (usable (Some rag)) eqn:Er.
      * now rewrite (usable_content rag Er).
      * destruct (nonempty (content rag)); reflexivity.
    + reflexivity.
  - intros r Hlen. unfold is_empty.
    destruct (content r) as [| c rest] eqn:E; [cbn in Hlen; lia|].
    cbn [nonempty negb].
    replace (String.length (String c rest) <? 200)%nat with false
      by (symmetry; apply Nat.ltb_ge; exact Hlen).
    apply andb_false_r.
Qed.

Lemma merge_hybrid_results_spec_witness :
  merge_hybrid_results
    (Some (mk_SourceResult "kdb" "Error: model offline" "c1" false None 0%Q))
    (Some (mk_SourceResult "rag" "no results" "c2" true None 0%Q))
    "average volume of XYZ"
  = ("Error: model offline", "c1").
Proof.
  exact (proj1 (proj2 (merge_hybrid_results_spec
                         (Some (mk_SourceResult "kdb" "Error: model offline" "c1"
                                  false None 0%Q))
                         (Some (mk_SourceResult "rag" "no results" "c2" true None
                                  0%Q))
                         "average volume of XYZ"))).
Defined.

(** *** The plan of a reply *)



(** *** The readers of the first row *)

Lemma dict_get_keys {V : Type} (k : string) (d : list (string * V)) :
  dict_get k d <> None <-> In k (dict_keys d).
Proof.
  unfold dict_keys. induction d as [| [k' v] d IH]; cbn [dict_get map fst In].
  - split; [intros H; now elim H | intros []].
  - destruct (String.eqb k k') eqn:E.
    + apply String.eqb_eq in E. subst k'. split; [now left | discriminate].
    + apply String.eqb_neq in E. rewrite IH. split; [now right|].
      intros [H | H]; [congruence | exact H].
Qed.


(** *** Tools without a description *)

Lemma fold_dict_set_head (tools : list tool) :
  forall (n : string) (t : tool) (d : list (string * tool)),
    (forall t', In t' tools -> t_name t' <> n) ->
    exists d',
      fold_left (fun d t => dict_set (t_name t) t d) tools ((n, t) :: d)
      = (n, t) :: d'.
Proof.
  induction tools as [| t0 rest IH]; intros n t d Hnames; cbn [fold_left].
  - now exists d.
  - cbn [dict_set].
    destruct (String.eqb (t_name t0) n) eqn:E.
    + apply String.eqb_eq in E. exfalso. apply (Hnames t0); [now left | exact E].
    + apply IH. intros t' Hin. apply Hnames. now right.
Qed.

Lemma discover_schema_via_tools_undescribed (w : World) (s : state)
    (tool_name : string) (t : tool) (rest : list (string * tool)) :
  _tools (self s) = (tool_name, t) :: rest ->
  t_description t = None ->
  _discover_schema_via_tools w s = Raise NONE_HAS_NO_LOWER s.
Proof.
  intros Htools Hdesc. unfold _discover_schema_via_tools.
  unfold bind at 1. unfold get_self at 1. rewrite Htools.
  cbn [schema_from_tools]. rewrite Hdesc. reflexivity.
Qed.

(** X23: a tool that the server lists without a description makes the
    initialization fail when the server offers no resources: the schema
    discovery then goes through the tools, and lower-casing the missing
    description of the first tool raises before any tool is called. The
    initialized mark of the client is left as it was. *)
Theorem initialize_raises_on_undescribed_tool (w : World) (force_refresh : bool)
    (s : state) (t : tool) (tools : list tool) :
  _initialized (self s) && negb force_refresh = false ->
  w_list_tools w (log s) = inr (t :: tools) ->
  t_description t = None ->
  (forall t', In t' tools -> t_name t' <> t_name t) ->
  (forall first others,
     w_list_resources w (log s ++ [EvListTools]) <> inr (first :: others)) ->
  exists c',
    initialize w force_refresh s
    = Raise NONE_HAS_NO_LOWER
        (mk_state c' (log s ++ [EvListTools; EvListResources]))
    /\ _initialized c' = _initialized (self s).
Proof.
  intros Hcond Hlist Hdesc Hnames Hres.
  rewrite (initialize_run w force_refresh s Hcond), Hlist. cbv zeta.
  cbn [fold_left dict_set].
  destruct (fold_dict_set_head tools (t_name t) t [] Hnames) as [d' Hd].
  rewrite Hd.
  match goal with
  | |- context [bind (_discover_schema w) _ (mk_state ?c ?l)] =>
      set (c2 := c); set (s2 := mk_state c l)
  end.
  assert (Hvia : forall l,
             _discover_schema_via_tools w (mk_state c2 l)
             = Raise NONE_HAS_NO_LOWER (mk_state c2 l)).
  { intros l.
    apply (discover_schema_via_tools_undescribed w _ (t_name t) t d');
      [reflexivity | exact Hdesc]. }
  assert (Hraise : _discover_schema w s2
                   = Raise NONE_HAS_NO_LOWER
                       (mk_state c2 (log s ++ [EvListTools; EvListResources]))).
  { unfold _discover_schema, try_except.
    rewrite (bind_ok _ _ _ _ _ (request_run _ _ s2)).
    unfold s2. cbn [self log]. rewrite <- app_assoc. cbn [app].
    destruct (w_list_resources w (log s ++ [EvListTools]))
      as [e | [| first others]] eqn:E.
    - cbn [lift]. unfold bind at 1. unfold raise at 1. apply Hvia.
    - cbn [lift]. unfold bind at 1. unfold ret at 1. rewrite Hvia. apply Hvia.
    - now elim (Hres first others). }
  rewrite (bind_raise _ _ _ _ _ Hraise).
  exists c2. split; reflexivity.
Qed.

Lemma initialize_raises_on_undescribed_tool_witness :
  exists c',
    initialize world_undescribed false (mk_state new_client [])
    = Raise NONE_HAS_NO_LOWER (mk_state c' [EvListTools; EvListResources])
    /\ _initialized c' = false.
Proof.
  apply (initialize_raises_on_undescribed_tool world_undescribed false
           (mk_state new_client []) bare_tool [] eq_refl eq_refl eq_refl).
  - intros t' [].
  - intros first others H. discriminate H.
Defined.
